(** * ExtractThinker: pagination merge pipeline and LLM request gateway

    A shallow embedding of [extract_thinker/pagination_handler.py] and
    [extract_thinker/llm.py], with the properties of the merge, the
    conflict resolution, the page dispatch, the budget controller and
    the request gateway. *)

From Stdlib Require Import ZArith Ascii String List Bool Lia Permutation QArith.
From Stdlib Require Import Floats.SpecFloat.
Import ListNotations.
Open Scope string_scope.
Open Scope list_scope.
Open Scope Z_scope.

Set Warnings "-register-all".

(** ** Python values

    The values that [model_dump()] puts in a result dictionary: [None],
    integers, strings, lists and nested dictionaries.  Booleans and floats
    are outside the modelled universe. *)

Inductive pyval : Type :=
| VNone : pyval
| VInt : Z -> pyval
| VStr : string -> pyval
| VList : list pyval -> pyval
| VDict : list (string * pyval) -> pyval.

(** A Python [dict] with string keys, in insertion order. *)
Definition dict : Type := list (string * pyval).

(** What an [IncompleteOutputException] carries: its message and the
    completion that was cut off, the attribute [last_completion]. *)
Record incomplete : Type := Incomplete {
  incomplete_message : string;
  last_completion : pyval
}.

(** Exceptions the modelled code can raise. *)
Inductive exn : Type :=
| TypeError : exn
| KeyError : string -> exn
| AttributeError : exn
| IndexError : exn
| ValueError : string -> exn
| OverflowError : exn
| ValidationError : exn
| IncompleteOutputException : incomplete -> exn
| OtherException : string -> exn.

Inductive result (A : Type) : Type :=
| Ok : A -> result A
| Raise : exn -> result A.
Arguments Ok {A} _.
Arguments Raise {A} _.

Definition bind {A B : Type} (r : result A) (k : A -> result B) : result B :=
  match r with
  | Ok a => k a
  | Raise e => Raise e
  end.

Notation "x <- r ;; k" := (bind r (fun x => k))
  (at level 61, r at next level, right associativity).

(** [isinstance(v, list)], [isinstance(v, dict)], [v is not None]. *)
Definition is_list (v : pyval) : bool :=
  match v with VList _ => true | _ => false end.

Definition is_dict (v : pyval) : bool :=
  match v with VDict _ => true | _ => false end.

Definition is_not_none (v : pyval) : bool :=
  match v with VNone => false | _ => true end.

(** [hash(v)] succeeds on [None], integers and strings, and raises
    [TypeError] on lists and dictionaries. *)
Definition hashable (v : pyval) : bool :=
  match v with
  | VNone | VInt _ | VStr _ => true
  | VList _ | VDict _ => false
  end.

(** *** Dictionary operations *)

Fixpoint dict_get {V : Type} (k : string) (d : list (string * V)) : option V :=
  match d with
  | [] => None
  | (k', v) :: d' => if String.eqb k k' then Some v else dict_get k d'
  end.

Definition dict_has {V : Type} (k : string) (d : list (string * V)) : bool :=
  match dict_get k d with Some _ => true | None => false end.

(** [d[k] = v]: overwrite in place, or append a new key at the end. *)
Fixpoint dict_set {V : Type} (k : string) (v : V) (d : list (string * V))
  : list (string * V) :=
  match d with
  | [] => [(k, v)]
  | (k', v') :: d' =>
      if String.eqb k k' then (k', v) :: d' else (k', v') :: dict_set k v d'
  end.

(** ** Schemas

    [response_model.model_fields]: field name to annotation.  Only the
    shape that [typing.get_origin] looks at is kept. *)

Inductive annotation : Type :=
| AInt : annotation
| AStr : annotation
| AModel : annotation
| AList : annotation -> annotation
| AOptional : annotation -> annotation.

Definition schema : Type := list (string * annotation).

(** [get_origin(field_type) is list]: true for [List[...]] only; the origin
    of [Optional[List[...]]] is [Union]. *)
Definition origin_is_list (a : annotation) : bool :=
  match a with AList _ => true | _ => false end.

(** [field_type and get_origin(field_type) is list], where [field_type] is
    [None] for a name that is not in [model_fields]. *)
Definition is_list_field (m : schema) (f : string) : bool :=
  match dict_get f m with
  | Some a => origin_is_list a
  | None => false
  end.

(** ** Sets

    [list(set(vs))].  Building the set raises [TypeError] on an unhashable
    element.  Python leaves the iteration order of a set unspecified, so
    the order is a parameter [order] of the model, with the two facts every
    Python set satisfies collected in [set_order_ok]. *)

Definition set_order_ok (order : list pyval -> list pyval) : Prop :=
  forall vs, NoDup (order vs) /\ (forall v, In v (order vs) <-> In v vs).

Definition list_set (order : list pyval -> list pyval) (vs : list pyval)
  : result (list pyval) :=
  if forallb hashable vs then Ok (order vs) else Raise TypeError.

(** ** The partial-result reconciler: [_merge_results] *)

(** The conflict marker [{"_conflict": True, "candidates": [...]}].  The
    flag is the one truthy value of the universe that the code stores. *)
Definition py_true : pyval := VInt 1.

Definition conflict_marker (candidates : list pyval) : pyval :=
  VDict [("_conflict", py_true); ("candidates", VList candidates)].

(** First loop (lines 75-81): the values of every field over all results,
    keyed in order of first appearance. *)
Definition collect_item (fv : list (string * list pyval)) (kv : string * pyval)
  : list (string * list pyval) :=
  let (field_name, field_value) := kv in
  let old := match dict_get field_name fv with
             | Some vs => vs
             | None => []
             end in
  dict_set field_name (old ++ [field_value]) fv.

Definition collect_result (fv : list (string * list pyval)) (result_dict : dict)
  : list (string * list pyval) :=
  fold_left collect_item result_dict fv.

Definition collect_values (results : list dict) : list (string * list pyval) :=
  fold_left collect_result results [].

(** Lines 91-96: list fields. *)
Fixpoint merge_list (values : list pyval) : list pyval :=
  match values with
  | [] => []
  | VList l :: values' => l ++ merge_list values'
  | VNone :: values' => merge_list values'
  | v :: values' => v :: merge_list values'
  end.

(** Lines 101-112: scalar fields. *)
Definition merge_scalar (order : list pyval -> list pyval) (values : list pyval)
  : result pyval :=
  let non_null_values := filter is_not_none values in
  if (length non_null_values =? 0)%nat then Ok VNone
  else
    distinct_values <- list_set order non_null_values ;;
    match distinct_values with
    | [v] => Ok v
    | _ => Ok (conflict_marker distinct_values)
    end.

Definition merge_field (order : list pyval -> list pyval) (m : schema)
  (field_name : string) (values : list pyval) : result pyval :=
  if is_list_field m field_name then Ok (VList (merge_list values))
  else merge_scalar order values.

(** Second loop (lines 84-112) over [field_values.items()]. *)
Fixpoint merge_loop (order : list pyval -> list pyval) (m : schema)
  (fvs : list (string * list pyval)) (merged : dict) : result dict :=
  match fvs with
  | [] => Ok merged
  | (field_name, values) :: fvs' =>
      v <- merge_field order m field_name values ;;
      merge_loop order m fvs' (dict_set field_name v merged)
  end.

(** The merged mapping before conflict resolution. *)
Definition merge_fields (order : list pyval -> list pyval) (m : schema)
  (results : list dict) : result dict :=
  merge_loop order m (collect_values results) [].

(** ** Conflict detection: [_has_conflicts] and [_identify_conflicts] *)

(** Truthiness of a value, for [field_value.get("_conflict")]. *)
Definition truthy (v : pyval) : bool :=
  match v with
  | VNone => false
  | VInt n => negb (n =? 0)
  | VStr s => negb (String.eqb s "")
  | VList l => match l with [] => false | _ => true end
  | VDict d => match d with [] => false | _ => true end
  end.

(** [isinstance(field_value, dict) and field_value.get("_conflict")]. *)
Definition is_conflict_marker (v : pyval) : bool :=
  match v with
  | VDict d => match dict_get "_conflict" d with
               | Some flag => truthy flag
               | None => false
               end
  | _ => false
  end.

(** [len(set(str(x) for x in field_value)) < len(field_value)], with
    [str] a parameter [py_str] of the model. *)
Definition has_str_duplicates (py_str : pyval -> string) (l : list pyval) : bool :=
  (length (nodup string_dec (map py_str l)) <? length l)%nat.

Definition is_list_conflict (py_str : pyval -> string) (a : annotation)
  (v : pyval) : bool :=
  match v with
  | VList l =>
      origin_is_list a && (1 <? length l)%nat && has_str_duplicates py_str l
  | _ => false
  end.

Fixpoint _has_conflicts (py_str : pyval -> string) (result_dict : dict)
  (m : schema) : bool :=
  match result_dict with
  | [] => false
  | (field_name, field_value) :: rest =>
      match dict_get field_name m with
      | None => _has_conflicts py_str rest m
      | Some field_type =>
          if is_conflict_marker field_value then true
          else if is_list_conflict py_str field_type field_value then true
          else _has_conflicts py_str rest m
      end
  end.

(** [field_value["candidates"]] on a dictionary. *)
Definition dict_index (k : string) (d : dict) : result pyval :=
  match dict_get k d with
  | Some v => Ok v
  | None => Raise (KeyError k)
  end.

Fixpoint identify_loop (py_str : pyval -> string) (result_dict : dict)
  (m : schema) (conflicts : dict) : result dict :=
  match result_dict with
  | [] => Ok conflicts
  | (field_name, field_value) :: rest =>
      match dict_get field_name m with
      | None => identify_loop py_str rest m conflicts
      | Some field_type =>
          if is_conflict_marker field_value then
            match field_value with
            | VDict d =>
                c <- dict_index "candidates" d ;;
                identify_loop py_str rest m (dict_set field_name c conflicts)
            | _ => identify_loop py_str rest m conflicts
            end
          else if is_list_conflict py_str field_type field_value then
            identify_loop py_str rest m (dict_set field_name field_value conflicts)
          else identify_loop py_str rest m conflicts
      end
  end.

Definition _identify_conflicts (py_str : pyval -> string) (result_dict : dict)
  (m : schema) : result dict :=
  identify_loop py_str result_dict m [].

(** ** The conflict resolver *)

(** A chat message [{"role": ..., "content": ...}]; the content is a string
    or, in vision mode, a list of fragments. *)
Record message : Type := Message { role : string; content : pyval }.

(** What is passed as [response_model]: a schema class, the builtin [dict],
    or nothing. *)
Inductive response_model : Type :=
| RModel : schema -> response_model
| RDict : response_model.

(** [str(e)].  An exception that carries its message gives that message,
    and a [KeyError] gives its key between quotes.  The exceptions modelled
    without their message stand for a whole class, and their text here is
    only the name of the class: no property below depends on it. *)
Definition exn_str (e : exn) : string :=
  match e with
  | TypeError => "TypeError"
  | KeyError k => ("'" ++ k ++ "'")%string
  | AttributeError => "AttributeError"
  | IndexError => "IndexError"
  | ValueError s => s
  | OverflowError => "OverflowError"
  | ValidationError => "ValidationError"
  | IncompleteOutputException exception => incomplete_message exception
  | OtherException s => s
  end.

(** The double-quote character, for string constants that contain it. *)
Definition dq : string := String "034"%char EmptyString.

Definition _build_conflict_resolution_prompt (py_str : pyval -> string)
  (conflicts : dict) : string :=
  ("Please resolve conflicts in these fields by choosing the correct value "
   ++ "and providing a confidence score (1-10).

"
   ++ "Return JSON in this format:
"
   ++ "{
"
   ++ "  " ++ dq ++ "resolved_fields" ++ dq ++ ": {
"
   ++ "    " ++ dq ++ "field_name" ++ dq ++ ": {" ++ dq ++ "value" ++ dq ++ ": "
   ++ dq ++ "chosen_value" ++ dq ++ ", " ++ dq ++ "confidence" ++ dq ++ ": 9}
"
   ++ "  }
"
   ++ "}

"
   ++ "Conflicts to resolve:
" ++ py_str (VDict conflicts))%string.

(** [response.get("resolved_fields", {})]. *)
Definition get_resolved_fields (response : pyval) : result pyval :=
  match response with
  | VDict d => match dict_get "resolved_fields" d with
               | Some r => Ok r
               | None => Ok (VDict [])
               end
  | _ => Raise AttributeError
  end.

(** [completion.choices[0].message.content].  A completion is an object
    with attributes, given here as the mapping of its attribute names,
    and [choices] is a list: an empty list has no first element, and an
    object without the attribute that is read raises. *)
Definition choices_0_message_content (completion : pyval) : result pyval :=
  match completion with
  | VDict d =>
      match dict_get "choices" d with
      | Some (VList []) => Raise IndexError
      | Some (VList (VDict c :: _)) =>
          match dict_get "message" c with
          | Some (VDict msg) =>
              match dict_get "content" msg with
              | Some text => Ok text
              | None => Raise AttributeError
              end
          | _ => Raise AttributeError
          end
      | _ => Raise AttributeError
      end
  | _ => Raise AttributeError
  end.

Section Pipeline.

(** The collaborators of the pagination handler: the gateway's [request],
    [str], the iteration order of sets, and the constructor
    of the schema class applied to a field dictionary. *)
Variable llm_request : list message -> option response_model -> result pyval.
Variable py_str : pyval -> string.
Variable order : list pyval -> list pyval.
Variable instantiate : schema -> dict -> result pyval.

Definition _request_conflict_resolution (conflicts : dict) : result pyval :=
  let prompt := _build_conflict_resolution_prompt py_str conflicts in
  let messages :=
    [ Message "system" (VStr "You are a server API that resolves field conflicts.");
      Message "user" (VStr prompt) ] in
  match (response <- llm_request messages (Some RDict) ;;
         get_resolved_fields response) with
  | Ok r => Ok r
  | Raise e => Raise (ValueError ("Failed to resolve conflicts: " ++ exn_str e)%string)
  end.

(** [resolution["value"]]. *)
Definition resolution_value (resolution : pyval) : result pyval :=
  match resolution with
  | VDict d => dict_index "value" d
  | _ => Raise TypeError
  end.

Fixpoint merge_resolved_loop (resolved : dict) (result_dict : dict)
  : result dict :=
  match resolved with
  | [] => Ok result_dict
  | (field_name, resolution) :: rest =>
      if dict_has field_name result_dict then
        v <- resolution_value resolution ;;
        merge_resolved_loop rest (dict_set field_name v result_dict)
      else merge_resolved_loop rest result_dict
  end.

(** [resolved.items()] needs a dictionary. *)
Definition _merge_resolved_conflicts (original : dict) (resolved : pyval)
  : result dict :=
  match resolved with
  | VDict r => merge_resolved_loop r original
  | _ => Raise AttributeError
  end.

Definition _resolve_conflicts (result_dict : dict) (m : schema) : result dict :=
  conflicts <- _identify_conflicts py_str result_dict m ;;
  match conflicts with
  | [] => Ok result_dict
  | _ =>
      resolved <- _request_conflict_resolution conflicts ;;
      _merge_resolved_conflicts result_dict resolved
  end.

(** [result.model_dump()]. *)
Definition model_dump (r : pyval) : result dict :=
  match r with
  | VDict d => Ok d
  | _ => Raise AttributeError
  end.

Fixpoint dump_all (results : list pyval) : result (list dict) :=
  match results with
  | [] => Ok []
  | r :: rest =>
      d <- model_dump r ;;
      ds <- dump_all rest ;;
      Ok (d :: ds)
  end.

Definition _merge_results (results : list pyval) (m : schema) : result pyval :=
  dicts <- dump_all results ;;
  merged <- merge_fields order m dicts ;;
  merged' <- (if _has_conflicts py_str merged m
              then _resolve_conflicts merged m
              else Ok merged) ;;
  instantiate m merged'.

(** ** The page dispatcher *)

(** Collaborators from [extract_thinker.utils], [yaml] and the thread
    pool: the optional variant of a schema, [yaml.dump], [encode_image],
    and the order in which [as_completed] yields the futures. *)
Variable make_all_fields_optional : schema -> schema.
Variable yaml_dump : pyval -> string.
Variable encode_image : pyval -> result string.
Variable as_completed : list (result pyval) -> list (result pyval).

Definition _build_text_content (page : pyval) : string :=
  match page with
  | VDict _ => ("##Content

" ++ yaml_dump page)%string
  | VStr s => ("##Content

" ++ s)%string
  | _ => ("##Content

" ++ py_str page)%string
  end.

(** [for img in images]: a list yields its elements, a dictionary its
    keys, a string its characters; [None] and integers are not iterable. *)
Definition py_iter (v : pyval) : result (list pyval) :=
  match v with
  | VList l => Ok l
  | VDict d => Ok (map (fun kv => VStr (fst kv)) d)
  | VStr s => Ok (map (fun c => VStr (String c EmptyString)) (list_ascii_of_string s))
  | _ => Raise TypeError
  end.

Fixpoint image_fragments (images : list pyval) : result (list pyval) :=
  match images with
  | [] => Ok []
  | img :: rest =>
      if truthy img then
        b64 <- encode_image img ;;
        frags <- image_fragments rest ;;
        Ok (VDict [("type", VStr "image_url");
                   ("image_url",
                    VDict [("url", VStr ("data:image/jpeg;base64," ++ b64)%string)])]
            :: frags)
      else image_fragments rest
  end.

Definition _build_vision_content (page : pyval) : result (list pyval) :=
  match page with
  | VDict d =>
      let text_part :=
        match dict_get "content" d with
        | Some c => [VDict [("type", VStr "text");
                            ("text", VStr ("##Content

" ++ py_str c)%string)]]
        | None => []
        end in
      if dict_has "image" d || dict_has "images" d then
        let images :=
          match dict_get "images" d with
          | Some imgs => imgs
          | None => VList [match dict_get "image" d with
                           | Some i => i
                           | None => VNone
                           end]
          end in
        imgs <- py_iter images ;;
        frags <- image_fragments imgs ;;
        Ok (text_part ++ frags)
      else Ok text_part
  | _ => Ok []
  end.

Definition system_message : message :=
  Message "system"
    (VStr "You are a server API that receives document information and returns specific fields in JSON format.").

Definition _build_messages (page : pyval) (vision : bool)
  : result (list message) :=
  if vision then
    message_content <- _build_vision_content page ;;
    Ok [system_message; Message "user" (VList message_content)]
  else
    Ok [system_message; Message "user" (VStr (_build_text_content page))].

(** [messages.insert(1, ...)]. *)
Definition list_insert {A : Type} (i : nat) (x : A) (l : list A) : list A :=
  firstn i l ++ x :: skipn i l.

Definition _add_extra_content (messages : list message) (extra_content : string)
  : list message :=
  list_insert 1
    (Message "user" (VStr ("##Extra Content

" ++ extra_content)%string))
    messages.

Definition _build_continuation_messages (messages : list message)
  (partial_content : pyval) : list message :=
  messages ++ [Message "assistant" partial_content;
               Message "user" (VStr "## CONTINUE JSON")].

(** The partial text is read from the exception before the [try]: a
    failure to read it is not wrapped. *)
Definition _handle_partial_response (exception : incomplete)
  (messages : list message) (m : schema) : result pyval :=
  partial_content <- choices_0_message_content (last_completion exception) ;;
  let continuation_messages :=
    _build_continuation_messages messages partial_content in
  match llm_request continuation_messages (Some (RModel m)) with
  | Ok r => Ok r
  | Raise e =>
      Raise (ValueError ("Failed to complete partial response: " ++ exn_str e)%string)
  end.

Definition _process_page (messages : list message) (m : schema) : result pyval :=
  match llm_request messages (Some (RModel m)) with
  | Raise (IncompleteOutputException exception) =>
      partial_result <- _handle_partial_response exception messages m ;;
      partial_dict <- model_dump partial_result ;;
      if _has_conflicts py_str partial_dict m then
        resolved_dict <- _resolve_conflicts partial_dict m ;;
        instantiate m resolved_dict
      else Ok partial_result
  | r => r
  end.

(** The submission loop: one future per page, holding what its task
    returns or raises.  Building the messages runs in the caller. *)
Fixpoint submit_pages (pages : list pyval) (m_optional : schema)
  (vision : bool) (extra_content : option string)
  : result (list (result pyval)) :=
  match pages with
  | [] => Ok []
  | page :: rest =>
      messages <- _build_messages page vision ;;
      let messages' :=
        match extra_content with
        | Some e => if String.eqb e "" then messages
                    else _add_extra_content messages e
        | None => messages
        end in
      futures <- submit_pages rest m_optional vision extra_content ;;
      Ok (_process_page messages' m_optional :: futures)
  end.

(** The collection loop: a future that raised is skipped. *)
Fixpoint collect_completed (futures : list (result pyval)) : list pyval :=
  match futures with
  | [] => []
  | Ok r :: rest => r :: collect_completed rest
  | Raise _ :: rest => collect_completed rest
  end.

Definition handle (pages : list pyval) (m : schema) (vision : bool)
  (extra_content : option string) : result pyval :=
  let response_model_optional := make_all_fields_optional m in
  futures <- submit_pages pages response_model_optional vision extra_content ;;
  let results := collect_completed (as_completed futures) in
  match results with
  | [] => Raise (ValueError "No valid results obtained from any page")
  | _ => _merge_results results m
  end.

End Pipeline.

(** ** The request gateway and budget controller: class [LLM] *)

Module LLM.

(** *** Binary64 arithmetic

    [DEFAULT_THINKING_RATIO = 1/3] is a Python float, so the thinking
    budget is computed in IEEE 754 binary64, here through the Standard
    Library's executable specification of it. *)
Definition prec : Z := 53.
Definition emax : Z := 1024.

(** Conversion of an integer operand of a float operation: correctly
    rounded, [OverflowError] when the integer is too large. *)
Definition float_of_int (n : Z) : result spec_float :=
  match binary_normalize prec emax n 0 false with
  | S754_infinity _ => Raise OverflowError
  | x => Ok x
  end.

(** [int(x)]: truncation towards zero. *)
Definition int_of_float (x : spec_float) : result Z :=
  match x with
  | S754_zero _ => Ok 0
  | S754_infinity _ => Raise OverflowError
  | S754_nan => Raise (ValueError "cannot convert float NaN to integer")
  | S754_finite s m e =>
      let a := match e with
               | Zneg k => Z.shiftr (Zpos m) (Zpos k)
               | _ => Z.shiftl (Zpos m) e
               end in
      Ok (if s then - a else a)
  end.

(** [int * float]. *)
Definition int_mul_float (n : Z) (x : spec_float) : result spec_float :=
  y <- float_of_int n ;;
  Ok (SFmul prec emax y x).

(** *** Class constants *)
Definition DEFAULT_TIMEOUT : Z := 3000.
Definition DEFAULT_TEMPERATURE : Q := 0%Q.
Definition THINKING_BUDGET_TOKENS : Z := 8000.
Definition DEFAULT_PAGE_TOKENS : Z := 1500.
Definition DEFAULT_THINKING_RATIO : spec_float :=
  SFdiv prec emax (binary_normalize prec emax 1 0 false)
                  (binary_normalize prec emax 3 0 false).
Definition MAX_TOKEN_LIMIT : Z := 120000.
Definition MAX_THINKING_BUDGET : Z := 64000.
Definition MIN_THINKING_BUDGET : Z := 1200.

Inductive LLMEngine : Type := DEFAULT | PYDANTIC_AI.

(** A loaded [litellm.Router], identified by a handle. *)
Definition Router : Type := nat.

(** The attributes of an [LLM] object. *)
Record t : Type := Build {
  model : string;
  token_limit : option Z;
  router : option Router;
  is_dynamic : bool;
  backend : LLMEngine;
  temperature : Q;
  is_thinking : bool;
  page_count : option Z;
  thinking_budget : Z;
  TIMEOUT : Z
}.

Definition __init__ (model : string) (token_limit : option Z)
  (backend : LLMEngine) : t :=
  {| model := model;
     token_limit := token_limit;
     router := None;
     is_dynamic := false;
     backend := backend;
     temperature := DEFAULT_TEMPERATURE;
     is_thinking := false;
     page_count := None;
     thinking_budget := THINKING_BUDGET_TOKENS;
     TIMEOUT := DEFAULT_TIMEOUT |}.

(** A method that mutates the object returns the new object and the
    exception it raised, if any. *)
Definition load_router (r : Router) (self : t) : t * option exn :=
  match backend self with
  | DEFAULT =>
      ({| model := model self; token_limit := token_limit self;
          router := Some r; is_dynamic := is_dynamic self;
          backend := backend self; temperature := temperature self;
          is_thinking := is_thinking self; page_count := page_count self;
          thinking_budget := thinking_budget self; TIMEOUT := TIMEOUT self |},
       None)
  | PYDANTIC_AI =>
      (self, Some (ValueError "Router is only supported with LITELLM backend"))
  end.

Definition set_temperature (temp : Q) (self : t) : t :=
  {| model := model self; token_limit := token_limit self;
     router := router self; is_dynamic := is_dynamic self;
     backend := backend self; temperature := temp;
     is_thinking := is_thinking self; page_count := page_count self;
     thinking_budget := thinking_budget self; TIMEOUT := TIMEOUT self |}.

Definition set_thinking (b : bool) (self : t) : t :=
  {| model := model self; token_limit := token_limit self;
     router := router self; is_dynamic := is_dynamic self;
     backend := backend self; temperature := 1%Q;
     is_thinking := b; page_count := page_count self;
     thinking_budget := thinking_budget self; TIMEOUT := TIMEOUT self |}.

Definition set_dynamic (b : bool) (self : t) : t :=
  {| model := model self; token_limit := token_limit self;
     router := router self; is_dynamic := b;
     backend := backend self; temperature := temperature self;
     is_thinking := is_thinking self; page_count := page_count self;
     thinking_budget := thinking_budget self; TIMEOUT := TIMEOUT self |}.

Definition set_timeout (timeout_ms : Z) (self : t) : t :=
  {| model := model self; token_limit := token_limit self;
     router := router self; is_dynamic := is_dynamic self;
     backend := backend self; temperature := temperature self;
     is_thinking := is_thinking self; page_count := page_count self;
     thinking_budget := thinking_budget self; TIMEOUT := timeout_ms |}.

(** *** The budget controller: [set_page_count] *)

Definition content_tokens_of (p : Z) : Z :=
  Z.min (p * DEFAULT_PAGE_TOKENS) MAX_TOKEN_LIMIT.

(** [int(page_count * DEFAULT_PAGE_TOKENS * DEFAULT_THINKING_RATIO)],
    then the two clamps. *)
Definition thinking_tokens_of (p : Z) : result Z :=
  x <- int_mul_float (p * DEFAULT_PAGE_TOKENS) DEFAULT_THINKING_RATIO ;;
  thinking_tokens <- int_of_float x ;;
  let thinking_tokens := Z.max thinking_tokens MIN_THINKING_BUDGET in
  let thinking_tokens := Z.min thinking_tokens MAX_THINKING_BUDGET in
  Ok thinking_tokens.

Definition with_page_count (p : Z) (self : t) : t :=
  {| model := model self; token_limit := token_limit self;
     router := router self; is_dynamic := is_dynamic self;
     backend := backend self; temperature := temperature self;
     is_thinking := is_thinking self; page_count := Some p;
     thinking_budget := thinking_budget self; TIMEOUT := TIMEOUT self |}.

Definition with_budget (content thinking : Z) (self : t) : t :=
  {| model := model self; token_limit := Some content;
     router := router self; is_dynamic := is_dynamic self;
     backend := backend self; temperature := temperature self;
     is_thinking := is_thinking self; page_count := page_count self;
     thinking_budget := thinking; TIMEOUT := TIMEOUT self |}.

Definition set_page_count (p : Z) (self : t) : t * option exn :=
  if p <=? 0 then
    (self, Some (ValueError "Page count must be a positive integer"))
  else
    let self1 := with_page_count p self in
    let content_tokens := content_tokens_of p in
    match thinking_tokens_of p with
    | Raise e => (self1, Some e)
    | Ok thinking_tokens =>
        (with_budget content_tokens thinking_tokens self1, None)
    end.

(** *** The request gateway: [request] and [raw_completion] *)

(** [{"type": "enabled", "budget_tokens": ...}]. *)
Record thinking_param : Type := Thinking {
  thinking_type : string;
  budget_tokens : Z
}.

(** The keyword arguments of one transport call.  [None] is a keyword
    that the call does not pass; an argument that can be Python's [None]
    has an option of its own. *)
Record completion_kwargs : Type := Kwargs {
  kw_model : string;
  kw_messages : list message;
  kw_response_model : option (option response_model);
  kw_temperature : option Q;
  kw_timeout : option Z;
  kw_max_retries : option Z;
  kw_max_tokens : option (option Z);
  kw_thinking : option (option thinking_param)
}.

(** The object a raw completion returns, with its text at
    [choices[0].message.content]. *)
Definition completion_object (text : pyval) : pyval :=
  VDict [("choices", VList [VDict [("message", VDict [("content", text)])]])].

Definition completion_content (response : pyval) : result pyval :=
  choices_0_message_content response.

(** [DYNAMIC_PROMPT_TEMPLATE.format(prompt=structure)]. *)
Definition DYNAMIC_PROMPT_TEMPLATE (structure : string) : string :=
  ("Please provide your thinking process within <think> tags, followed by your JSON output.

JSON structure:
" ++ structure ++ "

OUTPUT example:
<think>
Your step-by-step reasoning and analysis goes here...
</think>

##JSON OUTPUT
{
    ...
}
")%string.

(** [" ".join(...)] over the message contents, which must be strings. *)
Fixpoint join_contents (messages : list message) : result string :=
  match messages with
  | [] => Ok ""%string
  | m :: rest =>
      match content m with
      | VStr c =>
          match rest with
          | [] => Ok c
          | _ => tail <- join_contents rest ;; Ok (c ++ " " ++ tail)%string
          end
      | _ => Raise TypeError
      end
  end.

Section Gateway.

(** The transports and helpers the gateway calls: [router.completion],
    the instructor client's [chat.completions.create],
    [litellm.completion], the agent's [run] (giving [result.data]),
    [add_classification_structure] and [extract_thinking_json]. *)
Variable router_completion : Router -> completion_kwargs -> result pyval.
Variable client_create : completion_kwargs -> result pyval.
Variable litellm_completion : completion_kwargs -> result pyval.
Variable agent_run : string -> option response_model -> result pyval.
Variable add_classification_structure : response_model -> string.
Variable extract_thinking_json : pyval -> option response_model -> result pyval.

(** Lines 197-207. *)
Definition request_model (self : t) (rm : option response_model)
  : option response_model :=
  if is_dynamic self then None else rm.

Definition working_messages (self : t) (messages : list message)
  (rm : option response_model) : list message :=
  match rm with
  | Some r =>
      if is_dynamic self then
        messages ++
          [Message "system"
             (VStr (DYNAMIC_PROMPT_TEMPLATE (add_classification_structure r)))]
      else messages
  | None => messages
  end.

(** Lines 210-215. *)
Definition request_thinking (self : t) : option thinking_param :=
  match backend self with
  | DEFAULT =>
      if is_thinking self
      then Some (Thinking "enabled" (thinking_budget self))
      else None
  | PYDANTIC_AI => None
  end.

(** Lines 217-236: the keyword arguments of the transport call. *)
Definition request_kwargs (self : t) (messages : list message)
  (rm : option response_model) : completion_kwargs :=
  match router self with
  | Some _ =>
      {| kw_model := model self;
         kw_messages := working_messages self messages rm;
         kw_response_model := Some (request_model self rm);
         kw_temperature := Some (temperature self);
         kw_timeout := Some (TIMEOUT self);
         kw_max_retries := None;
         kw_max_tokens := None;
         kw_thinking := Some (request_thinking self) |}
  | None =>
      {| kw_model := model self;
         kw_messages := working_messages self messages rm;
         kw_response_model := Some (request_model self rm);
         kw_temperature := Some (temperature self);
         kw_timeout := Some (TIMEOUT self);
         kw_max_retries := Some 1;
         kw_max_tokens := Some (token_limit self);
         kw_thinking := Some (request_thinking self) |}
  end.

Definition send (self : t) (kwargs : completion_kwargs) : result pyval :=
  match router self with
  | Some r => router_completion r kwargs
  | None => client_create kwargs
  end.

Definition request (self : t) (messages : list message)
  (rm : option response_model) : result pyval :=
  match backend self with
  | PYDANTIC_AI =>
      combined_prompt <- join_contents messages ;;
      match agent_run combined_prompt rm with
      | Ok data => Ok data
      | Raise e =>
          Raise (ValueError ("Failed to extract from source: " ++ exn_str e)%string)
      end
  | DEFAULT =>
      response <- send self (request_kwargs self messages rm) ;;
      if negb (is_dynamic self) then Ok response
      else
        text <- completion_content response ;;
        extract_thinking_json text rm
  end.

(** Lines 252-257. *)
Definition raw_thinking (self : t) : option thinking_param :=
  if is_thinking self
  then Some (Thinking "enabled" (thinking_budget self))
  else None.

Definition raw_completion_kwargs (self : t) (messages : list message)
  : completion_kwargs :=
  match router self with
  | Some _ =>
      {| kw_model := model self;
         kw_messages := messages;
         kw_response_model := None;
         kw_temperature := None;
         kw_timeout := None;
         kw_max_retries := None;
         kw_max_tokens := None;
         kw_thinking := Some (raw_thinking self) |}
  | None =>
      {| kw_model := model self;
         kw_messages := messages;
         kw_response_model := None;
         kw_temperature := None;
         kw_timeout := None;
         kw_max_retries := None;
         kw_max_tokens := Some (token_limit self);
         kw_thinking := Some (raw_thinking self) |}
  end.

Definition raw_completion (self : t) (messages : list message)
  : result pyval :=
  raw_response <-
    match router self with
    | Some r => router_completion r (raw_completion_kwargs self messages)
    | None => litellm_completion (raw_completion_kwargs self messages)
    end ;;
  completion_content raw_response.

End Gateway.

End LLM.

(** ** Concrete collaborators

    Instances of the parameters of the model, for evaluating the code on
    concrete inputs. *)

Definition pyval_eq_dec : forall a b : pyval, {a = b} + {a <> b}.
Proof.
  fix IH 1.
  assert (IHl : forall l m : list pyval, {l = m} + {l <> m}).
  { intro l; induction l as [|x l IHl]; intros [|y m];
      try (right; discriminate); try (left; reflexivity).
    destruct (IH x y) as [->|Hxy]; [|right; congruence].
    destruct (IHl m) as [->|Hlm]; [left; reflexivity|right; congruence]. }
  assert (IHd : forall l m : list (string * pyval), {l = m} + {l <> m}).
  { intro l; induction l as [|[k x] l IHd]; intros [|[k' y] m];
      try (right; discriminate); try (left; reflexivity).
    destruct (string_dec k k') as [->|Hk]; [|right; congruence].
    destruct (IH x y) as [->|Hxy]; [|right; congruence].
    destruct (IHd m) as [->|Hlm]; [left; reflexivity|right; congruence]. }
  intros [|x|s|l|d] [|y|t|m|e];
    try (right; discriminate); try (left; reflexivity).
  - destruct (Z.eq_dec x y) as [->|H]; [left; reflexivity|right; congruence].
  - destruct (string_dec s t) as [->|H]; [left; reflexivity|right; congruence].
  - destruct (IHl l m) as [->|H]; [left; reflexivity|right; congruence].
  - destruct (IHd d e) as [->|H]; [left; reflexivity|right; congruence].
Defined.

(** *** CPython's set order on small integers

    CPython hashes an integer [0 <= n < 2^61 - 1] to itself, a new set has a
    table of 8 slots that is not resized while it holds at most 4 keys,
    a key goes to slot [hash & 7] when that slot is free, and iteration
    scans the slots in index order.  [cpython_set_order] is that order
    where it applies: at most 4 distinct small integers whose slots do not
    collide.  Elsewhere it only fixes one admissible order, that of the
    last occurrences. *)

Definition small_int_slot (v : pyval) : option Z :=
  match v with
  | VInt n => if (0 <=? n) && (n <? 2 ^ 61 - 1) then Some (Z.land n 7) else None
  | _ => None
  end.

Definition slot_of (v : pyval) : Z :=
  match small_int_slot v with Some s => s | None => 0 end.

Fixpoint insert_by_slot (v : pyval) (l : list pyval) : list pyval :=
  match l with
  | [] => [v]
  | x :: l' =>
      if slot_of v <=? slot_of x then v :: l else x :: insert_by_slot v l'
  end.

Fixpoint sort_by_slot (l : list pyval) : list pyval :=
  match l with
  | [] => []
  | x :: l' => insert_by_slot x (sort_by_slot l')
  end.

Definition no_collision (l : list pyval) : bool :=
  forallb (fun v => match small_int_slot v with Some _ => true | None => false end) l
  && (length l <=? 4)%nat
  && (length (nodup Z.eq_dec (map slot_of l)) =? length l)%nat.

Definition cpython_set_order (vs : list pyval) : list pyval :=
  let keys := nodup pyval_eq_dec vs in
  if no_collision keys then sort_by_slot keys else keys.

(** *** A strict schema constructor

    A reading of the schema class constructor without coercions: every
    schema field must be given a value of its annotated shape, an
    [Optional] field may be absent or [None], and keys outside the schema
    are ignored. *)

Fixpoint accepts (a : annotation) (v : pyval) : bool :=
  match a, v with
  | AInt, VInt _ => true
  | AStr, VStr _ => true
  | AModel, VDict _ => true
  | AList a', VList l => forallb (accepts a') l
  | AOptional _, VNone => true
  | AOptional a', _ => accepts a' v
  | _, _ => false
  end.

Fixpoint construct_fields (m : schema) (fields : dict) : result dict :=
  match m with
  | [] => Ok []
  | (name, a) :: m' =>
      let v := match dict_get name fields with
               | Some v => Some v
               | None => match a with AOptional _ => Some VNone | _ => None end
               end in
      match v with
      | Some v =>
          if accepts a v then
            rest <- construct_fields m' fields ;;
            Ok ((name, v) :: rest)
          else Raise ValidationError
      | None => Raise ValidationError
      end
  end.

Definition strict_construct (m : schema) (fields : dict) : result pyval :=
  inst <- construct_fields m fields ;;
  Ok (VDict inst).

(** Whether a candidate list is in ascending order, for integers. *)
Fixpoint ascending (l : list pyval) : bool :=
  match l with
  | VInt x :: ((VInt y :: _) as l') => (x <=? y) && ascending l'
  | _ :: l' => ascending l'
  | [] => true
  end.

(** ** Specification vocabulary *)

(** The values a result dictionary holds for a field, and the values of a
    field over all pages, in page order. *)
Definition entries (f : string) (d : dict) : list pyval :=
  map snd (filter (fun kv => String.eqb f (fst kv)) d).

Definition column (f : string) (results : list dict) : list pyval :=
  flat_map (entries f) results.

Definition got {A : Type} (o : option (list A)) : list A :=
  match o with Some l => l | None => [] end.

(** What one page contributes to a list field: nothing for [None], the
    elements of a list, and a lone non-list value as itself. *)
Definition contribution (v : pyval) : list pyval :=
  match v with
  | VNone => []
  | VList l => l
  | _ => [v]
  end.

(** Every value that the pages report for a non-list field is hashable. *)
Definition scalars_hashable (m : schema) (results : list dict) : Prop :=
  forall f, is_list_field m f = false ->
            forallb hashable (column f results) = true.

(** Two merged values agree up to the order in which the pages were
    merged: they are equal, or lists with the same elements, or conflict
    markers with the same candidates. *)
Definition value_equiv (v v' : pyval) : Prop :=
  v = v'
  \/ (exists l l', v = VList l /\ v' = VList l' /\ Permutation l l')
  \/ (exists cs cs', v = conflict_marker cs /\ v' = conflict_marker cs'
                     /\ Permutation cs cs').

Definition outcome_equiv {A : Type} (R : A -> A -> Prop) (r r' : result A) : Prop :=
  match r, r' with
  | Ok a, Ok a' => R a a'
  | Raise e, Raise e' => e = e'
  | _, _ => False
  end.

Definition record_equiv (d d' : dict) : Prop :=
  forall f,
    match dict_get f d, dict_get f d' with
    | Some v, Some v' => value_equiv v v'
    | None, None => True
    | _, _ => False
    end.

(** A placeholder for [str]: strings as they are, anything else empty.  It
    instantiates the model where no rendering is consulted. *)
Definition stub_str (v : pyval) : string :=
  match v with
  | VStr s => s
  | _ => ""
  end.

(** What the resolved reply makes of a field of the merged mapping. *)
Definition resolved_value (resolved : dict) (original : dict) (f : string)
  : option pyval :=
  match dict_get f resolved with
  | Some (VDict r) =>
      if dict_has f original then dict_get "value" r else None
  | Some _ => None
  | None => dict_get f original
  end.

(** A gateway stub for examples: the page whose text is [p2] fails with a
    transport error, every other request yields total 10. *)
Definition flaky_llm (messages : list message) (rm : option response_model)
  : result pyval :=
  match messages with
  | [_; Message _ (VStr c)] =>
      if String.eqb c "##Content

p2"
      then Raise (OtherException "timeout")
      else Ok (VDict [("total", VInt 10)])
  | _ => Ok (VDict [("total", VInt 10)])
  end.

(** Gateway stubs for examples: a transport that replies with a fixed
    text, an agent that returns its prompt, a fixed structure description
    and a fixed extraction result. *)
Definition stub_transport (kwargs : LLM.completion_kwargs) : result pyval :=
  Ok (LLM.completion_object (VStr "<think>ok</think> {}")).

Definition stub_agent (prompt : string) (rm : option response_model)
  : result pyval :=
  Ok (VStr prompt).

Definition stub_structure (r : response_model) : string := "total: int".

Definition stub_extract (text : pyval) (rm : option response_model)
  : result pyval :=
  Ok (VDict [("total", VInt 12)]).

(** The state of SpecFloat's right shift after [k] steps on [x]: the
    quotient, the round bit and the sticky bit. *)
Definition shr_inv (x k : Z) (mrs : shr_record) : Prop :=
  shr_m mrs = x / 2 ^ k
  /\ shr_r mrs = (2 ^ k <=? 2 * (x mod 2 ^ k))
  /\ shr_s mrs = negb ((x mod 2 ^ k =? 0) || (2 * (x mod 2 ^ k) =? 2 ^ k)).

(** Rounding [M / 2 ^ sh] to the nearest integer, ties to even. *)
Definition round_half_even (M sh : Z) : Z :=
  let q := M / 2 ^ sh in
  let rem := M mod 2 ^ sh in
  if (2 ^ sh <? 2 * rem) || ((2 * rem =? 2 ^ sh) && Z.odd q) then q + 1 else q.

(** What [_identify_conflicts] reports for a field holding [v]: the
    candidates of a conflict marker, a list with repeated entries as it
    is, and nothing for a field outside the schema or without conflict. *)
Definition conflict_entry (py_str : pyval -> string) (m : schema)
  (f : string) (v : pyval) : option pyval :=
  match dict_get f m with
  | None => None
  | Some a =>
      if is_conflict_marker v then
        match v with
        | VDict d => dict_get "candidates" d
        | _ => None
        end
      else if is_list_conflict py_str a v then Some v
      else None
  end.

(** The fragments of a vision message: the page text under its heading,
    and an image as a data URL. *)
Definition text_fragment (text : string) : pyval :=
  VDict [("type", VStr "text");
         ("text", VStr ("##Content

" ++ text)%string)].

Definition image_url_fragment (b64 : string) : pyval :=
  VDict [("type", VStr "image_url");
         ("image_url",
          VDict [("url", VStr ("data:image/jpeg;base64," ++ b64)%string)])].

(** The text fragment of a page, if it has a [content] key. *)
Definition text_fragments (py_str : pyval -> string) (d : dict) : list pyval :=
  match dict_get "content" d with
  | Some c => [text_fragment (py_str c)]
  | None => []
  end.

(** * Properties *)

(** ** Dictionaries *)

Lemma dict_get_set_eq {V : Type} (k : string) (v : V) (d : list (string * V)) :
  dict_get k (dict_set k v d) = Some v.
Proof.
  induction d as [|[k' v'] d IH]; simpl.
  - now rewrite String.eqb_refl.
  - destruct (String.eqb k k') eqn:E; simpl; rewrite E; auto.
Qed.

Lemma dict_get_set_neq {V : Type} (k k' : string) (v : V) (d : list (string * V)) :
  k <> k' -> dict_get k (dict_set k' v d) = dict_get k d.
Proof.
  intros Hne. induction d as [|[k0 v0] d IH]; simpl.
  - destruct (String.eqb_spec k k'); congruence.
  - destruct (String.eqb_spec k' k0) as [->|H0]; simpl.
    + destruct (String.eqb_spec k k0); congruence.
    + now rewrite IH.
Qed.

Lemma dict_set_keys {V : Type} (k : string) (v : V) (d : list (string * V)) :
  map fst (dict_set k v d) =
  if dict_has k d then map fst d else map fst d ++ [k].
Proof.
  unfold dict_has. induction d as [|[k' v'] d IH]; simpl; auto.
  destruct (String.eqb_spec k k') as [->|Hne]; simpl; auto.
  rewrite IH. now destruct (dict_get k d).
Qed.

Lemma dict_get_None_keys {V : Type} (k : string) (d : list (string * V)) :
  dict_get k d = None <-> ~ In k (map fst d).
Proof.
  induction d as [|[k' v'] d IH]; simpl.
  - tauto.
  - destruct (String.eqb_spec k k') as [->|Hne].
    + split; [discriminate | intros H; exfalso; apply H; now left].
    + rewrite IH. split; [intros H [E|E]; congruence | tauto].
Qed.

Lemma dict_set_NoDup {V : Type} (k : string) (v : V) (d : list (string * V)) :
  NoDup (map fst d) -> NoDup (map fst (dict_set k v d)).
Proof.
  intros Hnd. rewrite dict_set_keys. unfold dict_has.
  destruct (dict_get k d) eqn:E; auto.
  apply dict_get_None_keys in E.
  apply NoDup_app; auto.
  - constructor; [intros [] | constructor].
  - intros x Hx [<-|[]]. contradiction.
Qed.

Lemma dict_get_In {V : Type} (k : string) (v : V) (d : list (string * V)) :
  dict_get k d = Some v -> In (k, v) d.
Proof.
  induction d as [|[k' v'] d IH]; simpl; [discriminate|].
  destruct (String.eqb_spec k k') as [->|Hne].
  - intros [= ->]. now left.
  - intros H. right. auto.
Qed.

Lemma In_dict_get {V : Type} (k : string) (v : V) (d : list (string * V)) :
  NoDup (map fst d) -> In (k, v) d -> dict_get k d = Some v.
Proof.
  induction d as [|[k' v'] d IH]; simpl; [tauto|].
  intros Hnd [[= -> ->]|Hin].
  - now rewrite String.eqb_refl.
  - inversion Hnd as [|? ? Hnotin Hnd']; subst.
    destruct (String.eqb_spec k k') as [->|Hne]; auto.
    exfalso. apply Hnotin. apply (in_map fst) in Hin. exact Hin.
Qed.

(** ** The first loop of [_merge_results] *)

Arguments collect_item : simpl never.

Lemma collect_item_get (fv : list (string * list pyval)) (k f : string) (v : pyval) :
  dict_get f (collect_item fv (k, v)) =
  if String.eqb f k then Some (got (dict_get k fv) ++ [v]) else dict_get f fv.
Proof.
  unfold collect_item, got.
  destruct (String.eqb_spec f k) as [->|Hne].
  - now rewrite dict_get_set_eq.
  - now rewrite dict_get_set_neq.
Qed.

Lemma collect_result_get (d : dict) : forall fv f,
  got (dict_get f (collect_result fv d)) = got (dict_get f fv) ++ entries f d.
Proof.
  unfold collect_result, entries.
  induction d as [|[k v] d IH]; intros fv f; simpl.
  - now rewrite app_nil_r.
  - rewrite IH, collect_item_get.
    destruct (String.eqb_spec f k) as [->|Hne]; simpl.
    + now rewrite <- app_assoc.
    + reflexivity.
Qed.

Lemma collect_result_has (d : dict) : forall fv f,
  dict_has f (collect_result fv d) = dict_has f fv || dict_has f d.
Proof.
  unfold collect_result.
  induction d as [|[k v] d IH]; intros fv f; simpl.
  - now rewrite orb_false_r.
  - rewrite IH. unfold dict_has at 1 3 4. rewrite collect_item_get. simpl.
    destruct (String.eqb_spec f k) as [->|Hne]; simpl.
    + now rewrite orb_true_r.
    + reflexivity.
Qed.

Lemma collect_result_NoDup (d : dict) : forall fv,
  NoDup (map fst fv) -> NoDup (map fst (collect_result fv d)).
Proof.
  unfold collect_result.
  induction d as [|[k v] d IH]; intros fv Hnd; simpl; auto.
  apply IH. unfold collect_item. now apply dict_set_NoDup.
Qed.

Lemma collect_fold_get (results : list dict) : forall fv f,
  got (dict_get f (fold_left collect_result results fv)) =
  got (dict_get f fv) ++ column f results.
Proof.
  induction results as [|d results IH]; intros fv f; simpl.
  - now rewrite app_nil_r.
  - rewrite IH, collect_result_get. now rewrite <- app_assoc.
Qed.

Lemma collect_fold_has (results : list dict) : forall fv f,
  dict_has f (fold_left collect_result results fv) =
  dict_has f fv || existsb (dict_has f) results.
Proof.
  induction results as [|d results IH]; intros fv f; simpl.
  - now rewrite orb_false_r.
  - rewrite IH, collect_result_has. now rewrite orb_assoc.
Qed.

Lemma collect_fold_NoDup (results : list dict) : forall fv,
  NoDup (map fst fv) -> NoDup (map fst (fold_left collect_result results fv)).
Proof.
  induction results as [|d results IH]; intros fv Hnd; simpl; auto.
  apply IH. now apply collect_result_NoDup.
Qed.

(** A field that some page reports is collected with its column. *)
Lemma collect_values_get (results : list dict) (f : string) :
  existsb (dict_has f) results = true ->
  dict_get f (collect_values results) = Some (column f results).
Proof.
  intros Hex. unfold collect_values.
  pose proof (collect_fold_get results [] f) as Hg.
  pose proof (collect_fold_has results [] f) as Hh.
  simpl in Hg, Hh. rewrite Hex in Hh. unfold dict_has in Hh.
  destruct (dict_get f (fold_left collect_result results [])) as [l|];
    [|discriminate].
  simpl in Hg. now subst.
Qed.

Lemma collect_values_get_None (results : list dict) (f : string) :
  existsb (dict_has f) results = false ->
  dict_get f (collect_values results) = None.
Proof.
  intros Hex. unfold collect_values.
  pose proof (collect_fold_has results [] f) as Hh.
  simpl in Hh. rewrite Hex in Hh. unfold dict_has in Hh.
  now destruct (dict_get f (fold_left collect_result results [])).
Qed.

Lemma collect_values_NoDup (results : list dict) :
  NoDup (map fst (collect_values results)).
Proof. apply collect_fold_NoDup. constructor. Qed.

(** ** The second loop of [_merge_results] *)

Lemma merge_loop_get (order : list pyval -> list pyval) (m : schema) :
  forall fvs merged out,
    NoDup (map fst fvs) ->
    merge_loop order m fvs merged = Ok out ->
    forall f,
      match dict_get f fvs with
      | Some values =>
          exists v, merge_field order m f values = Ok v /\ dict_get f out = Some v
      | None => dict_get f out = dict_get f merged
      end.
Proof.
  induction fvs as [|[k values] fvs IH]; intros merged out Hnd Hrun f; simpl in *.
  - now inversion Hrun.
  - inversion Hnd as [|? ? Hnotin Hnd']; subst.
    destruct (merge_field order m k values) as [v|e] eqn:Hv; simpl in Hrun;
      [|discriminate].
    specialize (IH _ _ Hnd' Hrun).
    destruct (String.eqb_spec f k) as [->|Hne].
    + exists v. split; auto.
      specialize (IH k). apply dict_get_None_keys in Hnotin.
      rewrite Hnotin in IH. now rewrite IH, dict_get_set_eq.
    + specialize (IH f). destruct (dict_get f fvs); auto.
      now rewrite IH, dict_get_set_neq.
Qed.

Lemma merge_loop_raises (order : list pyval -> list pyval) (m : schema) :
  forall fvs merged k values e,
    In (k, values) fvs ->
    merge_field order m k values = Raise e ->
    exists e', merge_loop order m fvs merged = Raise e'.
Proof.
  induction fvs as [|[k0 values0] fvs IH]; intros merged k values e Hin Hr;
    simpl in *; [tauto|].
  destruct (merge_field order m k0 values0) as [v|e0] eqn:Hv; simpl.
  - destruct Hin as [[= -> ->]|Hin]; [congruence|]. eapply IH; eauto.
  - eauto.
Qed.

Lemma merge_field_raises (order : list pyval -> list pyval) (m : schema)
  (f : string) (values : list pyval) (e : exn) :
  merge_field order m f values = Raise e -> e = TypeError.
Proof.
  unfold merge_field, merge_scalar, list_set.
  destruct (is_list_field m f); [discriminate|].
  destruct (length (filter is_not_none values) =? 0)%nat; [discriminate|].
  destruct (forallb hashable (filter is_not_none values)); simpl.
  - destruct (order (filter is_not_none values)) as [|? [|? ?]]; discriminate.
  - congruence.
Qed.

Lemma merge_loop_raises_TypeError (order : list pyval -> list pyval) (m : schema) :
  forall fvs merged e,
    merge_loop order m fvs merged = Raise e -> e = TypeError.
Proof.
  induction fvs as [|[k values] fvs IH]; intros merged e Hr; simpl in *;
    [discriminate|].
  destruct (merge_field order m k values) as [v|e0] eqn:Hv; simpl in Hr.
  - eauto.
  - inversion Hr; subst. eapply merge_field_raises; eauto.
Qed.

(** What [merge_fields] stores for a field that some page reports. *)
Lemma merge_fields_get (order : list pyval -> list pyval) (m : schema)
  (results : list dict) (merged : dict) (f : string) :
  merge_fields order m results = Ok merged ->
  existsb (dict_has f) results = true ->
  exists v, merge_field order m f (column f results) = Ok v
            /\ dict_get f merged = Some v.
Proof.
  unfold merge_fields. intros Hrun Hex.
  pose proof (merge_loop_get order m _ _ _ (collect_values_NoDup results) Hrun f) as H.
  now rewrite (collect_values_get _ _ Hex) in H.
Qed.

Lemma column_collected (results : list dict) (f : string) (values : list pyval) :
  In (f, values) (collect_values results) -> values = column f results.
Proof.
  intros Hin.
  apply In_dict_get in Hin; [|apply collect_values_NoDup].
  pose proof (collect_fold_get results [] f) as Hg. simpl in Hg.
  unfold collect_values in Hin. rewrite Hin in Hg. exact Hg.
Qed.

Lemma column_reported (results : list dict) (f : string) (v : pyval) :
  In v (column f results) ->
  dict_get f (collect_values results) = Some (column f results).
Proof.
  intros Hin.
  pose proof (collect_fold_get results [] f) as Hg. simpl in Hg.
  unfold collect_values.
  destruct (dict_get f (fold_left collect_result results [])) as [l|];
    simpl in Hg.
  - now subst.
  - rewrite <- Hg in Hin. destruct Hin.
Qed.

Lemma merge_loop_total (order : list pyval -> list pyval) (m : schema) :
  forall fvs merged,
    (forall k values, In (k, values) fvs ->
                      exists v, merge_field order m k values = Ok v) ->
    exists out, merge_loop order m fvs merged = Ok out.
Proof.
  induction fvs as [|[k values] fvs IH]; intros merged Hall; simpl.
  - eauto.
  - destruct (Hall k values) as [v Hv]; [now left|].
    rewrite Hv. simpl. apply IH. intros k' values' Hin.
    apply Hall. now right.
Qed.

Lemma forallb_filter {A : Type} (p q : A -> bool) (l : list A) :
  forallb p l = true -> forallb p (filter q l) = true.
Proof.
  rewrite !forallb_forall. intros H x Hx. apply filter_In in Hx. apply H, Hx.
Qed.

Lemma merge_field_total (order : list pyval -> list pyval) (m : schema)
  (f : string) (values : list pyval) :
  (is_list_field m f = false -> forallb hashable values = true) ->
  exists v, merge_field order m f values = Ok v.
Proof.
  unfold merge_field, merge_scalar, list_set. intros Hh.
  destruct (is_list_field m f); [eauto|].
  destruct (length (filter is_not_none values) =? 0)%nat; [eauto|].
  rewrite (forallb_filter _ _ _ (Hh eq_refl)). simpl.
  destruct (order (filter is_not_none values)) as [|? [|? ?]]; eauto.
Qed.

(** The merge returns a record when the scalar fields hold hashable values. *)
Lemma merge_fields_total (order : list pyval -> list pyval) (m : schema)
  (results : list dict) :
  scalars_hashable m results ->
  exists merged, merge_fields order m results = Ok merged.
Proof.
  intros Hh. apply merge_loop_total. intros k values Hin.
  apply column_collected in Hin. subst.
  apply merge_field_total. apply Hh.
Qed.

(** ** List fields *)

Lemma merge_list_flat (values : list pyval) :
  merge_list values = flat_map contribution values.
Proof.
  induction values as [|v values IH]; simpl; auto.
  destruct v; simpl; now rewrite IH.
Qed.

Lemma length_flat_map_sum {A B : Type} (g : A -> list B) (l : list A) :
  length (flat_map g l) = list_sum (map (fun x => length (g x)) l).
Proof.
  induction l as [|x l IH]; simpl; auto.
  now rewrite length_app, IH.
Qed.

Lemma count_occ_flat_map {A : Type} (g : A -> list pyval) (l : list A) (x : pyval) :
  count_occ pyval_eq_dec (flat_map g l) x
  = list_sum (map (fun v => count_occ pyval_eq_dec (g v) x) l).
Proof.
  induction l as [|v l IH]; simpl; auto.
  now rewrite count_occ_app, IH.
Qed.

(** C7: for a list-typed schema field that some page reports, the merge
    stores the flattening of the per-page contributions, in which [None]
    contributes nothing: its length is the sum of the contributed lengths,
    and every contributed element occurs in it as often as it was
    contributed. *)
Theorem merge_list_field_flattens (order : list pyval -> list pyval)
  (m : schema) (results : list dict) (f : string) :
  scalars_hashable m results ->
  is_list_field m f = true ->
  existsb (dict_has f) results = true ->
  exists merged items,
    merge_fields order m results = Ok merged
    /\ dict_get f merged = Some (VList items)
    /\ items = flat_map contribution (column f results)
    /\ length items
       = list_sum (map (fun v => length (contribution v)) (column f results))
    /\ (forall v x, In v (column f results) -> In x (contribution v) -> In x items)
    /\ (forall x, count_occ pyval_eq_dec items x
                  = list_sum (map (fun v => count_occ pyval_eq_dec (contribution v) x)
                                  (column f results))).
Proof.
  intros Hh Hlist Hex.
  destruct (merge_fields_total order m results Hh) as [merged Hm].
  destruct (merge_fields_get _ _ _ _ _ Hm Hex) as [v [Hv Hget]].
  unfold merge_field in Hv. rewrite Hlist in Hv. inversion Hv; subst v.
  rewrite merge_list_flat in Hget.
  exists merged, (flat_map contribution (column f results)).
  split; [exact Hm|]. split; [exact Hget|]. split; [reflexivity|].
  split; [apply length_flat_map_sum|]. split.
  - intros v x Hin Hx. apply in_flat_map. eauto.
  - intros x. apply count_occ_flat_map.
Qed.

Lemma merge_list_field_flattens_witness :
  exists merged items,
    merge_fields cpython_set_order
      [("total", AInt); ("items", AList AInt)]
      [[("total", VInt 10); ("items", VList [VInt 1; VInt 2])];
       [("total", VNone); ("items", VNone)];
       [("total", VInt 10); ("items", VList [VInt 2])]] = Ok merged
    /\ dict_get "items" merged = Some (VList items)
    /\ items = [VInt 1; VInt 2; VInt 2].
Proof.
  destruct (merge_list_field_flattens cpython_set_order
              [("total", AInt); ("items", AList AInt)]
              [[("total", VInt 10); ("items", VList [VInt 1; VInt 2])];
               [("total", VNone); ("items", VNone)];
               [("total", VInt 10); ("items", VList [VInt 2])]] "items")
    as [merged [items [H1 [H2 [H3 _]]]]].
  - intros f. unfold is_list_field. simpl.
    destruct (String.eqb f "total") eqn:E1; simpl.
    + apply String.eqb_eq in E1. subst. reflexivity.
    + destruct (String.eqb f "items") eqn:E2; simpl; [discriminate|].
      intros _. unfold column, entries. simpl. rewrite E1, E2. reflexivity.
  - reflexivity.
  - reflexivity.
  - exists merged, items. repeat split; auto.
Defined.

(** ** Scalar fields *)

Lemma unhashable_not_none (v : pyval) : hashable v = false -> is_not_none v = true.
Proof. destruct v; simpl; congruence. Qed.

Lemma merge_scalar_unhashable (order : list pyval -> list pyval)
  (values : list pyval) (v : pyval) :
  In v values -> hashable v = false -> merge_scalar order values = Raise TypeError.
Proof.
  intros Hin Hv. unfold merge_scalar, list_set.
  assert (Hf : In v (filter is_not_none values)).
  { apply filter_In. split; auto using unhashable_not_none. }
  destruct (filter is_not_none values) as [|x nn] eqn:E; [destruct Hf|].
  simpl length. simpl Nat.eqb. cbv iota.
  destruct (forallb hashable (x :: nn)) eqn:Hall; [|reflexivity].
  rewrite forallb_forall in Hall. specialize (Hall v Hf). congruence.
Qed.

(** C10: the merge is total only on hashable scalar values.  When some page
    reports an unhashable value (a list or a nested dictionary, hence not
    [None]) for a field that the schema does not type as a list, building
    the set of distinct values raises [TypeError] and no merged record is
    produced. *)
Theorem merge_unhashable_scalar_raises (order : list pyval -> list pyval)
  (m : schema) (results : list dict) (f : string) (v : pyval) :
  is_list_field m f = false ->
  In v (column f results) ->
  hashable v = false ->
  merge_fields order m results = Raise TypeError.
Proof.
  intros Hscalar Hin Hv.
  pose proof (column_reported _ _ _ Hin) as Hget.
  apply dict_get_In in Hget.
  assert (Hr : merge_field order m f (column f results) = Raise TypeError).
  { unfold merge_field. rewrite Hscalar.
    eapply merge_scalar_unhashable; eauto. }
  destruct (merge_loop_raises order m _ [] _ _ _ Hget Hr) as [e He].
  unfold merge_fields. rewrite He. f_equal.
  eapply merge_loop_raises_TypeError; eauto.
Qed.

Lemma merge_unhashable_scalar_raises_witness :
  merge_fields cpython_set_order
    [("total", AInt); ("vendor", AOptional AModel)]
    [[("total", VInt 10); ("vendor", VDict [("name", VStr "ACME")])];
     [("total", VInt 10); ("vendor", VNone)]]
  = Raise TypeError.
Proof.
  apply (merge_unhashable_scalar_raises cpython_set_order
           [("total", AInt); ("vendor", AOptional AModel)]
           [[("total", VInt 10); ("vendor", VDict [("name", VStr "ACME")])];
            [("total", VInt 10); ("vendor", VNone)]]
           "vendor" (VDict [("name", VStr "ACME")])).
  - reflexivity.
  - simpl. left. reflexivity.
  - reflexivity.
Defined.

Lemma set_order_singleton (order : list pyval -> list pyval) (vs : list pyval)
  (v : pyval) :
  set_order_ok order ->
  vs <> [] -> (forall x, In x vs -> x = v) -> order vs = [v].
Proof.
  intros Hok Hne Hall. destruct (Hok vs) as [Hnd Hin].
  destruct vs as [|x0 vs0] eqn:E; [congruence|]. rewrite <- E in *.
  assert (Hv : In v (order vs)).
  { apply Hin. rewrite E. left. apply Hall. rewrite E. now left. }
  destruct (order vs) as [|a [|b l]] eqn:Eo.
  - destruct Hv.
  - destruct Hv as [->|[]]. reflexivity.
  - exfalso.
    assert (Ha : a = v) by (apply Hall, Hin; now left).
    assert (Hb : b = v) by (apply Hall, Hin; right; now left).
    subst. inversion Hnd as [|? ? Hnotin _]; subst. apply Hnotin. now left.
Qed.

Lemma set_order_two (order : list pyval -> list pyval) (vs : list pyval)
  (x y : pyval) :
  set_order_ok order ->
  In x vs -> In y vs -> x <> y -> (2 <= length (order vs))%nat.
Proof.
  intros Hok Hx Hy Hne. destruct (Hok vs) as [_ Hin].
  apply Hin in Hx. apply Hin in Hy.
  destruct (order vs) as [|a [|b l]].
  - destruct Hx.
  - destruct Hx as [->|[]]. destruct Hy as [->|[]]. congruence.
  - simpl. lia.
Qed.

(** C1, as the code has it: for a scalar field that some page reports, with
    hashable values, the merge stores [None] when no page gives a non-null
    value, the value when all non-null values are the same, and otherwise
    a conflict marker whose candidates are the distinct non-null values,
    each once, in the iteration order of the set. *)
Theorem merge_scalar_field (order : list pyval -> list pyval)
  (m : schema) (results : list dict) (f : string) :
  set_order_ok order ->
  scalars_hashable m results ->
  is_list_field m f = false ->
  existsb (dict_has f) results = true ->
  exists merged,
    merge_fields order m results = Ok merged
    /\ let non_null := filter is_not_none (column f results) in
       (non_null = [] -> dict_get f merged = Some VNone)
       /\ (forall v, non_null <> [] -> (forall x, In x non_null -> x = v) ->
                     dict_get f merged = Some v)
       /\ (forall x y, In x non_null -> In y non_null -> x <> y ->
             exists candidates,
               dict_get f merged = Some (conflict_marker candidates)
               /\ NoDup candidates
               /\ (2 <= length candidates)%nat
               /\ (forall c, In c candidates <-> In c non_null)).
Proof.
  intros Hok Hh Hscalar Hex.
  destruct (merge_fields_total order m results Hh) as [merged Hm].
  destruct (merge_fields_get _ _ _ _ _ Hm Hex) as [v [Hv Hget]].
  exists merged. split; [exact Hm|].
  unfold merge_field in Hv. rewrite Hscalar in Hv.
  unfold merge_scalar, list_set in Hv.
  rewrite (forallb_filter _ _ _ (Hh f Hscalar)) in Hv. simpl in Hv.
  cbv zeta. split; [|split].
  - intros Hnil. rewrite Hnil in Hv. simpl in Hv. congruence.
  - intros v0 Hne Hall.
    destruct (filter is_not_none (column f results)) as [|x nn] eqn:E;
      [congruence|].
    simpl length in Hv. simpl Nat.eqb in Hv. cbv iota in Hv.
    rewrite (set_order_singleton order (x :: nn) v0 Hok Hne Hall) in Hv.
    congruence.
  - intros x y Hx Hy Hne.
    destruct (filter is_not_none (column f results)) as [|x0 nn] eqn:E;
      [destruct Hx|].
    simpl length in Hv. simpl Nat.eqb in Hv. cbv iota in Hv.
    pose proof (set_order_two order _ x y Hok Hx Hy Hne) as Hlen.
    destruct (Hok (x0 :: nn)) as [Hnd Hin].
    exists (order (x0 :: nn)). repeat split; auto; try apply Hin.
    destruct (order (x0 :: nn)) as [|a [|b l]]; simpl in Hlen; try lia.
    congruence.
Qed.

(** ** The concrete set order *)

Lemma insert_by_slot_perm (v : pyval) (l : list pyval) :
  Permutation (v :: l) (insert_by_slot v l).
Proof.
  induction l as [|x l IH]; simpl; auto.
  destruct (slot_of v <=? slot_of x); auto.
  eapply perm_trans; [apply perm_swap|]. now apply perm_skip.
Qed.

Lemma sort_by_slot_perm (l : list pyval) : Permutation l (sort_by_slot l).
Proof.
  induction l as [|x l IH]; simpl; auto.
  eapply perm_trans; [|apply insert_by_slot_perm]. now apply perm_skip.
Qed.

Lemma cpython_set_order_ok : set_order_ok cpython_set_order.
Proof.
  intros vs. unfold cpython_set_order.
  pose proof (NoDup_nodup pyval_eq_dec vs) as Hnd.
  pose proof (nodup_In pyval_eq_dec vs) as Hin.
  destruct (no_collision (nodup pyval_eq_dec vs)).
  - pose proof (sort_by_slot_perm (nodup pyval_eq_dec vs)) as Hp. split.
    + eapply Permutation_NoDup; eauto.
    + intros v. rewrite <- Hin. split; intros H.
      * eapply Permutation_in; [apply Permutation_sym|]; eauto.
      * eapply Permutation_in; eauto.
  - split; auto.
Qed.

Ltac each_field :=
  let f := fresh "f" in
  intros f; unfold is_list_field, column, entries; simpl;
  repeat match goal with
         | |- context [String.eqb f ?k] =>
             let E := fresh "E" in
             destruct (String.eqb f k) eqn:E; simpl;
             [apply String.eqb_eq in E; subst; try reflexivity; try discriminate|]
         end;
  try reflexivity; try discriminate; auto.

Lemma merge_scalar_field_witness :
  exists merged,
    merge_fields cpython_set_order [("total", AInt)]
      [[("total", VInt 10)]; [("total", VInt 12)]] = Ok merged
    /\ dict_get "total" merged
       = Some (conflict_marker [VInt 10; VInt 12]).
Proof.
  destruct (merge_scalar_field cpython_set_order [("total", AInt)]
              [[("total", VInt 10)]; [("total", VInt 12)]] "total")
    as [merged [Hm _]].
  - apply cpython_set_order_ok.
  - each_field.
  - reflexivity.
  - reflexivity.
  - exists merged. split; [exact Hm|].
    vm_compute in Hm. inversion Hm. reflexivity.
Defined.

(** C1, as the spec words it, fails: the candidates of a conflict marker
    are not sorted.  For two pages that report 8 and 1, the set iterates
    as 8, 1. *)
Lemma merge_candidates_not_sorted :
  merge_fields cpython_set_order [("total", AInt)]
    [[("total", VInt 8)]; [("total", VInt 1)]]
  = Ok [("total", conflict_marker [VInt 8; VInt 1])]
  /\ ascending [VInt 8; VInt 1] = false
  /\ ~ (forall order m results f merged candidates,
          set_order_ok order ->
          merge_fields order m results = Ok merged ->
          dict_get f merged = Some (conflict_marker candidates) ->
          ascending candidates = true).
Proof.
  split; [reflexivity|]. split; [reflexivity|].
  intros H.
  specialize (H cpython_set_order [("total", AInt)]
                [[("total", VInt 8)]; [("total", VInt 1)]] "total"
                [("total", conflict_marker [VInt 8; VInt 1])]
                [VInt 8; VInt 1]
                cpython_set_order_ok eq_refl eq_refl).
  discriminate H.
Qed.

(** ** Merging the pages in another order *)

Lemma perm_filter {A : Type} (p : A -> bool) (l l' : list A) :
  Permutation l l' -> Permutation (filter p l) (filter p l').
Proof.
  induction 1 as [|x l l' _ IH|x y l|l l' l'' _ IH1 _ IH2]; simpl.
  - constructor.
  - destruct (p x); auto.
  - destruct (p x), (p y); auto. apply perm_swap.
  - eapply perm_trans; eauto.
Qed.

Lemma perm_flat_map {A B : Type} (g : A -> list B) (l l' : list A) :
  Permutation l l' -> Permutation (flat_map g l) (flat_map g l').
Proof.
  induction 1 as [|x l l' _ IH|x y l|l l' l'' _ IH1 _ IH2]; simpl.
  - constructor.
  - now apply Permutation_app_head.
  - rewrite !app_assoc. apply Permutation_app_tail, Permutation_app_comm.
  - eapply perm_trans; eauto.
Qed.

Lemma perm_existsb {A : Type} (p : A -> bool) (l l' : list A) :
  Permutation l l' -> existsb p l = existsb p l'.
Proof.
  induction 1 as [|x l l' _ IH|x y l|l l' l'' _ IH1 _ IH2]; simpl.
  - reflexivity.
  - now rewrite IH.
  - destruct (p x), (p y); reflexivity.
  - congruence.
Qed.

Lemma perm_forallb {A : Type} (p : A -> bool) (l l' : list A) :
  Permutation l l' -> forallb p l = forallb p l'.
Proof.
  induction 1 as [|x l l' _ IH|x y l|l l' l'' _ IH1 _ IH2]; simpl.
  - reflexivity.
  - now rewrite IH.
  - destruct (p x), (p y); reflexivity.
  - congruence.
Qed.

Lemma set_order_perm (order : list pyval -> list pyval) (l l' : list pyval) :
  set_order_ok order -> Permutation l l' -> Permutation (order l) (order l').
Proof.
  intros Hok Hp. destruct (Hok l) as [Hnd Hin], (Hok l') as [Hnd' Hin'].
  apply NoDup_Permutation; auto.
  intros x. rewrite Hin, Hin'. split; intros H.
  - eapply Permutation_in; eauto.
  - eapply Permutation_in; [apply Permutation_sym|]; eauto.
Qed.

Lemma merge_field_perm (order : list pyval -> list pyval) (m : schema)
  (f : string) (values values' : list pyval) :
  set_order_ok order ->
  Permutation values values' ->
  outcome_equiv value_equiv (merge_field order m f values)
                            (merge_field order m f values').
Proof.
  intros Hok Hp. unfold merge_field.
  destruct (is_list_field m f).
  - simpl. right. left. do 2 eexists. repeat split.
    rewrite !merge_list_flat. now apply perm_flat_map.
  - unfold merge_scalar, list_set.
    pose proof (perm_filter is_not_none _ _ Hp) as Hnn.
    rewrite <- (Permutation_length Hnn).
    rewrite <- (perm_forallb hashable _ _ Hnn).
    destruct (length (filter is_not_none values) =? 0)%nat; [now left|].
    destruct (forallb hashable (filter is_not_none values)); simpl; auto.
    pose proof (set_order_perm order _ _ Hok Hnn) as Ho.
    pose proof (Permutation_length Ho) as Hlen.
    destruct (order (filter is_not_none values)) as [|a [|b l]];
      destruct (order (filter is_not_none values')) as [|a' [|b' l']];
      simpl in Hlen; try discriminate; simpl.
    + now left.
    + left. f_equal. now apply Permutation_length_1.
    + right. right. do 2 eexists. repeat split. exact Ho.
Qed.

Lemma merge_loop_raise_inv (order : list pyval -> list pyval) (m : schema) :
  forall fvs merged e,
    merge_loop order m fvs merged = Raise e ->
    exists k values, In (k, values) fvs /\ merge_field order m k values = Raise e.
Proof.
  induction fvs as [|[k values] fvs IH]; intros merged e Hr; simpl in *;
    [discriminate|].
  destruct (merge_field order m k values) as [v|e0] eqn:Hv; simpl in Hr.
  - destruct (IH _ _ Hr) as [k' [values' [Hin Hf]]].
    exists k', values'. split; auto.
  - inversion Hr; subst. exists k, values. split; auto.
Qed.

Lemma merge_fields_raise_inv (order : list pyval -> list pyval) (m : schema)
  (results : list dict) (e : exn) :
  merge_fields order m results = Raise e ->
  exists f, existsb (dict_has f) results = true
            /\ merge_field order m f (column f results) = Raise e.
Proof.
  intros Hr. apply merge_loop_raise_inv in Hr.
  destruct Hr as [k [values [Hin Hf]]].
  pose proof (column_collected _ _ _ Hin) as ->.
  exists k. split; auto.
  apply In_dict_get in Hin; [|apply collect_values_NoDup].
  pose proof (collect_fold_has results [] k) as Hh. simpl in Hh.
  rewrite <- Hh. unfold dict_has. unfold collect_values in Hin. now rewrite Hin.
Qed.

Lemma merge_fields_get_None (order : list pyval -> list pyval) (m : schema)
  (results : list dict) (merged : dict) (f : string) :
  merge_fields order m results = Ok merged ->
  existsb (dict_has f) results = false ->
  dict_get f merged = None.
Proof.
  unfold merge_fields. intros Hrun Hex.
  pose proof (merge_loop_get order m _ _ _ (collect_values_NoDup results) Hrun f) as H.
  now rewrite (collect_values_get_None _ _ Hex) in H.
Qed.

Lemma merge_fields_raise_perm (order : list pyval -> list pyval) (m : schema)
  (results results' : list dict) (e : exn) (merged : dict) :
  set_order_ok order ->
  Permutation results results' ->
  merge_fields order m results = Raise e ->
  merge_fields order m results' = Ok merged ->
  False.
Proof.
  intros Hok Hp Hr Hm.
  destruct (merge_fields_raise_inv _ _ _ _ Hr) as [f [Hex Hf]].
  rewrite (perm_existsb _ _ _ Hp) in Hex.
  destruct (merge_fields_get _ _ _ _ _ Hm Hex) as [v [Hv _]].
  pose proof (merge_field_perm order m f _ _ Hok
                (perm_flat_map (entries f) _ _ Hp)) as Hq.
  fold (column f results) in Hq. fold (column f results') in Hq.
  rewrite Hf, Hv in Hq. exact Hq.
Qed.

(** C2, as the code has it: merging the pages in another order raises the
    same exception or gives a record with the same fields in which every
    scalar value is the same, every list holds the same elements in a
    possibly different order, and every conflict marker holds the same
    candidates in a possibly different order. *)
Theorem merge_permutation_equiv (order : list pyval -> list pyval)
  (m : schema) (results results' : list dict) :
  set_order_ok order ->
  Permutation results results' ->
  outcome_equiv record_equiv (merge_fields order m results)
                             (merge_fields order m results').
Proof.
  intros Hok Hp.
  destruct (merge_fields order m results) as [merged|e] eqn:Hm;
    destruct (merge_fields order m results') as [merged'|e'] eqn:Hm'; simpl.
  - intros f.
    destruct (existsb (dict_has f) results) eqn:Hex.
    + destruct (merge_fields_get _ _ _ _ _ Hm Hex) as [v [Hv Hg]].
      rewrite (perm_existsb _ _ _ Hp) in Hex.
      destruct (merge_fields_get _ _ _ _ _ Hm' Hex) as [v' [Hv' Hg']].
      rewrite Hg, Hg'.
      pose proof (merge_field_perm order m f _ _ Hok
                    (perm_flat_map (entries f) _ _ Hp)) as Hq.
      fold (column f results) in Hq. fold (column f results') in Hq.
      now rewrite Hv, Hv' in Hq.
    + rewrite (merge_fields_get_None _ _ _ _ _ Hm Hex).
      rewrite (perm_existsb _ _ _ Hp) in Hex.
      now rewrite (merge_fields_get_None _ _ _ _ _ Hm' Hex).
  - eapply merge_fields_raise_perm;
      [exact Hok | apply Permutation_sym; exact Hp | exact Hm' | exact Hm].
  - eapply merge_fields_raise_perm; eauto.
  - apply merge_loop_raises_TypeError in Hm, Hm'. congruence.
Qed.

Lemma merge_permutation_equiv_witness :
  outcome_equiv record_equiv
    (merge_fields cpython_set_order [("total", AInt); ("items", AList AInt)]
       [[("total", VInt 10); ("items", VList [VInt 1])];
        [("total", VInt 12); ("items", VList [VInt 2])]])
    (merge_fields cpython_set_order [("total", AInt); ("items", AList AInt)]
       [[("total", VInt 12); ("items", VList [VInt 2])];
        [("total", VInt 10); ("items", VList [VInt 1])]]).
Proof.
  apply (merge_permutation_equiv cpython_set_order
           [("total", AInt); ("items", AList AInt)]).
  - apply cpython_set_order_ok.
  - apply perm_swap.
Defined.

(** C2, as the spec words it, fails: a list field is concatenated in page
    order, so swapping two pages changes the merged record. *)
Lemma merge_not_commutative :
  merge_fields cpython_set_order [("items", AList AInt)]
    [[("items", VList [VInt 1])]; [("items", VList [VInt 2])]]
  = Ok [("items", VList [VInt 1; VInt 2])]
  /\ merge_fields cpython_set_order [("items", AList AInt)]
       [[("items", VList [VInt 2])]; [("items", VList [VInt 1])]]
     = Ok [("items", VList [VInt 2; VInt 1])]
  /\ ~ (forall order m results results',
          set_order_ok order ->
          Permutation results results' ->
          merge_fields order m results = merge_fields order m results').
Proof.
  split; [reflexivity|]. split; [reflexivity|].
  intros H.
  specialize (H cpython_set_order [("items", AList AInt)]
                [[("items", VList [VInt 1])]; [("items", VList [VInt 2])]]
                [[("items", VList [VInt 2])]; [("items", VList [VInt 1])]]
                cpython_set_order_ok (perm_swap _ _ _)).
  discriminate H.
Qed.

(** ** Conflict resolution *)

Lemma dict_has_keys {V W : Type} (f : string) (d : list (string * V))
  (d' : list (string * W)) :
  map fst d = map fst d' -> dict_has f d = dict_has f d'.
Proof.
  revert d'. unfold dict_has.
  induction d as [|[k v] d IH]; intros [|[k' v'] d'] E; simpl in *;
    try discriminate; auto.
  inversion E; subst. destruct (String.eqb f k'); auto.
Qed.

Lemma merge_resolved_loop_spec (resolved : dict) : forall cur,
  NoDup (map fst resolved) ->
  (forall f r, In (f, r) resolved -> dict_has f cur = true ->
               exists d v, r = VDict d /\ dict_get "value" d = Some v) ->
  exists out,
    merge_resolved_loop resolved cur = Ok out
    /\ map fst out = map fst cur
    /\ forall f, dict_get f out = resolved_value resolved cur f.
Proof.
  induction resolved as [|[k r] resolved IH]; intros cur Hnd Hwf; simpl.
  - exists cur. repeat split.
  - inversion Hnd as [|? ? Hnotin Hnd']; subst.
    apply dict_get_None_keys in Hnotin.
    destruct (dict_has k cur) eqn:Hk.
    + destruct (Hwf k r (or_introl eq_refl) Hk) as [d [v [-> Hv]]].
      simpl. unfold dict_index. rewrite Hv. simpl.
      assert (Hkeys : map fst (dict_set k v cur) = map fst cur).
      { rewrite dict_set_keys. now rewrite Hk. }
      destruct (IH (dict_set k v cur) Hnd') as [out [Hrun [Hfst Hget]]].
      { intros f r Hin Hf. apply (Hwf f r); [now right|].
        now rewrite <- (dict_has_keys f _ _ Hkeys). }
      exists out. split; [exact Hrun|]. split; [congruence|].
      intros f. rewrite Hget. unfold resolved_value. simpl.
      destruct (String.eqb_spec f k) as [->|Hne].
      * now rewrite Hnotin, dict_get_set_eq, Hk.
      * rewrite (dict_get_set_neq _ _ _ _ Hne).
        now rewrite (dict_has_keys f _ _ Hkeys).
    + destruct (IH cur Hnd') as [out [Hrun [Hfst Hget]]].
      { intros f r0 Hin Hf. apply (Hwf f r0); auto. now right. }
      exists out. split; [exact Hrun|]. split; [exact Hfst|].
      intros f. rewrite Hget. unfold resolved_value. simpl.
      destruct (String.eqb_spec f k) as [->|Hne]; auto.
      rewrite Hnotin, Hk. unfold dict_has in Hk.
      destruct (dict_get k cur); [discriminate|]. now destruct r.
Qed.

Lemma dict_set_not_nil {V : Type} (k : string) (v : V) (d : list (string * V)) :
  dict_set k v d <> [].
Proof.
  destruct d as [|[k' v'] d]; simpl; [discriminate|].
  destruct (String.eqb k k'); discriminate.
Qed.

Lemma identify_loop_ok (py_str : pyval -> string) (m : schema) :
  forall result_dict conflicts,
    (forall f d, In (f, VDict d) result_dict ->
                 is_conflict_marker (VDict d) = true ->
                 dict_has "candidates" d = true) ->
    exists out,
      identify_loop py_str result_dict m conflicts = Ok out
      /\ (conflicts <> []
          \/ (exists f a cs, dict_get f m = Some a
                             /\ In (f, conflict_marker cs) result_dict) ->
          out <> []).
Proof.
  induction result_dict as [|[k v] rest IH]; intros conflicts Hwf; simpl.
  - exists conflicts. split; auto.
    intros [H|[f [a [cs [_ []]]]]]. exact H.
  - assert (Hwf' : forall f d, In (f, VDict d) rest ->
                               is_conflict_marker (VDict d) = true ->
                               dict_has "candidates" d = true).
    { intros f d Hin. apply (Hwf f d). now right. }
    destruct (dict_get k m) as [a|] eqn:Hk.
    + destruct (is_conflict_marker v) eqn:Hmark.
      * destruct v as [| | | |d]; try discriminate.
        pose proof (Hwf k d (or_introl eq_refl) Hmark) as Hc.
        unfold dict_has in Hc. unfold dict_index.
        destruct (dict_get "candidates" d) as [c|]; [|discriminate]. simpl.
        destruct (IH (dict_set k c conflicts) Hwf') as [out [Hrun Hne]].
        exists out. split; auto. intros _. apply Hne. left.
        apply dict_set_not_nil.
      * destruct (is_list_conflict py_str a v) eqn:Hl.
        -- destruct (IH (dict_set k v conflicts) Hwf') as [out [Hrun Hne]].
           exists out. split; auto. intros _. apply Hne. left.
           apply dict_set_not_nil.
        -- destruct (IH conflicts Hwf') as [out [Hrun Hne]].
           exists out. split; auto.
           intros [H|[f [a' [cs [Hf [Hin|Hin]]]]]]; apply Hne; auto.
           ++ inversion Hin; subst. discriminate Hmark.
           ++ right. eauto.
    + destruct (IH conflicts Hwf') as [out [Hrun Hne]].
      exists out. split; auto.
      intros [H|[f [a' [cs [Hf [Hin|Hin]]]]]]; apply Hne; auto.
      * inversion Hin; subst. congruence.
      * right. eauto.
Qed.

(** C3: when the merged mapping holds a conflict marker on a schema field,
    the resolver is asked, and every field named in the reply's
    [resolved_fields] that exists in the merged mapping is overwritten
    with the resolved [value]; nothing else of a resolution is read, the
    other fields keep their values and no field is added.  For pages that
    yield total 10 and total 12 the merge holds a marker with candidates
    10, 12, and after the reply that resolves total to 12 with confidence 8
    the final instance has total 12. *)
Theorem resolve_overwrites_fields :
  (forall (llm_request : list message -> option response_model -> result pyval)
          (py_str : pyval -> string)
          (merged : dict) (m : schema) (resolved : dict),
      (exists f a cs, dict_get f m = Some a /\ In (f, conflict_marker cs) merged) ->
      (forall f d, In (f, VDict d) merged ->
                   is_conflict_marker (VDict d) = true ->
                   dict_has "candidates" d = true) ->
      (forall conflicts,
          _identify_conflicts py_str merged m = Ok conflicts ->
          _request_conflict_resolution llm_request py_str conflicts
          = Ok (VDict resolved)) ->
      NoDup (map fst resolved) ->
      (forall f r, In (f, r) resolved -> dict_has f merged = true ->
                   exists d v, r = VDict d /\ dict_get "value" d = Some v) ->
      exists out,
        _resolve_conflicts llm_request py_str merged m = Ok out
        /\ map fst out = map fst merged
        /\ (forall f, dict_get f out = resolved_value resolved merged f)
        /\ (forall f d v,
               dict_get f resolved = Some (VDict d) ->
               dict_get "value" d = Some v ->
               dict_has f merged = true ->
               dict_get f out = Some v))
  /\ (let reply :=
        VDict [("resolved_fields",
                VDict [("total", VDict [("value", VInt 12);
                                        ("confidence", VInt 8)])])] in
      let llm_request := fun (_ : list message) (_ : option response_model) =>
                           Ok reply in
      merge_fields cpython_set_order [("total", AInt)]
        [[("total", VInt 10)]; [("total", VInt 12)]]
      = Ok [("total", conflict_marker [VInt 10; VInt 12])]
      /\ _merge_results llm_request stub_str cpython_set_order strict_construct
           [VDict [("total", VInt 10)]; VDict [("total", VInt 12)]]
           [("total", AInt)]
         = Ok (VDict [("total", VInt 12)])).
Proof.
  split; [|split; reflexivity].
  intros llm_request py_str merged m resolved Hmark Hwf Hreply Hnd Hres.
  destruct (identify_loop_ok py_str m merged [] Hwf) as [conflicts [Hid Hne]].
  specialize (Hne (or_intror Hmark)).
  specialize (Hreply conflicts Hid).
  destruct (merge_resolved_loop_spec resolved merged Hnd Hres)
    as [out [Hrun [Hkeys Hget]]].
  exists out. unfold _resolve_conflicts. unfold _identify_conflicts in *.
  rewrite Hid. simpl.
  destruct conflicts as [|c0 conflicts]; [congruence|].
  rewrite Hreply. simpl. split; [exact Hrun|]. split; [exact Hkeys|].
  split; [exact Hget|].
  intros f d v Hf Hv Hin. rewrite Hget. unfold resolved_value.
  now rewrite Hf, Hin.
Qed.

Lemma resolve_overwrites_fields_witness :
  exists out,
    _resolve_conflicts
      (fun _ _ =>
         Ok (VDict [("resolved_fields",
                     VDict [("total", VDict [("value", VInt 12);
                                             ("confidence", VInt 8)])])]))
      stub_str
      [("total", conflict_marker [VInt 10; VInt 12])]
      [("total", AInt)] = Ok out
    /\ dict_get "total" out = Some (VInt 12).
Proof.
  destruct (proj1 resolve_overwrites_fields
              (fun _ _ =>
                 Ok (VDict [("resolved_fields",
                             VDict [("total", VDict [("value", VInt 12);
                                                     ("confidence", VInt 8)])])]))
              stub_str
              [("total", conflict_marker [VInt 10; VInt 12])]
              [("total", AInt)]
              [("total", VDict [("value", VInt 12); ("confidence", VInt 8)])])
    as [out [Hrun [_ [_ Hget]]]].
  - exists "total", AInt, [VInt 10; VInt 12]. split; [reflexivity|now left].
  - intros f d [H|[]] _. inversion H; subst. reflexivity.
  - intros conflicts _. reflexivity.
  - repeat constructor. intros [].
  - intros f r [H|[]] _. inversion H; subst. do 2 eexists. split; reflexivity.
  - exists out. split; [exact Hrun|].
    apply (Hget "total" [("value", VInt 12); ("confidence", VInt 8)]);
      reflexivity.
Defined.

(** ** The page dispatcher *)

Lemma collect_completed_perm (l l' : list (result pyval)) :
  Permutation l l' ->
  Permutation (collect_completed l) (collect_completed l').
Proof.
  induction 1 as [|x l l' _ IH|x y l|l l' l'' _ IH1 _ IH2]; simpl.
  - constructor.
  - destruct x; auto.
  - destruct x, y; auto. apply perm_swap.
  - eapply perm_trans; eauto.
Qed.

Lemma collect_completed_all_raise (l : list (result pyval)) :
  Forall (fun fu => exists e, fu = Raise e) l -> collect_completed l = [].
Proof.
  induction 1 as [|x l [e ->] _ IH]; simpl; auto.
Qed.

Section Dispatch.

Variable llm_request : list message -> option response_model -> result pyval.
Variable py_str : pyval -> string.
Variable order : list pyval -> list pyval.
Variable instantiate : schema -> dict -> result pyval.
Variable make_all_fields_optional : schema -> schema.
Variable yaml_dump : pyval -> string.
Variable encode_image : pyval -> result string.
Variable as_completed : list (result pyval) -> list (result pyval).

(** [as_completed] yields every future once, in order of completion. *)
Hypothesis as_completed_perm : forall l, Permutation (as_completed l) l.

Let run_handle := handle llm_request py_str order instantiate
                    make_all_fields_optional yaml_dump encode_image
                    as_completed.
Let submit := submit_pages llm_request py_str instantiate yaml_dump
                encode_image.
Let merge := _merge_results llm_request py_str order instantiate.

Lemma submit_pages_length (pages : list pyval) (m : schema) (vision : bool)
  (extra : option string) : forall futures,
  submit pages m vision extra = Ok futures -> length futures = length pages.
Proof.
  unfold submit.
  induction pages as [|page pages IH]; intros futures H; simpl in H.
  - now inversion H.
  - destruct (_build_messages py_str yaml_dump encode_image page vision);
      simpl in H; [|discriminate].
    destruct (submit_pages llm_request py_str instantiate yaml_dump
                encode_image pages m vision extra) as [fs|];
      simpl in H; [|discriminate].
    inversion H; subst. simpl. f_equal. now apply IH.
Qed.

(** In text mode building the messages cannot fail, so every page gets
    its task. *)
Lemma submit_pages_text_total (pages : list pyval) (m : schema)
  (extra : option string) :
  exists futures, submit pages m false extra = Ok futures.
Proof.
  unfold submit. induction pages as [|page pages [fs IH]]; simpl.
  - eauto.
  - rewrite IH. simpl. eauto.
Qed.

(** C4: a page task that raises anything but [IncompleteOutputException]
    fails its future with that exception; the futures that failed are
    skipped and the others are merged, in completion order; with three
    pages of which the second fails the merge runs over exactly the two
    results of the first and the third; when every future fails, or
    there is no page, [handle] raises the no-valid-results error. *)
Theorem handle_tolerates_page_failures (pages : list pyval) (m : schema)
  (vision : bool) (extra : option string) (futures : list (result pyval)) :
  submit pages (make_all_fields_optional m) vision extra = Ok futures ->
  (forall messages m' e,
      llm_request messages (Some (RModel m')) = Raise e ->
      (forall partial, e <> IncompleteOutputException partial) ->
      _process_page llm_request py_str instantiate messages m' = Raise e)
  /\ length futures = length pages
  /\ (exists results,
         Permutation results (collect_completed futures)
         /\ run_handle pages m vision extra
            = match results with
              | [] => Raise (ValueError "No valid results obtained from any page")
              | _ => merge results m
              end)
  /\ (forall r1 e r3,
         futures = [Ok r1; Raise e; Ok r3] ->
         exists results,
           Permutation results [r1; r3]
           /\ run_handle pages m vision extra = merge results m)
  /\ (Forall (fun fu => exists e, fu = Raise e) futures ->
      run_handle pages m vision extra
      = Raise (ValueError "No valid results obtained from any page")).
Proof.
  intros Hsub.
  assert (Hrun : run_handle pages m vision extra
                 = match collect_completed (as_completed futures) with
                   | [] => Raise (ValueError "No valid results obtained from any page")
                   | _ => merge (collect_completed (as_completed futures)) m
                   end).
  { unfold run_handle, handle. fold submit. rewrite Hsub. reflexivity. }
  pose proof (collect_completed_perm _ _ (as_completed_perm futures)) as Hperm.
  split; [|split; [|split; [|split]]].
  - intros messages m' e He Hne. unfold _process_page. rewrite He.
    destruct e; try reflexivity. exfalso. eapply Hne. reflexivity.
  - eapply submit_pages_length; eauto.
  - exists (collect_completed (as_completed futures)). split; auto.
  - intros r1 e r3 ->. simpl in Hperm.
    exists (collect_completed (as_completed [Ok r1; Raise e; Ok r3])).
    split; auto. rewrite Hrun.
    destruct (collect_completed (as_completed [Ok r1; Raise e; Ok r3])); auto.
    apply Permutation_nil in Hperm. discriminate.
  - intros Hall. rewrite Hrun.
    rewrite (collect_completed_all_raise _ Hall) in Hperm.
    apply Permutation_sym, Permutation_nil in Hperm. now rewrite Hperm.
Qed.

End Dispatch.

Lemma handle_tolerates_page_failures_witness :
  exists results,
    Permutation results [VDict [("total", VInt 10)]; VDict [("total", VInt 10)]]
    /\ handle flaky_llm stub_str cpython_set_order strict_construct
         (fun m => m) stub_str (fun _ => Ok ""%string) (@rev (result pyval))
         [VStr "p1"; VStr "p2"; VStr "p3"] [("total", AInt)] false None
       = _merge_results flaky_llm stub_str cpython_set_order strict_construct
           results [("total", AInt)].
Proof.
  destruct (handle_tolerates_page_failures
              flaky_llm stub_str cpython_set_order strict_construct
              (fun m => m) stub_str (fun _ => Ok ""%string) (@rev (result pyval))
              (fun l => Permutation_sym (Permutation_rev l))
              [VStr "p1"; VStr "p2"; VStr "p3"] [("total", AInt)] false None
              [Ok (VDict [("total", VInt 10)]);
               Raise (OtherException "timeout");
               Ok (VDict [("total", VInt 10)])]
              eq_refl)
    as [_ [_ [_ [H _]]]].
  exact (H _ _ _ eq_refl).
Defined.

(** ** The gateway object *)

(** C9: [set_thinking b] stores [b] in [is_thinking] and sets the
    temperature to 1 whatever it was and whatever [b] is; every other
    attribute keeps its value. *)
Theorem set_thinking_effect (b : bool) (self : LLM.t) :
  LLM.is_thinking (LLM.set_thinking b self) = b
  /\ LLM.temperature (LLM.set_thinking b self) = 1%Q
  /\ LLM.model (LLM.set_thinking b self) = LLM.model self
  /\ LLM.token_limit (LLM.set_thinking b self) = LLM.token_limit self
  /\ LLM.router (LLM.set_thinking b self) = LLM.router self
  /\ LLM.is_dynamic (LLM.set_thinking b self) = LLM.is_dynamic self
  /\ LLM.backend (LLM.set_thinking b self) = LLM.backend self
  /\ LLM.page_count (LLM.set_thinking b self) = LLM.page_count self
  /\ LLM.thinking_budget (LLM.set_thinking b self) = LLM.thinking_budget self
  /\ LLM.TIMEOUT (LLM.set_thinking b self) = LLM.TIMEOUT self
  /\ LLM.set_thinking b self
     = LLM.Build (LLM.model self) (LLM.token_limit self) (LLM.router self)
         (LLM.is_dynamic self) (LLM.backend self) 1%Q b
         (LLM.page_count self) (LLM.thinking_budget self) (LLM.TIMEOUT self)
  /\ LLM.temperature
       (LLM.set_thinking false (LLM.set_temperature 0.5%Q self)) = 1%Q.
Proof. repeat split. Qed.

Section GatewayProperties.

Variable router_completion : LLM.Router -> LLM.completion_kwargs -> result pyval.
Variable client_create : LLM.completion_kwargs -> result pyval.
Variable litellm_completion : LLM.completion_kwargs -> result pyval.
Variable agent_run : string -> option response_model -> result pyval.
Variable add_classification_structure : response_model -> string.
Variable extract_thinking_json : pyval -> option response_model -> result pyval.

Let request := LLM.request router_completion client_create agent_run
                 add_classification_structure extract_thinking_json.
Let request_kwargs := LLM.request_kwargs add_classification_structure.
Let send := LLM.send router_completion client_create.
Let raw_completion := LLM.raw_completion router_completion litellm_completion.


(** C8, as the code has it: [request] passes the object's timeout, which
    [set_timeout] configures, on the routed and on the direct path; only
    the direct path passes [max_retries=1], the routed path passes no
    retry limit; [raw_completion] passes neither a timeout nor a retry
    limit on either path. *)
Theorem transport_timeout_and_retries (self : LLM.t)
  (messages : list message) (rm : option response_model) :
  LLM.kw_timeout (request_kwargs self messages rm) = Some (LLM.TIMEOUT self)
  /\ (forall t, LLM.kw_timeout
                  (request_kwargs (LLM.set_timeout t self) messages rm)
                = Some t)
  /\ LLM.kw_max_retries (request_kwargs self messages rm)
     = match LLM.router self with
       | Some _ => None
       | None => Some 1
       end
  /\ LLM.kw_timeout (LLM.raw_completion_kwargs self messages) = None
  /\ LLM.kw_max_retries (LLM.raw_completion_kwargs self messages) = None
  /\ (LLM.backend self = LLM.DEFAULT ->
      request self messages rm
      = (response <-
           match LLM.router self with
           | Some r => router_completion r (request_kwargs self messages rm)
           | None => client_create (request_kwargs self messages rm)
           end ;;
         if negb (LLM.is_dynamic self) then Ok response
         else (text <- LLM.completion_content response ;;
               extract_thinking_json text rm)))
  /\ raw_completion self messages
     = (raw_response <-
          match LLM.router self with
          | Some r => router_completion r (LLM.raw_completion_kwargs self messages)
          | None => litellm_completion (LLM.raw_completion_kwargs self messages)
          end ;;
        LLM.completion_content raw_response).
Proof.
  unfold request, request_kwargs, raw_completion.
  unfold LLM.request, LLM.send, LLM.request_kwargs, LLM.raw_completion,
    LLM.raw_completion_kwargs, LLM.set_timeout.
  repeat split; try (destruct (LLM.router self); reflexivity).
  intros Hb. rewrite Hb. reflexivity.
Qed.

End GatewayProperties.



Lemma transport_timeout_and_retries_witness :
  let self := LLM.set_timeout 5000 (LLM.__init__ "gpt-4" None LLM.DEFAULT) in
  LLM.kw_timeout (LLM.request_kwargs stub_structure self [] None) = Some 5000
  /\ LLM.kw_max_retries (LLM.request_kwargs stub_structure self [] None) = Some 1
  /\ LLM.request (fun _ => stub_transport) stub_transport stub_agent
       stub_structure stub_extract self [] None
     = stub_transport (LLM.request_kwargs stub_structure self [] None).
Proof.
  destruct (transport_timeout_and_retries
              (fun _ => stub_transport) stub_transport stub_transport stub_agent
              stub_structure stub_extract
              (LLM.set_timeout 5000 (LLM.__init__ "gpt-4" None LLM.DEFAULT))
              [] None)
    as [H1 [_ [H3 [_ [_ [H6 _]]]]]].
  split; [exact H1|]. split; [exact H3|]. rewrite (H6 eq_refl). reflexivity.
Defined.

(** C8, as the spec words it, fails: [raw_completion] passes no timeout and
    no retry limit, and the routed path of [request] passes no retry
    limit. *)
Lemma transport_calls_without_limits :
  let self := LLM.__init__ "gpt-4" None LLM.DEFAULT in
  let routed := fst (LLM.load_router 0%nat self) in
  LLM.kw_timeout (LLM.raw_completion_kwargs self []) = None
  /\ LLM.kw_max_retries (LLM.raw_completion_kwargs self []) = None
  /\ LLM.router routed = Some 0%nat
  /\ LLM.kw_max_retries (LLM.request_kwargs stub_structure routed [] None) = None
  /\ ~ (forall self messages,
          LLM.kw_timeout (LLM.raw_completion_kwargs self messages)
          = Some (LLM.TIMEOUT self))
  /\ ~ (forall add_classification_structure self messages rm,
          LLM.kw_timeout
            (LLM.request_kwargs add_classification_structure self messages rm)
          = Some (LLM.TIMEOUT self)
          /\ exists n,
               LLM.kw_max_retries
                 (LLM.request_kwargs add_classification_structure self messages rm)
               = Some n /\ n <= 1).
Proof.
  repeat split.
  - intros H.
    specialize (H (LLM.__init__ "gpt-4" None LLM.DEFAULT) []). discriminate H.
  - intros H.
    destruct (H stub_structure
                (fst (LLM.load_router 0%nat (LLM.__init__ "gpt-4" None LLM.DEFAULT)))
                [] None) as [_ [n [Hn _]]].
    discriminate Hn.
Qed.

(** ** Binary64 rounding *)

Lemma shr_1_nonneg (m : Z) (r s : bool) :
  0 <= m ->
  shr_1 (Build_shr_record m r s) = Build_shr_record (m / 2) (Z.odd m) (r || s).
Proof.
  intros Hm. destruct m as [|p|p]; [reflexivity| |lia].
  destruct p as [p|p|]; simpl shr_1; f_equal; try reflexivity.
  - rewrite Pos2Z.inj_xI. apply Z.div_unique with 1; lia.
  - rewrite Pos2Z.inj_xO. apply Z.div_unique with 0; lia.
Qed.

Lemma shr_inv_step (x k : Z) (mrs : shr_record) :
  0 <= x -> 0 <= k -> shr_inv x k mrs -> shr_inv x (k + 1) (shr_1 mrs).
Proof.
  unfold shr_inv. intros Hx Hk [Hm [Hr Hs]]. destruct mrs as [m r s];
    cbn [shr_m shr_r shr_s] in *.
  assert (HP : 0 < 2 ^ k) by (apply Z.pow_pos_nonneg; lia).
  rewrite Z.pow_add_r, Z.pow_1_r by lia.
  set (P := 2 ^ k) in *.
  pose proof (Z.div_mod x P ltac:(lia)) as Hdm.
  pose proof (Z.mod_pos_bound x P HP) as Hrem.
  set (rem := x mod P) in *.
  assert (Hm0 : 0 <= m) by (subst m; apply Z.div_pos; lia).
  rewrite shr_1_nonneg by exact Hm0.
  pose proof (Z.div_mod m 2 ltac:(lia)) as Hdm2.
  pose proof (Z.mod_pos_bound m 2 ltac:(lia)) as Hb2.
  assert (Hq : x / (P * 2) = m / 2).
  { symmetry. apply Z.div_unique with (P * (m mod 2) + rem); nia. }
  assert (Hr' : x mod (P * 2) = P * (m mod 2) + rem).
  { symmetry. apply Z.mod_unique with (m / 2); nia. }
  cbn [shr_m shr_r shr_s]. rewrite Hq, Hr'.
  split; [reflexivity|].
  pose proof (Zmod_odd m) as Hodd. subst r s.
  destruct (Z.odd m); rewrite Hodd in *;
    (split;
     repeat match goal with
            | |- context [?a <=? ?b] => destruct (Z.leb_spec a b)
            | |- context [?a =? ?b] => destruct (Z.eqb_spec a b)
            end; cbn [negb orb]; try reflexivity; exfalso; lia).
Qed.

Lemma shr_inv_iter (x : Z) (p : positive) : forall k mrs,
  0 <= x -> 0 <= k -> shr_inv x k mrs ->
  shr_inv x (k + Zpos p) (iter_pos shr_1 p mrs).
Proof.
  induction p as [p IH|p IH|]; intros k mrs Hx Hk Hinv; simpl.
  - replace (k + Z.pos p~1) with (((k + 1) + Z.pos p) + Z.pos p) by lia.
    apply IH; [lia|lia|]. apply IH; [lia|lia|]. now apply shr_inv_step.
  - replace (k + Z.pos p~0) with ((k + Z.pos p) + Z.pos p) by lia.
    apply IH; [lia|lia|]. now apply IH.
  - now apply shr_inv_step.
Qed.

Lemma shr_inv_init (x : Z) : 0 <= x -> shr_inv x 0 (Build_shr_record x false false).
Proof.
  intros Hx. unfold shr_inv. simpl. rewrite Z.div_1_r, Z.mod_1_r. auto.
Qed.

Lemma digits2_pos_size (p : positive) : digits2_pos p = Pos.size p.
Proof. induction p as [p IH|p IH|]; simpl; congruence. Qed.

Lemma Zdigits2_log2 (M : Z) : 0 < M -> Zdigits2 M = Z.log2 M + 1.
Proof.
  intros HM. destruct M as [|p|p]; try lia.
  simpl Zdigits2. rewrite digits2_pos_size.
  destruct p as [p|p|]; simpl; lia.
Qed.

Lemma Zdigits2_bounds (M dg : Z) :
  0 < dg -> 2 ^ (dg - 1) <= M < 2 ^ dg -> Zdigits2 M = dg.
Proof.
  intros Hdg HM.
  assert (0 < M).
  { assert (0 < 2 ^ (dg - 1)) by (apply Z.pow_pos_nonneg; lia). lia. }
  rewrite Zdigits2_log2 by assumption.
  rewrite (Z.log2_unique M (dg - 1)); try lia.
  replace (Z.succ (dg - 1)) with dg by lia. exact HM.
Qed.

Lemma shr_fexp_exact (M E sh : Z) :
  0 < M -> 0 <= sh ->
  Zdigits2 M = 53 + sh ->
  -1074 <= E + sh ->
  exists mrs,
    shr_fexp 53 1024 M E loc_Exact = (mrs, E + sh) /\ shr_inv M sh mrs.
Proof.
  intros HM Hsh Hdg HE.
  unfold shr_fexp, fexp, emin. rewrite Hdg.
  replace (Z.max (53 + sh + E - 53) (3 - 1024 - 53) - E) with sh by lia.
  simpl shr_record_of_loc. unfold shr.
  destruct sh as [|p|p]; [| |lia].
  - exists (Build_shr_record M false false). split.
    + now rewrite Z.add_0_r.
    + apply shr_inv_init. lia.
  - exists (iter_pos shr_1 p (Build_shr_record M false false)). split; auto.
    change (Z.pos p) with (0 + Z.pos p).
    apply shr_inv_iter; try lia. apply shr_inv_init. lia.
Qed.

Lemma round_of_inv (M sh : Z) (mrs : shr_record) :
  0 <= sh -> shr_inv M sh mrs ->
  round_nearest_even (shr_m mrs) (loc_of_shr_record mrs) = round_half_even M sh.
Proof.
  intros Hsh [Hm [Hr Hs]]. destruct mrs as [m r s]; cbn [shr_m shr_r shr_s] in *.
  unfold round_half_even. rewrite <- Hm.
  assert (HP : 0 < 2 ^ sh) by (apply Z.pow_pos_nonneg; lia).
  pose proof (Z.mod_pos_bound M (2 ^ sh) HP) as Hrem.
  set (P := 2 ^ sh) in *. set (rem := M mod P) in *.
  subst r s.
  repeat match goal with
         | |- context [?a <=? ?b] => destruct (Z.leb_spec a b)
         | |- context [?a <? ?b] => destruct (Z.ltb_spec a b)
         | |- context [?a =? ?b] => destruct (Z.eqb_spec a b)
         end; cbn [negb orb andb loc_of_shr_record round_nearest_even];
    try reflexivity; try (exfalso; lia);
    rewrite <- Z.negb_odd; destruct (Z.odd m); reflexivity.
Qed.

Lemma round_half_even_bounds (M sh : Z) :
  0 <= sh -> 2 ^ (52 + sh) <= M < 2 ^ (53 + sh) ->
  2 ^ 52 <= round_half_even M sh <= 2 ^ 53.
Proof.
  intros Hsh HM. rewrite !Z.pow_add_r in HM by lia.
  assert (HP : 0 < 2 ^ sh) by (apply Z.pow_pos_nonneg; lia).
  assert (2 ^ 52 <= M / 2 ^ sh) by (apply Z.div_le_lower_bound; lia).
  assert (M / 2 ^ sh < 2 ^ 53) by (apply Z.div_lt_upper_bound; lia).
  unfold round_half_even.
  destruct ((2 ^ sh <? 2 * (M mod 2 ^ sh))
            || ((2 * (M mod 2 ^ sh) =? 2 ^ sh) && Z.odd (M / 2 ^ sh))); lia.
Qed.

Lemma binary_round_aux_gen (M E sh : Z) :
  0 <= sh -> 2 ^ (52 + sh) <= M < 2 ^ (53 + sh) ->
  -1074 <= E + sh ->
  binary_round_aux 53 1024 false M E loc_Exact =
  if round_half_even M sh <? 2 ^ 53
  then (if E + sh <=? 971
        then S754_finite false (Z.to_pos (round_half_even M sh)) (E + sh)
        else S754_infinity false)
  else (if E + sh + 1 <=? 971
        then S754_finite false (Z.to_pos (2 ^ 52)) (E + sh + 1)
        else S754_infinity false).
Proof.
  intros Hsh HM HE1.
  assert (HM0 : 0 < M).
  { assert (0 < 2 ^ (52 + sh)) by (apply Z.pow_pos_nonneg; lia). lia. }
  destruct (shr_fexp_exact M E sh HM0 Hsh) as [mrs [Hshr Hinv]]; auto.
  { apply Zdigits2_bounds; [lia|]. now replace (53 + sh - 1) with (52 + sh) by lia. }
  unfold binary_round_aux. rewrite Hshr.
  rewrite (round_of_inv M sh mrs Hsh Hinv).
  pose proof (round_half_even_bounds M sh Hsh HM) as Hq.
  set (q := round_half_even M sh) in *.
  change (1024 - 53) with 971.
  destruct (Z.ltb_spec q (2 ^ 53)) as [Hlt|Hge].
  - destruct (shr_fexp_exact q (E + sh) 0) as [mrs2 [Hshr2 [Hm2 _]]]; try lia.
    { apply Zdigits2_bounds; simpl; lia. }
    rewrite Hshr2. rewrite Hm2, Z.pow_0_r, Z.div_1_r.
    destruct q as [|pq|pq]; try lia.
    rewrite Z.add_0_r. reflexivity.
  - assert (Hq53 : q = 2 ^ 53) by lia.
    destruct (shr_fexp_exact q (E + sh) 1) as [mrs2 [Hshr2 [Hm2 _]]]; try lia.
    { apply Zdigits2_bounds; [lia|]. rewrite Hq53. simpl. lia. }
    rewrite Hshr2, Hm2, Hq53.
    change (2 ^ 53 / 2 ^ 1) with (Z.pos (Z.to_pos (2 ^ 52))).
    reflexivity.
Qed.

Lemma binary_round_aux_spec (M E sh : Z) :
  0 <= sh -> 2 ^ (52 + sh) <= M < 2 ^ (53 + sh) ->
  -1074 <= E + sh -> E + sh + 1 <= 971 ->
  binary_round_aux 53 1024 false M E loc_Exact =
  if round_half_even M sh <? 2 ^ 53
  then S754_finite false (Z.to_pos (round_half_even M sh)) (E + sh)
  else S754_finite false (Z.to_pos (2 ^ 52)) (E + sh + 1).
Proof.
  intros Hsh HM HE1 HE2. rewrite (binary_round_aux_gen M E sh) by assumption.
  destruct (Z.leb_spec (E + sh) 971); [|lia].
  destruct (Z.leb_spec (E + sh + 1) 971); [|lia].
  reflexivity.
Qed.

Lemma pos_iter_xO (m k : positive) :
  Z.pos (Pos.iter xO m k) = Z.pos m * 2 ^ Z.pos k.
Proof.
  induction k as [|k IH] using Pos.peano_ind.
  - simpl. lia.
  - rewrite Pos.iter_succ, Pos2Z.inj_xO, IH, Pos2Z.inj_succ, Z.pow_succ_r; lia.
Qed.

Lemma round_half_even_0 (M : Z) : round_half_even M 0 = M.
Proof.
  unfold round_half_even. rewrite Z.pow_0_r, Z.mod_1_r, Z.div_1_r. reflexivity.
Qed.

(** An integer of at most 53 bits converts exactly. *)
Lemma float_of_int_small (n d : Z) :
  1 <= d <= 53 -> 2 ^ (d - 1) <= n < 2 ^ d ->
  LLM.float_of_int n
  = Ok (S754_finite false (Z.to_pos (n * 2 ^ (53 - d))) (d - 53)).
Proof.
  intros Hd Hn.
  assert (Hpos : 0 < 2 ^ (d - 1)) by (apply Z.pow_pos_nonneg; lia).
  destruct n as [|pn|pn]; try lia.
  assert (Hdig : Z.pos (digits2_pos pn) = d).
  { apply (Zdigits2_bounds (Z.pos pn) d); lia. }
  assert (HT : 0 < 2 ^ (53 - d)) by (apply Z.pow_pos_nonneg; lia).
  assert (Haux : binary_round_aux 53 1024 false (Z.pos pn * 2 ^ (53 - d))
                   (d - 53) loc_Exact
                 = S754_finite false (Z.to_pos (Z.pos pn * 2 ^ (53 - d))) (d - 53)).
  { rewrite (binary_round_aux_spec _ (d - 53) 0); try lia.
    - rewrite round_half_even_0, !Z.add_0_r.
      destruct (Z.ltb_spec (Z.pos pn * 2 ^ (53 - d)) (2 ^ 53)) as [|Hge];
        [reflexivity|].
      exfalso. replace (2 ^ 53) with (2 ^ d * 2 ^ (53 - d)) in Hge
        by (rewrite <- Z.pow_add_r by lia; f_equal; lia).
      nia.
    - rewrite !Z.add_0_r.
      replace (2 ^ 52) with (2 ^ (d - 1) * 2 ^ (53 - d))
        by (rewrite <- Z.pow_add_r by lia; f_equal; lia).
      replace (2 ^ 53) with (2 ^ d * 2 ^ (53 - d))
        by (rewrite <- Z.pow_add_r by lia; f_equal; lia).
      nia. }
  unfold LLM.float_of_int, binary_normalize, binary_round, shl_align, fexp, emin.
  unfold LLM.prec, LLM.emax. rewrite Hdig.
  replace (Z.max (d + 0 - 53) (3 - 1024 - 53)) with (d - 53) by lia.
  rewrite Z.sub_0_r.
  destruct (d - 53) as [|k|k] eqn:Ek; try lia.
  - replace (53 - d) with 0 in * by lia.
    rewrite Z.pow_0_r, Z.mul_1_r in Haux. rewrite Z.pow_0_r, Z.mul_1_r.
    rewrite Haux. reflexivity.
  - assert (Hk : 53 - d = Z.pos k) by lia.
    rewrite pos_iter_xO, <- Hk, Haux. reflexivity.
Qed.

Lemma thinking_ratio_value :
  LLM.DEFAULT_THINKING_RATIO = S754_finite false 6004799503160661 (-54).
Proof. reflexivity. Qed.

Lemma int_of_float_neg (m : positive) (e : Z) :
  e < 0 ->
  LLM.int_of_float (S754_finite false m e) = Ok (Z.pos m / 2 ^ (- e)).
Proof.
  intros He. destruct e as [|k|k]; try lia.
  simpl. rewrite Z.shiftr_div_pow2 by lia. reflexivity.
Qed.

Lemma round_half_even_eq (M sh q rem : Z) :
  0 <= sh -> 0 <= rem < 2 ^ sh -> M = 2 ^ sh * q + rem ->
  round_half_even M sh =
  if (2 ^ sh <? 2 * rem) || ((2 * rem =? 2 ^ sh) && Z.odd q) then q + 1 else q.
Proof.
  intros Hsh Hrem HM. unfold round_half_even.
  assert (HP : 0 < 2 ^ sh) by (apply Z.pow_pos_nonneg; lia).
  rewrite <- (Z.div_unique M (2 ^ sh) q rem) by (auto; lia).
  rewrite <- (Z.mod_unique M (2 ^ sh) q rem) by (auto; lia).
  reflexivity.
Qed.

(** The product of a multiple of three below [2 ^ 53] with the binary64
    value of [1/3] rounds to the exact third. *)
Lemma mul_third_mantissa (K : Z) :
  2 ^ 52 <= 3 * K < 2 ^ 53 ->
  forall E, -1074 <= E + 52 -> E + 54 <= 971 ->
  exists q e,
    binary_round_aux 53 1024 false (K * (2 ^ 54 - 1)) E loc_Exact
    = S754_finite false (Z.to_pos q) e
    /\ 0 < q
    /\ ((q = 4 * K /\ e = E + 52) \/ (q = 2 * K /\ e = E + 53)).
Proof.
  intros HK E HE1 HE2.
  destruct (Z.lt_trichotomy K (2 ^ 51)) as [Hlt|[Heq|Hgt]].
  - exists (4 * K), (E + 52).
    rewrite (binary_round_aux_spec _ E 52) by lia.
    rewrite (round_half_even_eq _ 52 (4 * K - 1) (2 ^ 52 - K)) by lia.
    destruct (Z.ltb_spec (2 ^ 52) (2 * (2 ^ 52 - K))); [|lia].
    cbn [orb]. replace (4 * K - 1 + 1) with (4 * K) by lia.
    destruct (Z.ltb_spec (4 * K) (2 ^ 53)); [|lia].
    split; [reflexivity|]. split; [lia|]. left. split; reflexivity.
  - subst K. exists (2 * 2 ^ 51), (E + 53).
    rewrite (binary_round_aux_spec _ E 52) by lia.
    replace (round_half_even (2 ^ 51 * (2 ^ 54 - 1)) 52) with (2 ^ 53)
      by (vm_compute; reflexivity).
    replace (2 ^ 53 <? 2 ^ 53) with false by reflexivity.
    split; [|split; [lia|right; split; [reflexivity|lia]]].
    f_equal; try reflexivity; lia.
  - exists (2 * K), (E + 53).
    rewrite (binary_round_aux_spec _ E 53) by lia.
    rewrite (round_half_even_eq _ 53 (2 * K - 1) (2 ^ 53 - K)) by lia.
    destruct (Z.ltb_spec (2 ^ 53) (2 * (2 ^ 53 - K))); [|lia].
    cbn [orb]. replace (2 * K - 1 + 1) with (2 * K) by lia.
    destruct (Z.ltb_spec (2 * K) (2 ^ 53)); [|lia].
    split; [reflexivity|]. split; [lia|]. right. split; reflexivity.
Qed.

Lemma mul_third_exact (k : Z) :
  1 <= k -> 3 * k < 2 ^ 53 ->
  (x <- LLM.int_mul_float (3 * k) LLM.DEFAULT_THINKING_RATIO ;;
   LLM.int_of_float x) = Ok k.
Proof.
  intros Hk Hn.
  set (n := 3 * k) in *.
  set (d := Z.log2 n + 1).
  assert (Hn0 : 0 < n) by (unfold n; lia).
  pose proof (Z.log2_spec n Hn0) as Hspec.
  pose proof (Z.log2_nonneg n) as Hlog.
  assert (Hlt : Z.log2 n < 53) by (apply Z.log2_lt_pow2; lia).
  replace (Z.succ (Z.log2 n)) with d in Hspec by (unfold d; lia).
  replace (Z.log2 n) with (d - 1) in Hspec by (unfold d; lia).
  assert (Hd : 1 <= d <= 53) by (unfold d; lia).
  clearbody d.
  assert (HT : 0 < 2 ^ (53 - d)) by (apply Z.pow_pos_nonneg; lia).
  assert (H52 : 2 ^ 52 = 2 ^ (d - 1) * 2 ^ (53 - d))
    by (rewrite <- Z.pow_add_r by lia; f_equal; lia).
  assert (H53 : 2 ^ 53 = 2 ^ d * 2 ^ (53 - d))
    by (rewrite <- Z.pow_add_r by lia; f_equal; lia).
  assert (H4T : 2 ^ (55 - d) = 4 * 2 ^ (53 - d)).
  { replace (55 - d) with (2 + (53 - d)) by lia.
    rewrite Z.pow_add_r by lia. reflexivity. }
  assert (H2T : 2 ^ (54 - d) = 2 * 2 ^ (53 - d)).
  { replace (54 - d) with (1 + (53 - d)) by lia.
    rewrite Z.pow_add_r by lia. reflexivity. }
  set (T := 2 ^ (53 - d)) in *.
  unfold LLM.int_mul_float.
  rewrite (float_of_int_small n d Hd Hspec). fold T.
  cbn [bind]. rewrite thinking_ratio_value. unfold SFmul. cbn [xorb].
  assert (HM : Z.pos (Z.to_pos (n * T) * 6004799503160661)
               = (k * T) * (2 ^ 54 - 1)).
  { rewrite Pos2Z.inj_mul, Z2Pos.id by nia. unfold n.
    change (2 ^ 54 - 1) with (3 * 6004799503160661). ring. }
  unfold LLM.prec, LLM.emax. rewrite HM.
  destruct (mul_third_mantissa (k * T)) with (E := d - 53 + -54)
    as [q [e [Hround [Hq Hcase]]]]; try lia.
  { unfold n in Hspec. nia. }
  rewrite Hround.
  destruct Hcase as [[Hq4 He]|[Hq2 He]]; subst e.
  - rewrite int_of_float_neg by lia.
    rewrite Z2Pos.id by lia.
    replace (- (d - 53 + -54 + 52)) with (55 - d) by lia.
    rewrite H4T, Hq4. f_equal.
    replace (4 * (k * T)) with (k * (4 * T)) by ring.
    apply Z.div_mul. lia.
  - rewrite int_of_float_neg by lia.
    rewrite Z2Pos.id by lia.
    replace (- (d - 53 + -54 + 53)) with (54 - d) by lia.
    rewrite H2T, Hq2. f_equal.
    replace (2 * (k * T)) with (k * (2 * T)) by ring.
    apply Z.div_mul. lia.
Qed.

(** An integer of more than 53 bits is rounded to 53 bits, and overflows
    when the rounded value needs an exponent above 971. *)
Lemma float_of_int_wide (n d : Z) :
  54 <= d -> 2 ^ (d - 1) <= n < 2 ^ d ->
  LLM.float_of_int n =
  if round_half_even n (d - 53) <? 2 ^ 53
  then (if d - 53 <=? 971
        then Ok (S754_finite false (Z.to_pos (round_half_even n (d - 53))) (d - 53))
        else Raise OverflowError)
  else (if d - 52 <=? 971
        then Ok (S754_finite false (Z.to_pos (2 ^ 52)) (d - 52))
        else Raise OverflowError).
Proof.
  intros Hd Hn.
  assert (Hpos : 0 < 2 ^ (d - 1)) by (apply Z.pow_pos_nonneg; lia).
  destruct n as [|pn|pn]; try lia.
  assert (Hdig : Z.pos (digits2_pos pn) = d).
  { apply (Zdigits2_bounds (Z.pos pn) d); lia. }
  assert (Hb : 2 ^ (52 + (d - 53)) <= Z.pos pn < 2 ^ (53 + (d - 53))).
  { replace (52 + (d - 53)) with (d - 1) by lia.
    now replace (53 + (d - 53)) with d by lia. }
  unfold LLM.float_of_int, binary_normalize, binary_round, shl_align, fexp, emin.
  unfold LLM.prec, LLM.emax. rewrite Hdig.
  replace (Z.max (d + 0 - 53) (3 - 1024 - 53)) with (d - 53) by lia.
  rewrite Z.sub_0_r.
  destruct (d - 53) as [|k|k] eqn:Ek; try lia. rewrite <- Ek in *.
  rewrite (binary_round_aux_gen _ 0 (d - 53)) by lia.
  replace (0 + (d - 53) + 1) with (d - 52) by lia.
  rewrite Z.add_0_l.
  destruct (round_half_even (Z.pos pn) (d - 53) <? 2 ^ 53).
  - destruct (d - 53 <=? 971); reflexivity.
  - destruct (d - 52 <=? 971); reflexivity.
Qed.

Lemma log2_digits (n : Z) :
  0 < n -> 2 ^ (Z.log2 n + 1 - 1) <= n < 2 ^ (Z.log2 n + 1).
Proof.
  intros Hn. pose proof (Z.log2_spec n Hn) as H.
  replace (Z.log2 n + 1 - 1) with (Z.log2 n) by lia.
  now replace (Z.log2 n + 1) with (Z.succ (Z.log2 n)) by lia.
Qed.

Lemma float_of_int_large (n : Z) :
  2 ^ 53 <= n < 2 ^ 1024 - 2 ^ 970 ->
  exists q e,
    LLM.float_of_int n = Ok (S754_finite false (Z.to_pos q) e)
    /\ 2 ^ 52 <= q < 2 ^ 53 /\ 1 <= e <= 971.
Proof.
  intros Hn.
  assert (Hn0 : 0 < n) by lia.
  pose proof (log2_digits n Hn0) as Hspec.
  assert (Hlt : Z.log2 n < 1024) by (apply Z.log2_lt_pow2; lia).
  assert (Hge : 53 <= Z.log2 n) by (apply Z.log2_le_pow2; lia).
  set (d := Z.log2 n + 1) in *.
  assert (Hd : 54 <= d <= 1024) by (unfold d; lia). clearbody d.
  assert (Hb : 2 ^ (52 + (d - 53)) <= n < 2 ^ (53 + (d - 53))).
  { replace (52 + (d - 53)) with (d - 1) by lia.
    now replace (53 + (d - 53)) with d by lia. }
  pose proof (round_half_even_bounds n (d - 53) ltac:(lia) Hb) as Hq.
  rewrite (float_of_int_wide n d) by (auto; lia).
  destruct (Z.ltb_spec (round_half_even n (d - 53)) (2 ^ 53)) as [Hr|Hr].
  - destruct (Z.leb_spec (d - 53) 971); [|lia].
    do 2 eexists. split; [reflexivity|]. lia.
  - destruct (Z.leb_spec (d - 52) 971) as [Hle|Hgt].
    + do 2 eexists. split; [reflexivity|]. lia.
    + exfalso. assert (d = 1024) by lia. subst d.
      change (1024 - 53) with 971 in *.
      assert (HP : 0 < 2 ^ 971) by lia.
      pose proof (Z.div_mod n (2 ^ 971) ltac:(lia)) as Hdm.
      pose proof (Z.mod_pos_bound n (2 ^ 971) HP) as Hrem.
      rewrite (round_half_even_eq n 971 (n / 2 ^ 971) (n mod 2 ^ 971))
        in Hr by (auto; lia).
      assert (Hq0 : n / 2 ^ 971 < 2 ^ 53)
        by (apply Z.div_lt_upper_bound; lia).
      destruct (Z.ltb_spec (2 ^ 971) (2 * (n mod 2 ^ 971)));
        destruct (Z.eqb_spec (2 * (n mod 2 ^ 971)) (2 ^ 971));
        cbn [orb andb] in Hr; try lia;
        destruct (Z.odd (n / 2 ^ 971)); lia.
Qed.

Lemma float_of_int_overflow (n : Z) :
  2 ^ 1024 - 2 ^ 970 <= n -> LLM.float_of_int n = Raise OverflowError.
Proof.
  intros Hn.
  assert (Hn0 : 0 < n) by lia.
  pose proof (log2_digits n Hn0) as Hspec.
  assert (Hge : 1023 <= Z.log2 n) by (apply Z.log2_le_pow2; lia).
  set (d := Z.log2 n + 1) in *.
  assert (Hd : 1024 <= d) by (unfold d; lia). clearbody d.
  rewrite (float_of_int_wide n d) by (auto; lia).
  destruct (Z.leb_spec (d - 52) 971); [lia|].
  destruct (Z.leb_spec (d - 53) 971) as [Hle|Hgt].
  - assert (d = 1024) by lia. subst d.
    change (1024 - 53) with 971 in *.
    assert (HP : 0 < 2 ^ 971) by lia.
    pose proof (Z.div_mod n (2 ^ 971) ltac:(lia)) as Hdm.
    pose proof (Z.mod_pos_bound n (2 ^ 971) HP) as Hrem.
    assert (Hq0 : n / 2 ^ 971 = 2 ^ 53 - 1).
    { assert (n / 2 ^ 971 < 2 ^ 53) by (apply Z.div_lt_upper_bound; lia).
      assert (2 ^ 53 - 1 <= n / 2 ^ 971)
        by (apply Z.div_le_lower_bound; lia).
      lia. }
    rewrite (round_half_even_eq n 971 (n / 2 ^ 971) (n mod 2 ^ 971))
      by (auto; lia).
    rewrite Hq0 in *.
    replace (Z.odd (2 ^ 53 - 1)) with true by reflexivity.
    destruct (Z.ltb_spec (2 ^ 971) (2 * (n mod 2 ^ 971)));
      destruct (Z.eqb_spec (2 * (n mod 2 ^ 971)) (2 ^ 971));
      cbn [orb andb]; try (exfalso; lia);
      (destruct (Z.ltb_spec (2 ^ 53 - 1 + 1) (2 ^ 53)); [lia|reflexivity]).
  - destruct (round_half_even n (d - 53) <? 2 ^ 53); reflexivity.
Qed.

Lemma mul_ratio_large (q1 e1 : Z) :
  2 ^ 52 <= q1 < 2 ^ 53 -> 1 <= e1 <= 971 ->
  exists q2 e2,
    binary_round_aux 53 1024 false (q1 * 6004799503160661) (e1 + -54) loc_Exact
    = S754_finite false (Z.to_pos q2) e2
    /\ 2 ^ 52 <= q2 /\ -1 <= e2.
Proof.
  intros Hq He.
  destruct (Z.lt_ge_cases (q1 * 6004799503160661) (2 ^ 105)) as [Hlt|Hge].
  - rewrite (binary_round_aux_spec _ _ 52) by lia.
    pose proof (round_half_even_bounds (q1 * 6004799503160661) 52
                  ltac:(lia) ltac:(lia)) as Hr.
    destruct (Z.ltb_spec (round_half_even (q1 * 6004799503160661) 52) (2 ^ 53)).
    + do 2 eexists. split; [reflexivity|]. lia.
    + do 2 eexists. split; [reflexivity|]. lia.
  - rewrite (binary_round_aux_spec _ _ 53) by lia.
    pose proof (round_half_even_bounds (q1 * 6004799503160661) 53
                  ltac:(lia) ltac:(lia)) as Hr.
    destruct (Z.ltb_spec (round_half_even (q1 * 6004799503160661) 53) (2 ^ 53)).
    + do 2 eexists. split; [reflexivity|]. lia.
    + do 2 eexists. split; [reflexivity|]. lia.
Qed.

Lemma int_of_float_lower (q e : Z) :
  2 ^ 52 <= q -> -1 <= e ->
  exists z,
    LLM.int_of_float (S754_finite false (Z.to_pos q) e) = Ok z /\ 2 ^ 51 <= z.
Proof.
  intros Hq He. unfold LLM.int_of_float.
  assert (Hid : Z.pos (Z.to_pos q) = q) by (apply Z2Pos.id; lia).
  destruct e as [|k|k].
  - eexists. split; [reflexivity|]. rewrite Hid, Z.shiftl_0_r. lia.
  - eexists. split; [reflexivity|]. rewrite Hid, Z.shiftl_mul_pow2 by lia.
    assert (0 < 2 ^ Z.pos k) by (apply Z.pow_pos_nonneg; lia). nia.
  - eexists. split; [reflexivity|]. rewrite Hid.
    assert (k = 1%positive) by lia. subst k.
    rewrite Z.shiftr_div_pow2 by lia.
    apply Z.div_le_lower_bound; lia.
Qed.

Lemma bind_assoc {A B C : Type} (r : result A) (f : A -> result B)
  (g : B -> result C) :
  (x <- r ;; (y <- f x ;; g y)) = (y <- (x <- r ;; f x) ;; g y).
Proof. destruct r; reflexivity. Qed.

(** The thinking budget, for every page count whose token estimate Python
    can convert to a float. *)
Lemma thinking_tokens_of_spec (p : Z) :
  0 < p -> p * 1500 < 2 ^ 1024 - 2 ^ 970 ->
  LLM.thinking_tokens_of p = Ok (Z.min (Z.max (p * 500) 1200) 64000).
Proof.
  intros Hp Hmax. unfold LLM.thinking_tokens_of.
  unfold LLM.DEFAULT_PAGE_TOKENS, LLM.MIN_THINKING_BUDGET,
    LLM.MAX_THINKING_BUDGET.
  destruct (Z.lt_ge_cases (p * 1500) (2 ^ 53)) as [Hsmall|Hlarge].
  - rewrite bind_assoc.
    replace (p * 1500) with (3 * (p * 500)) by ring.
    rewrite mul_third_exact by lia. reflexivity.
  - destruct (float_of_int_large (p * 1500)) as [q1 [e1 [Hf [Hq1 He1]]]];
      [lia|].
    unfold LLM.int_mul_float. rewrite Hf. cbn [bind].
    rewrite thinking_ratio_value. unfold SFmul. cbn [xorb].
    rewrite Pos2Z.inj_mul, Z2Pos.id by lia.
    destruct (mul_ratio_large q1 e1 Hq1 He1) as [q2 [e2 [Hm [Hq2 He2]]]].
    unfold LLM.prec, LLM.emax. rewrite Hm.
    destruct (int_of_float_lower q2 e2 Hq2 He2) as [z [Hz Hzl]].
    rewrite Hz. cbn [bind]. f_equal.
    assert (64000 <= p * 500) by lia. lia.
Qed.

(** Past the float range the product raises. *)
Lemma thinking_tokens_of_overflow (p : Z) :
  2 ^ 1024 - 2 ^ 970 <= p * 1500 ->
  LLM.thinking_tokens_of p = Raise OverflowError.
Proof.
  intros Hp. unfold LLM.thinking_tokens_of, LLM.int_mul_float.
  unfold LLM.DEFAULT_PAGE_TOKENS.
  now rewrite (float_of_int_overflow (p * 1500) Hp).
Qed.

(** C5, as the code has it: for a positive page count whose token estimate
    [p * 1500] Python can convert to a float, that is below
    [2 ^ 1024 - 2 ^ 970], [set_page_count] stores the page count, the
    content token limit [min(p * 1500, 120000)] and the thinking budget
    [clamp(p * 1500 * 1/3, 1200, 64000)], and leaves the rest of the object
    alone; one page gives 1500 and 1200, a hundred pages give 120000 and
    50000. *)
Theorem set_page_count_budget (p : Z) (self : LLM.t) :
  0 < p -> p * 1500 < 2 ^ 1024 - 2 ^ 970 ->
  let content_tokens := Z.min (p * 1500) 120000 in
  let thinking_tokens := Z.min (Z.max (p * 1500 / 3) 1200) 64000 in
  LLM.set_page_count p self
  = (LLM.with_budget content_tokens thinking_tokens
       (LLM.with_page_count p self), None)
  /\ LLM.token_limit (fst (LLM.set_page_count p self)) = Some content_tokens
  /\ LLM.thinking_budget (fst (LLM.set_page_count p self)) = thinking_tokens
  /\ LLM.page_count (fst (LLM.set_page_count p self)) = Some p
  /\ LLM.token_limit (fst (LLM.set_page_count 1 self)) = Some 1500
  /\ LLM.thinking_budget (fst (LLM.set_page_count 1 self)) = 1200
  /\ LLM.token_limit (fst (LLM.set_page_count 100 self)) = Some 120000
  /\ LLM.thinking_budget (fst (LLM.set_page_count 100 self)) = 50000.
Proof.
  intros Hp Hmax content_tokens thinking_tokens.
  assert (Hrun : LLM.set_page_count p self
                 = (LLM.with_budget content_tokens thinking_tokens
                      (LLM.with_page_count p self), None)).
  { unfold LLM.set_page_count.
    destruct (Z.leb_spec p 0); [lia|].
    rewrite (thinking_tokens_of_spec p Hp Hmax).
    unfold thinking_tokens, content_tokens, LLM.content_tokens_of,
      LLM.DEFAULT_PAGE_TOKENS, LLM.MAX_TOKEN_LIMIT.
    replace (p * 1500 / 3) with (p * 500); [reflexivity|].
    replace (p * 1500) with (p * 500 * 3) by ring.
    now rewrite Z.div_mul by lia. }
  rewrite Hrun. repeat split.
Qed.

Lemma set_page_count_budget_witness :
  LLM.set_page_count 100 (LLM.__init__ "claude" None LLM.DEFAULT)
  = (LLM.Build "claude" (Some 120000) None false LLM.DEFAULT 0%Q false
       (Some 100) 50000 3000, None).
Proof.
  destruct (set_page_count_budget 100 (LLM.__init__ "claude" None LLM.DEFAULT))
    as [H _].
  - lia.
  - lia.
  - rewrite H. reflexivity.
Defined.

(** Past the float range the product raises, and only the page count has
    been stored. *)
Lemma set_page_count_past_range (p : Z) (self : LLM.t) :
  2 ^ 1024 - 2 ^ 970 <= p * 1500 ->
  LLM.set_page_count p self
  = (LLM.with_page_count p self, Some OverflowError).
Proof.
  intros Hp. unfold LLM.set_page_count.
  destruct (Z.leb_spec p 0); [lia|].
  now rewrite (thinking_tokens_of_overflow p Hp).
Qed.

(** C5, as the spec words it, fails: for the page count [2 ^ 1024] the
    product with the float ratio raises [OverflowError] and the budgets
    keep their old values. *)
Lemma set_page_count_overflow :
  LLM.set_page_count (2 ^ 1024) (LLM.__init__ "claude" None LLM.DEFAULT)
  = (LLM.with_page_count (2 ^ 1024) (LLM.__init__ "claude" None LLM.DEFAULT),
     Some OverflowError)
  /\ ~ (forall p self,
          0 < p ->
          LLM.token_limit (fst (LLM.set_page_count p self))
          = Some (Z.min (p * 1500) 120000)
          /\ LLM.thinking_budget (fst (LLM.set_page_count p self))
             = Z.min (Z.max (p * 1500 / 3) 1200) 64000).
Proof.
  assert (H : LLM.set_page_count (2 ^ 1024)
                (LLM.__init__ "claude" None LLM.DEFAULT)
              = (LLM.with_page_count (2 ^ 1024)
                   (LLM.__init__ "claude" None LLM.DEFAULT),
                 Some OverflowError)).
  { apply set_page_count_past_range. lia. }
  split; [exact H|].
  intros Hall.
  destruct (Hall (2 ^ 1024) (LLM.__init__ "claude" None LLM.DEFAULT))
    as [Htl _]; [lia|].
  rewrite H in Htl. discriminate Htl.
Qed.

(** A page count that is not positive is refused and nothing changes. *)
Lemma set_page_count_invalid (p : Z) (self : LLM.t) :
  p <= 0 ->
  LLM.set_page_count p self
  = (self, Some (ValueError "Page count must be a positive integer")).
Proof.
  intros Hp. unfold LLM.set_page_count.
  destruct (Z.leb_spec p 0); [reflexivity|lia].
Qed.

(** * Further properties of the pagination handler *)

Section DispatchEdges.

Variable llm_request : list message -> option response_model -> result pyval.
Variable py_str : pyval -> string.
Variable order : list pyval -> list pyval.
Variable instantiate : schema -> dict -> result pyval.
Variable make_all_fields_optional : schema -> schema.
Variable yaml_dump : pyval -> string.
Variable encode_image : pyval -> result string.
Variable as_completed : list (result pyval) -> list (result pyval).

(** X1: with no page at all, [handle] raises the no-valid-results error,
    whatever the schema, the mode and the extra content. *)
Theorem handle_no_pages (m : schema) (vision : bool) (extra : option string) :
  (forall l, Permutation (as_completed l) l) ->
  handle llm_request py_str order instantiate make_all_fields_optional
    yaml_dump encode_image as_completed [] m vision extra
  = Raise (ValueError "No valid results obtained from any page").
Proof.
  intros Hperm. unfold handle. simpl.
  pose proof (Hperm []) as H. apply Permutation_sym, Permutation_nil in H.
  now rewrite H.
Qed.

Lemma submit_pages_build_failure (before after : list pyval) (page : pyval)
  (m : schema) (vision : bool) (extra : option string) (e : exn) :
  Forall (fun pg => exists msgs,
            _build_messages py_str yaml_dump encode_image pg vision = Ok msgs)
         before ->
  _build_messages py_str yaml_dump encode_image page vision = Raise e ->
  submit_pages llm_request py_str instantiate yaml_dump encode_image
    (before ++ page :: after) m vision extra = Raise e.
Proof.
  intros Hbefore Hpage. induction Hbefore as [|pg before [msgs Hpg] _ IH]; simpl.
  - now rewrite Hpage.
  - rewrite Hpg. simpl. now rewrite IH.
Qed.

(** X2: a failure while building the messages of a page is not contained
    like a failure of the page's task: [handle] raises the exception of the
    first page whose messages cannot be built, and no page is merged. *)
Theorem handle_build_failure_propagates (before after : list pyval)
  (page : pyval) (m : schema) (vision : bool) (extra : option string)
  (e : exn) :
  Forall (fun pg => exists msgs,
            _build_messages py_str yaml_dump encode_image pg vision = Ok msgs)
         before ->
  _build_messages py_str yaml_dump encode_image page vision = Raise e ->
  handle llm_request py_str order instantiate make_all_fields_optional
    yaml_dump encode_image as_completed (before ++ page :: after) m vision extra
  = Raise e.
Proof.
  intros Hbefore Hpage. unfold handle.
  now rewrite (submit_pages_build_failure before after page _ vision extra e).
Qed.

(** X3: when the first request of a page is cut off, the partial text is
    read from the exception's last completion; a failure to read it leaves
    the page task as it is, not wrapped.  Otherwise the request is issued
    once more on the messages followed by the partial output and the
    continue prompt.  Any failure of that second request, another cut-off
    included, becomes a [ValueError] whose message starts with the fixed
    prefix; a second result without conflicts is returned as it is. *)
Theorem process_page_continues_once (messages : list message) (m : schema)
  (exception : incomplete) :
  llm_request messages (Some (RModel m))
  = Raise (IncompleteOutputException exception) ->
  (forall e,
      choices_0_message_content (last_completion exception) = Raise e ->
      _process_page llm_request py_str instantiate messages m = Raise e)
  /\ (forall partial_content,
         choices_0_message_content (last_completion exception)
         = Ok partial_content ->
         let continuation :=
           messages ++ [Message "assistant" partial_content;
                        Message "user" (VStr "## CONTINUE JSON")] in
         (forall e,
             llm_request continuation (Some (RModel m)) = Raise e ->
             exists reason,
               _process_page llm_request py_str instantiate messages m
               = Raise (ValueError
                          ("Failed to complete partial response: " ++ reason)%string))
         /\ (forall d,
                llm_request continuation (Some (RModel m)) = Ok (VDict d) ->
                _has_conflicts py_str d m = false ->
                _process_page llm_request py_str instantiate messages m
                = Ok (VDict d))).
Proof.
  intros Hfirst. unfold _process_page. rewrite Hfirst.
  unfold _handle_partial_response, _build_continuation_messages. split.
  - intros e He. now rewrite He.
  - intros partial_content Hread. rewrite Hread. cbn [bind]. split.
    + intros e He. rewrite He. now exists (exn_str e).
    + intros d Hd Hno. rewrite Hd. simpl. now rewrite Hno.
Qed.

(** X4: the messages of a page are the system instruction followed by one
    user message, and extra content goes between the two. *)
Theorem build_messages_shape (page : pyval) (vision : bool)
  (msgs : list message) (extra_content : string) :
  _build_messages py_str yaml_dump encode_image page vision = Ok msgs ->
  exists body,
    msgs = [system_message; Message "user" body]
    /\ _add_extra_content msgs extra_content
       = [system_message;
          Message "user" (VStr ("##Extra Content

" ++ extra_content)%string);
          Message "user" body].
Proof.
  unfold _build_messages. destruct vision.
  - destruct (_build_vision_content py_str encode_image page) as [c|e];
      simpl; intros H; inversion H; subst.
    eexists. split; reflexivity.
  - intros H; inversion H; subst. eexists. split; reflexivity.
Qed.

Lemma image_fragments_spec (enc : pyval -> string) (images : list pyval) :
  (forall img, In img images -> truthy img = true ->
               encode_image img = Ok (enc img)) ->
  image_fragments encode_image images
  = Ok (map (fun img => image_url_fragment (enc img)) (filter truthy images)).
Proof.
  induction images as [|img images IH]; intros Henc; simpl.
  - reflexivity.
  - assert (Hrest : image_fragments encode_image images
                    = Ok (map (fun img => image_url_fragment (enc img))
                            (filter truthy images)))
      by (apply IH; intros i Hi; apply Henc; now right).
    destruct (truthy img) eqn:Ht.
    + rewrite (Henc img (or_introl eq_refl) Ht), Hrest. reflexivity.
    + exact Hrest.
Qed.

(** X5: the content of a vision message.  A page that is not a dictionary
    gives an empty list.  A dictionary gives the text fragment of its
    [content] key, if it has one, followed by one image fragment, the data
    URL of the encoded image, for each truthy entry of its [images] list in
    order; falsy entries are skipped.  Without [images], the single [image]
    is used in the same way, and without both keys only the text fragment
    is left. *)
Theorem vision_content_fragments (enc : pyval -> string) :
  (forall page, is_dict page = false ->
                _build_vision_content py_str encode_image page = Ok [])
  /\ (forall d images,
         dict_get "images" d = Some (VList images) ->
         (forall img, In img images -> truthy img = true ->
                      encode_image img = Ok (enc img)) ->
         _build_vision_content py_str encode_image (VDict d)
         = Ok (text_fragments py_str d
               ++ map (fun img => image_url_fragment (enc img))
                    (filter truthy images)))
  /\ (forall d img,
         dict_get "images" d = None ->
         dict_get "image" d = Some img ->
         (truthy img = true -> encode_image img = Ok (enc img)) ->
         _build_vision_content py_str encode_image (VDict d)
         = Ok (text_fragments py_str d
               ++ (if truthy img then [image_url_fragment (enc img)] else [])))
  /\ (forall d,
         dict_get "images" d = None ->
         dict_get "image" d = None ->
         _build_vision_content py_str encode_image (VDict d)
         = Ok (text_fragments py_str d)).
Proof.
  repeat split.
  - intros page Hp. destruct page; simpl in *; try reflexivity. discriminate.
  - intros d images Himgs Henc. unfold _build_vision_content.
    assert (Hhas : dict_has "images" d = true)
      by (unfold dict_has; now rewrite Himgs).
    rewrite Hhas, orb_true_r, Himgs. cbn [py_iter bind].
    rewrite (image_fragments_spec enc images Henc). reflexivity.
  - intros d img Himgs Himg Henc. unfold _build_vision_content.
    assert (Hhas : dict_has "image" d = true)
      by (unfold dict_has; now rewrite Himg).
    rewrite Hhas, orb_true_l, Himgs, Himg. cbn [py_iter bind image_fragments].
    destruct (truthy img).
    + rewrite (Henc eq_refl). reflexivity.
    + reflexivity.
  - intros d Himgs Himg. unfold _build_vision_content, dict_has.
    rewrite Himgs, Himg. reflexivity.
Qed.

End DispatchEdges.

Lemma handle_no_pages_witness :
  handle flaky_llm stub_str cpython_set_order strict_construct
    (fun m => m) stub_str (fun _ => Ok ""%string) (@rev (result pyval))
    [] [("total", AInt)] true (Some "note"%string)
  = Raise (ValueError "No valid results obtained from any page").
Proof.
  apply (handle_no_pages flaky_llm stub_str cpython_set_order strict_construct
           (fun m => m) stub_str (fun _ => Ok ""%string) (@rev (result pyval))).
  intros l. apply Permutation_sym, Permutation_rev.
Defined.

Lemma handle_build_failure_propagates_witness :
  handle flaky_llm stub_str cpython_set_order strict_construct
    (fun m => m) stub_str (fun _ => Ok ""%string) (@rev (result pyval))
    ([VDict [("content", VStr "page one")]]
     ++ VDict [("images", VInt 5)] :: [VDict [("content", VStr "page three")]])
    [("total", AInt)] true None
  = Raise TypeError.
Proof.
  apply (handle_build_failure_propagates flaky_llm stub_str cpython_set_order
           strict_construct (fun m => m) stub_str (fun _ => Ok ""%string)
           (@rev (result pyval))).
  - repeat constructor. eexists. reflexivity.
  - reflexivity.
Defined.

Lemma process_page_continues_once_witness :
  let cut_off text :=
    IncompleteOutputException
      (Incomplete "The output is incomplete" (LLM.completion_object (VStr text))) in
  exists reason,
    _process_page
      (fun msgs _ =>
         match msgs with
         | [_; _] => Raise (cut_off "{")
         | _ => Raise (cut_off "{{")
         end)
      stub_str strict_construct
      [system_message; Message "user" (VStr "page")] [("total", AInt)]
    = Raise (ValueError ("Failed to complete partial response: " ++ reason)%string).
Proof.
  intros cut_off.
  destruct (process_page_continues_once
              (fun msgs _ =>
                 match msgs with
                 | [_; _] => Raise (cut_off "{")
                 | _ => Raise (cut_off "{{")
                 end)
              stub_str strict_construct
              [system_message; Message "user" (VStr "page")]
              [("total", AInt)]
              (Incomplete "The output is incomplete"
                 (LLM.completion_object (VStr "{")))
              eq_refl) as [_ H].
  destruct (H (VStr "{") eq_refl) as [Hfail _].
  exact (Hfail (cut_off "{{") eq_refl).
Defined.

Lemma build_messages_shape_witness :
  exists body,
    [system_message; Message "user" (VStr "##Content

page")]
    = [system_message; Message "user" body]
    /\ _add_extra_content
         [system_message; Message "user" (VStr "##Content

page")] "note"
       = [system_message;
          Message "user" (VStr "##Extra Content

note");
          Message "user" body].
Proof.
  exact (build_messages_shape stub_str stub_str (fun _ => Ok ""%string)
           (VStr "page") false _ "note" eq_refl).
Defined.

Lemma vision_content_fragments_witness :
  _build_vision_content stub_str (fun _ => Ok "QUJD"%string)
    (VDict [("content", VStr "text");
            ("images", VList [VStr "a.png"; VNone; VStr "b.png"])])
  = Ok [text_fragment "text";
        image_url_fragment "QUJD"; image_url_fragment "QUJD"].
Proof.
  apply (proj1 (proj2 (vision_content_fragments stub_str
                         (fun _ => Ok "QUJD"%string) (fun _ => "QUJD"%string)))
           [("content", VStr "text");
            ("images", VList [VStr "a.png"; VNone; VStr "b.png"])]
           [VStr "a.png"; VNone; VStr "b.png"]).
  - reflexivity.
  - intros img _ _. reflexivity.
Defined.

(** * Further properties of the merge *)

Lemma merge_loop_keys (order : list pyval -> list pyval) (m : schema) :
  forall fvs merged out,
    NoDup (map fst merged ++ map fst fvs) ->
    merge_loop order m fvs merged = Ok out ->
    map fst out = map fst merged ++ map fst fvs.
Proof.
  induction fvs as [|[k values] fvs IH]; intros merged out Hnd Hrun; simpl in *.
  - inversion Hrun. now rewrite app_nil_r.
  - destruct (merge_field order m k values) as [v|e]; simpl in Hrun;
      [|discriminate].
    assert (Hk : dict_has k merged = false).
    { unfold dict_has. destruct (dict_get k merged) eqn:E; auto.
      exfalso. apply dict_get_In in E. apply (in_map fst) in E. simpl in E.
      apply NoDup_remove_2 in Hnd. apply Hnd. apply in_or_app. now left. }
    assert (Hkeys : map fst (dict_set k v merged) = map fst merged ++ [k])
      by (now rewrite dict_set_keys, Hk).
    rewrite (IH (dict_set k v merged) out).
    + now rewrite Hkeys, <- app_assoc.
    + rewrite Hkeys, <- app_assoc. exact Hnd.
    + exact Hrun.
Qed.

Lemma collect_result_same_keys (d : dict) : forall fv,
  (forall k, In k (map fst d) -> In k (map fst fv)) ->
  map fst (collect_result fv d) = map fst fv.
Proof.
  unfold collect_result.
  induction d as [|[k v] d IH]; intros fv Hsub; simpl; auto.
  assert (Hk : map fst (collect_item fv (k, v)) = map fst fv).
  { unfold collect_item. rewrite dict_set_keys.
    assert (Hin : In k (map fst fv)) by (apply Hsub; now left).
    unfold dict_has. destruct (dict_get k fv) eqn:E; auto.
    apply dict_get_None_keys in E. contradiction. }
  rewrite IH; [exact Hk|].
  intros k' Hk'. rewrite Hk. apply Hsub. now right.
Qed.

Lemma collect_result_fresh_keys (d : dict) : forall fv,
  NoDup (map fst fv ++ map fst d) ->
  map fst (collect_result fv d) = map fst fv ++ map fst d.
Proof.
  unfold collect_result.
  induction d as [|[k v] d IH]; intros fv Hnd; simpl.
  - now rewrite app_nil_r.
  - assert (Hk : map fst (collect_item fv (k, v)) = map fst fv ++ [k]).
    { unfold collect_item. rewrite dict_set_keys. unfold dict_has.
      destruct (dict_get k fv) eqn:E; auto.
      exfalso. apply dict_get_In in E. apply (in_map fst) in E. simpl in E.
      apply NoDup_remove_2 in Hnd. apply Hnd. apply in_or_app. now left. }
    rewrite IH.
    + now rewrite Hk, <- app_assoc.
    + rewrite Hk, <- app_assoc. exact Hnd.
Qed.

Lemma collect_fold_same_keys (keys : list string) (rest : list dict) :
  Forall (fun d => map fst d = keys) rest ->
  forall fv, map fst fv = keys ->
             map fst (fold_left collect_result rest fv) = keys.
Proof.
  induction 1 as [|d rest Hd _ IH]; intros fv Hfv; cbn [fold_left]; auto.
  apply IH. rewrite collect_result_same_keys; auto.
  intros k Hk. now rewrite Hfv, <- Hd.
Qed.

(** X6: when every page reports the same fields in the same order, as the
    dumps of one model class do, the merged mapping has exactly these
    fields, once each and in that order. *)
Theorem merge_keeps_field_order (order : list pyval -> list pyval)
  (m : schema) (results : list dict) (keys : list string) (merged : dict) :
  results <> [] ->
  NoDup keys ->
  Forall (fun d => map fst d = keys) results ->
  merge_fields order m results = Ok merged ->
  map fst merged = keys.
Proof.
  intros Hne Hnd Hall Hrun.
  assert (Hkeys : map fst (collect_values results) = keys).
  { unfold collect_values.
    destruct results as [|d0 rest]; [congruence|].
    inversion Hall as [|? ? Hd0 Hrest]; subst. cbn [fold_left].
    apply collect_fold_same_keys; auto.
    now rewrite collect_result_fresh_keys. }
  unfold merge_fields in Hrun.
  apply merge_loop_keys in Hrun; simpl in *; congruence.
Qed.

Lemma merge_keeps_field_order_witness :
  map fst [("total", VInt 10); ("items", VList [VInt 1; VInt 2])]
  = ["total"; "items"].
Proof.
  apply (merge_keeps_field_order cpython_set_order
           [("total", AInt); ("items", AList AInt)]
           [[("total", VInt 10); ("items", VList [VInt 1])];
            [("total", VNone); ("items", VList [VInt 2])]]).
  - discriminate.
  - repeat constructor; simpl; intuition discriminate.
  - repeat constructor.
  - reflexivity.
Defined.

Lemma merge_list_all_null (values : list pyval) :
  (forall v, In v values -> v = VNone) -> merge_list values = [].
Proof.
  induction values as [|x l IH]; intros Hnull; simpl; auto.
  rewrite (Hnull x (or_introl eq_refl)). apply IH.
  intros v Hin. apply Hnull. now right.
Qed.

(** X7: a list field for which every page reports [None] merges to the
    empty list, not to [None]. *)
Theorem merge_list_field_all_null (order : list pyval -> list pyval)
  (m : schema) (results : list dict) (f : string) :
  scalars_hashable m results ->
  is_list_field m f = true ->
  existsb (dict_has f) results = true ->
  (forall v, In v (column f results) -> v = VNone) ->
  exists merged,
    merge_fields order m results = Ok merged
    /\ dict_get f merged = Some (VList []).
Proof.
  intros Hh Hlist Hex Hnull.
  destruct (merge_fields_total order m results Hh) as [merged Hm].
  destruct (merge_fields_get _ _ _ _ _ Hm Hex) as [v [Hv Hget]].
  exists merged. split; [exact Hm|].
  unfold merge_field in Hv. rewrite Hlist in Hv. inversion Hv; subst v.
  rewrite Hget. now rewrite (merge_list_all_null _ Hnull).
Qed.

Lemma merge_list_field_all_null_witness :
  exists merged,
    merge_fields cpython_set_order [("items", AList AInt)]
      [[("items", VNone)]; [("items", VNone)]] = Ok merged
    /\ dict_get "items" merged = Some (VList []).
Proof.
  apply (merge_list_field_all_null cpython_set_order [("items", AList AInt)]
           [[("items", VNone)]; [("items", VNone)]] "items").
  - each_field.
  - reflexivity.
  - reflexivity.
  - simpl. intuition.
Defined.

Lemma hashable_not_marker (v : pyval) :
  hashable v = true -> is_conflict_marker v = false.
Proof. destruct v; simpl; congruence. Qed.

(** X8: a scalar field is flagged exactly when the pages disagree: the
    merged value is a conflict marker if and only if two distinct non-null
    values were reported. *)
Theorem merge_conflict_iff_disagreement (order : list pyval -> list pyval)
  (m : schema) (results : list dict) (f : string) :
  set_order_ok order ->
  scalars_hashable m results ->
  is_list_field m f = false ->
  existsb (dict_has f) results = true ->
  exists merged v,
    merge_fields order m results = Ok merged
    /\ dict_get f merged = Some v
    /\ (is_conflict_marker v = true <->
        exists x y, In x (filter is_not_none (column f results))
                    /\ In y (filter is_not_none (column f results))
                    /\ x <> y).
Proof.
  intros Hok Hh Hscalar Hex.
  destruct (merge_fields_total order m results Hh) as [merged Hm].
  destruct (merge_fields_get _ _ _ _ _ Hm Hex) as [v [Hv Hget]].
  exists merged, v. split; [exact Hm|]. split; [exact Hget|].
  unfold merge_field in Hv. rewrite Hscalar in Hv.
  unfold merge_scalar, list_set in Hv.
  pose proof (forallb_filter hashable is_not_none _ (Hh f Hscalar)) as Hhash.
  rewrite Hhash in Hv. simpl in Hv.
  destruct (Hok (filter is_not_none (column f results))) as [Hnd Hin].
  set (nn := filter is_not_none (column f results)) in *.
  destruct nn as [|x0 nn'] eqn:Enn.
  - simpl in Hv. inversion Hv; subst v. simpl. split; [discriminate|].
    intros [x [y [[] _]]].
  - simpl length in Hv. simpl Nat.eqb in Hv. cbv iota in Hv.
    destruct (order (x0 :: nn')) as [|a [|b l]] eqn:Eo.
    + exfalso. apply (proj2 (Hin x0)). now left.
    + inversion Hv; subst v.
      assert (Ha : In a (x0 :: nn')) by (apply Hin; now left).
      rewrite forallb_forall in Hhash.
      rewrite (hashable_not_marker a (Hhash a Ha)).
      split; [discriminate|].
      intros [x [y [Hx [Hy Hne]]]]. exfalso. apply Hne.
      apply Hin in Hx. apply Hin in Hy.
      destruct Hx as [<-|[]]. destruct Hy as [<-|[]]. reflexivity.
    + inversion Hv; subst v. split; [|reflexivity].
      intros _. exists a, b. split; [apply Hin; now left|].
      split; [apply Hin; right; now left|].
      intros ->. inversion Hnd as [|? ? Hnotin _]; subst.
      apply Hnotin. now left.
Qed.

Lemma merge_conflict_iff_disagreement_witness :
  exists merged v,
    merge_fields cpython_set_order [("total", AInt)]
      [[("total", VInt 10)]; [("total", VNone)]; [("total", VInt 10)]]
    = Ok merged
    /\ dict_get "total" merged = Some v
    /\ is_conflict_marker v = false.
Proof.
  destruct (merge_conflict_iff_disagreement cpython_set_order [("total", AInt)]
              [[("total", VInt 10)]; [("total", VNone)]; [("total", VInt 10)]]
              "total")
    as [merged [v [Hm [Hget _]]]].
  - apply cpython_set_order_ok.
  - each_field.
  - reflexivity.
  - reflexivity.
  - exists merged, v. split; [exact Hm|]. split; [exact Hget|].
    vm_compute in Hm. inversion Hm; subst merged.
    vm_compute in Hget. inversion Hget. reflexivity.
Defined.

Lemma identify_loop_not_nil (py_str : pyval -> string) (m : schema) :
  forall d acc out,
    acc <> [] -> identify_loop py_str d m acc = Ok out -> out <> [].
Proof.
  induction d as [|[k v] d IH]; intros acc out Hacc Hrun; simpl in Hrun.
  - now inversion Hrun; subst.
  - destruct (dict_get k m) as [a|]; [|eauto].
    destruct (is_conflict_marker v).
    + destruct v; eauto.
      destruct (dict_index "candidates" l) as [c|e]; simpl in Hrun;
        [|discriminate].
      eapply IH; [|exact Hrun]. apply dict_set_not_nil.
    + destruct (is_list_conflict py_str a v); eauto.
      eapply IH; [|exact Hrun]. apply dict_set_not_nil.
Qed.

Lemma identify_loop_no_conflicts (py_str : pyval -> string) (m : schema) :
  forall d acc,
    _has_conflicts py_str d m = false ->
    identify_loop py_str d m acc = Ok acc.
Proof.
  induction d as [|[k v] d IH]; intros acc Hno; simpl in *; auto.
  destruct (dict_get k m) as [a|]; auto.
  destruct (is_conflict_marker v); [discriminate|].
  destruct (is_list_conflict py_str a v); [discriminate|]. auto.
Qed.

Lemma identify_loop_conflicts (py_str : pyval -> string) (m : schema) :
  forall d acc out,
    _has_conflicts py_str d m = true ->
    identify_loop py_str d m acc = Ok out -> out <> [].
Proof.
  induction d as [|[k v] d IH]; intros acc out Hyes Hrun; simpl in *;
    [discriminate|].
  destruct (dict_get k m) as [a|]; [|eauto].
  destruct (is_conflict_marker v) eqn:Hmark.
  - destruct v; try discriminate.
    destruct (dict_index "candidates" l) as [c|e]; simpl in Hrun;
      [|discriminate].
    eapply identify_loop_not_nil; [|exact Hrun]. apply dict_set_not_nil.
  - destruct (is_list_conflict py_str a v); eauto.
    eapply identify_loop_not_nil; [|exact Hrun]. apply dict_set_not_nil.
Qed.

Lemma detectors_agree_aux (py_str : pyval -> string) (d : dict) (m : schema) :
  _has_conflicts py_str d m = false <-> _identify_conflicts py_str d m = Ok [].
Proof.
  unfold _identify_conflicts. split.
  - apply identify_loop_no_conflicts.
  - intros Hid. destruct (_has_conflicts py_str d m) eqn:E; auto.
    exfalso. now apply (identify_loop_conflicts py_str m d [] [] E Hid).
Qed.

(** X9: the two detectors agree: [_has_conflicts] is false exactly when
    [_identify_conflicts] returns the empty dictionary; when it is true,
    [_identify_conflicts] raises or names at least one field. *)
Theorem detectors_agree (py_str : pyval -> string) (d : dict) (m : schema) :
  (_has_conflicts py_str d m = false <-> _identify_conflicts py_str d m = Ok [])
  /\ (_has_conflicts py_str d m = true ->
      forall conflicts, _identify_conflicts py_str d m = Ok conflicts ->
                        conflicts <> []).
Proof.
  split; [apply detectors_agree_aux|].
  intros Hyes conflicts Hid.
  now apply (identify_loop_conflicts py_str m d [] conflicts Hyes Hid).
Qed.

(** X10: on a dictionary without conflicts [_resolve_conflicts] returns
    the dictionary as it is, whatever the gateway would answer: no
    request is made. *)
Theorem resolve_without_conflicts
  (llm_request : list message -> option response_model -> result pyval)
  (py_str : pyval -> string) (d : dict) (m : schema) :
  _has_conflicts py_str d m = false ->
  _resolve_conflicts llm_request py_str d m = Ok d.
Proof.
  intros Hno. unfold _resolve_conflicts.
  now rewrite (proj1 (detectors_agree_aux py_str d m) Hno).
Qed.

Lemma detectors_agree_witness :
  _has_conflicts stub_str [("total", conflict_marker [VInt 10; VInt 12])]
    [("total", AInt)] = true
  /\ [("total", VList [VInt 10; VInt 12])] <> [].
Proof.
  split; [reflexivity|].
  apply (proj2 (detectors_agree stub_str
                  [("total", conflict_marker [VInt 10; VInt 12])]
                  [("total", AInt)]));
    reflexivity.
Defined.

Lemma resolve_without_conflicts_witness :
  _resolve_conflicts (fun _ _ => Raise (OtherException "unreachable"))
    stub_str [("total", VInt 10); ("items", VList [VStr "a"; VStr "b"])]
    [("total", AInt); ("items", AList AStr)]
  = Ok [("total", VInt 10); ("items", VList [VStr "a"; VStr "b"])].
Proof.
  apply resolve_without_conflicts. reflexivity.
Defined.

Lemma nodup_length_le {A : Type} (dec : forall x y : A, {x = y} + {x <> y})
  (l : list A) : (length (nodup dec l) <= length l)%nat.
Proof.
  induction l as [|x l IH]; simpl; auto.
  destruct (in_dec dec x l); simpl; lia.
Qed.

Lemma has_str_duplicates_spec (py_str : pyval -> string) (l : list pyval) :
  has_str_duplicates py_str l = true <-> ~ NoDup (map py_str l).
Proof.
  unfold has_str_duplicates. rewrite Nat.ltb_lt.
  replace (length l) with (length (map py_str l)) by apply length_map.
  generalize (map py_str l) as strs. clear l.
  induction strs as [|s strs IH]; simpl.
  - split; [lia|]. intros H. exfalso. apply H. constructor.
  - destruct (in_dec string_dec s strs) as [Hin|Hnotin].
    + split.
      * intros _ Hnd. inversion Hnd. contradiction.
      * intros _. pose proof (nodup_length_le string_dec strs). lia.
    + simpl. split.
      * intros Hlt Hnd. inversion Hnd; subst. apply IH; [lia|assumption].
      * intros Hnd.
        assert (~ NoDup strs) by (intros H; apply Hnd; now constructor).
        apply IH in H. lia.
Qed.

(** X11: repeated entries in a merged list field are taken for a conflict:
    when the string forms of the elements of a list-typed schema field are
    not all different, as when two pages contribute the same item,
    [_has_conflicts] is true and the record goes to the resolver. *)
Theorem list_duplicates_are_flagged (py_str : pyval -> string) (d : dict)
  (m : schema) (f : string) (a : annotation) (l : list pyval) :
  In (f, VList l) d ->
  dict_get f m = Some (AList a) ->
  ~ NoDup (map py_str l) ->
  _has_conflicts py_str d m = true.
Proof.
  intros Hin Hf Hdup.
  assert (Hlen : (1 <? length l)%nat = true).
  { apply Nat.ltb_lt. destruct l as [|x [|y l]]; simpl; try lia.
    - exfalso. apply Hdup. constructor.
    - exfalso. apply Hdup. repeat constructor. intros []. }
  apply has_str_duplicates_spec in Hdup.
  induction d as [|[k v] d IH]; simpl in *; [destruct Hin|].
  destruct Hin as [Heq|Hin].
  - inversion Heq; subst. rewrite Hf. simpl. now rewrite Hlen, Hdup.
  - destruct (dict_get k m); auto.
    destruct (is_conflict_marker v); auto.
    destruct (is_list_conflict py_str _ v); auto.
Qed.

Lemma list_duplicates_are_flagged_witness :
  _has_conflicts stub_str
    [("total", VInt 10); ("items", VList [VStr "pen"; VStr "ink"; VStr "pen"])]
    [("total", AInt); ("items", AList AStr)] = true.
Proof.
  apply (list_duplicates_are_flagged stub_str _ _ "items" AStr
           [VStr "pen"; VStr "ink"; VStr "pen"]).
  - right. now left.
  - reflexivity.
  - intros H. inversion H as [|? ? Hnotin _]; subst. apply Hnotin.
    simpl. right. now left.
Defined.

(** X12: whatever goes wrong in the resolver request, an exception of the
    gateway or a reply that is not a dictionary, surfaces as a
    [ValueError] whose message starts with the resolver's prefix; a reply
    without [resolved_fields] counts as an empty resolution. *)
Theorem conflict_resolution_errors_are_wrapped
  (llm_request : list message -> option response_model -> result pyval)
  (py_str : pyval -> string) (conflicts : dict) :
  (forall e,
      _request_conflict_resolution llm_request py_str conflicts = Raise e ->
      exists reason,
        e = ValueError ("Failed to resolve conflicts: " ++ reason)%string)
  /\ (forall reply,
         (forall msgs, llm_request msgs (Some RDict) = Ok (VDict reply)) ->
         dict_get "resolved_fields" reply = None ->
         _request_conflict_resolution llm_request py_str conflicts
         = Ok (VDict [])).
Proof.
  unfold _request_conflict_resolution. split.
  - intros e.
    destruct (llm_request _ (Some RDict)) as [response|e0]; simpl.
    + destruct (get_resolved_fields response) as [r|e1]; intros H;
        inversion H; eauto.
    + intros H; inversion H; eauto.
  - intros reply Hllm Hnone. rewrite Hllm. simpl.
    now rewrite Hnone.
Qed.

Lemma conflict_resolution_errors_are_wrapped_witness :
  exists reason,
    ValueError "Failed to resolve conflicts: timeout"
    = ValueError ("Failed to resolve conflicts: " ++ reason)%string.
Proof.
  apply (proj1 (conflict_resolution_errors_are_wrapped
                  (fun _ _ => Raise (OtherException "timeout")) stub_str
                  [("total", VList [VInt 10; VInt 12])])).
  reflexivity.
Defined.

Lemma merge_resolved_loop_present (resolved : dict) : forall cur cur0 : dict,
  map fst cur = map fst cur0 ->
  merge_resolved_loop resolved cur
  = merge_resolved_loop
      (filter (fun kv => dict_has (fst kv) cur0) resolved) cur.
Proof.
  induction resolved as [|[k r] resolved IH]; intros cur cur0 Hkeys; simpl; auto.
  rewrite <- (dict_has_keys k cur cur0 Hkeys).
  destruct (dict_has k cur) eqn:Hk; simpl.
  - rewrite Hk. destruct (resolution_value r) as [v|e]; simpl; auto.
    apply IH. rewrite <- Hkeys, dict_set_keys. now rewrite Hk.
  - now apply IH.
Qed.

Lemma merge_resolved_loop_keys (resolved : dict) : forall cur out,
  merge_resolved_loop resolved cur = Ok out -> map fst out = map fst cur.
Proof.
  induction resolved as [|[k r] resolved IH]; intros cur out Hrun;
    simpl in Hrun.
  - now inversion Hrun.
  - destruct (dict_has k cur) eqn:Hk; [|eauto].
    destruct (resolution_value r) as [v|e]; simpl in Hrun; [|discriminate].
    rewrite (IH _ _ Hrun), dict_set_keys. now rewrite Hk.
Qed.

(** X13: merging the resolutions back never adds, removes or reorders a
    field, and resolutions for fields that the record does not have are
    ignored altogether, even when they are malformed. *)
Theorem merge_resolved_keeps_fields (original resolved : dict) :
  (forall out,
      _merge_resolved_conflicts original (VDict resolved) = Ok out ->
      map fst out = map fst original)
  /\ _merge_resolved_conflicts original (VDict resolved)
     = _merge_resolved_conflicts original
         (VDict (filter (fun kv => dict_has (fst kv) original) resolved)).
Proof.
  unfold _merge_resolved_conflicts. split.
  - intros out. apply merge_resolved_loop_keys.
  - now apply merge_resolved_loop_present.
Qed.

Lemma merge_resolved_keeps_fields_witness :
  map fst [("total", VInt 12)] = map fst [("total", conflict_marker [VInt 10; VInt 12])].
Proof.
  apply (proj1 (merge_resolved_keeps_fields
                  [("total", conflict_marker [VInt 10; VInt 12])]
                  [("total", VDict [("value", VInt 12)]);
                   ("vendor", VStr "not a resolution")])).
  reflexivity.
Defined.

(** X14: [_merge_resolved_conflicts] returns only when every resolution of
    a field of the record is a dictionary with a [value] key; otherwise it
    raises, and no partly updated record is returned. *)
Theorem merge_resolved_requires_values (resolved : dict) :
  forall original out,
    _merge_resolved_conflicts original (VDict resolved) = Ok out ->
    forall f r,
      In (f, r) resolved -> dict_has f original = true ->
      exists d v, r = VDict d /\ dict_get "value" d = Some v.
Proof.
  unfold _merge_resolved_conflicts.
  induction resolved as [|[k r0] resolved IH]; intros original out Hrun f r Hin Hf;
    simpl in *; [destruct Hin|].
  destruct (dict_has k original) eqn:Hk.
  - destruct (resolution_value r0) as [v|e] eqn:Hv; simpl in Hrun;
      [|discriminate].
    destruct Hin as [Heq|Hin].
    + inversion Heq; subst. unfold resolution_value, dict_index in Hv.
      destruct r; try discriminate.
      destruct (dict_get "value" l) eqn:E; [|discriminate]. eauto.
    + apply (IH _ _ Hrun f r Hin).
      rewrite (dict_has_keys f _ original); auto.
      rewrite dict_set_keys. now rewrite Hk.
  - destruct Hin as [Heq|Hin].
    + inversion Heq; subst. congruence.
    + apply (IH _ _ Hrun f r Hin Hf).
Qed.

Lemma merge_resolved_requires_values_witness :
  exists d v,
    VDict [("value", VInt 12); ("confidence", VInt 8)] = VDict d
    /\ dict_get "value" d = Some v.
Proof.
  apply (merge_resolved_requires_values
           [("total", VDict [("value", VInt 12); ("confidence", VInt 8)])]
           [("total", conflict_marker [VInt 10; VInt 12])]
           [("total", VInt 12)] eq_refl "total").
  - now left.
  - reflexivity.
Defined.

(** * Further properties of the budget controller *)

Lemma set_page_count_valid (p : Z) (self : LLM.t) :
  0 < p -> p * 1500 < 2 ^ 1024 - 2 ^ 970 ->
  LLM.set_page_count p self
  = (LLM.with_budget (Z.min (p * 1500) 120000)
       (Z.min (Z.max (p * 500) 1200) 64000)
       (LLM.with_page_count p self), None).
Proof.
  intros Hp Hmax. unfold LLM.set_page_count.
  destruct (Z.leb_spec p 0); [lia|].
  now rewrite (thinking_tokens_of_spec p Hp Hmax).
Qed.

(** X15: after a successful [set_page_count] the thinking budget lies
    between 1200 and 64000, the token limit is positive and at most 120000,
    the thinking budget is strictly below the token limit, and both grow
    with the page count. *)
Theorem budget_invariants (p q : Z) (self : LLM.t) :
  0 < p -> p <= q -> q * 1500 < 2 ^ 1024 - 2 ^ 970 ->
  let after_p := fst (LLM.set_page_count p self) in
  let after_q := fst (LLM.set_page_count q self) in
  exists limit_p limit_q,
    LLM.token_limit after_p = Some limit_p
    /\ LLM.token_limit after_q = Some limit_q
    /\ 1200 <= LLM.thinking_budget after_p <= 64000
    /\ 0 < limit_p <= 120000
    /\ LLM.thinking_budget after_p < limit_p
    /\ LLM.thinking_budget after_p <= LLM.thinking_budget after_q
    /\ limit_p <= limit_q.
Proof.
  intros Hp Hpq Hq. cbv zeta.
  rewrite (set_page_count_valid p self) by lia.
  rewrite (set_page_count_valid q self) by lia.
  simpl. do 2 eexists. split; [reflexivity|]. split; [reflexivity|]. lia.
Qed.

Lemma budget_invariants_witness :
  exists limit_p limit_q,
    LLM.token_limit
      (fst (LLM.set_page_count 3 (LLM.__init__ "claude" None LLM.DEFAULT)))
    = Some limit_p
    /\ LLM.token_limit
         (fst (LLM.set_page_count 200 (LLM.__init__ "claude" None LLM.DEFAULT)))
       = Some limit_q
    /\ limit_p <= limit_q.
Proof.
  destruct (budget_invariants 3 200 (LLM.__init__ "claude" None LLM.DEFAULT))
    as [lp [lq [H1 [H2 [_ [_ [_ [_ H7]]]]]]]]; try lia.
  exists lp, lq. auto.
Defined.

(** X16: the last valid page count wins: setting the page count again
    gives the object that the second call alone would give, so an earlier
    budget or a token limit given to the constructor never survives. *)
Theorem set_page_count_last_wins (p q : Z) (self : LLM.t) :
  0 < p -> p * 1500 < 2 ^ 1024 - 2 ^ 970 ->
  0 < q -> q * 1500 < 2 ^ 1024 - 2 ^ 970 ->
  fst (LLM.set_page_count q (fst (LLM.set_page_count p self)))
  = fst (LLM.set_page_count q self).
Proof.
  intros Hp Hpmax Hq Hqmax.
  rewrite (set_page_count_valid p self) by lia.
  rewrite !(set_page_count_valid q) by lia.
  reflexivity.
Qed.

Lemma set_page_count_last_wins_witness :
  fst (LLM.set_page_count 2
         (fst (LLM.set_page_count 500
                 (LLM.__init__ "claude" (Some 4096) LLM.DEFAULT))))
  = fst (LLM.set_page_count 2 (LLM.__init__ "claude" (Some 4096) LLM.DEFAULT)).
Proof.
  apply set_page_count_last_wins; lia.
Defined.

(** X17: a refused page count changes nothing, while a page count past the
    float range leaves the object half updated: the new page count is
    stored beside the token limit and thinking budget of before. *)
Theorem set_page_count_failure_states (p : Z) (self : LLM.t) :
  (p <= 0 ->
   LLM.set_page_count p self
   = (self, Some (ValueError "Page count must be a positive integer")))
  /\ (2 ^ 1024 - 2 ^ 970 <= p * 1500 ->
      snd (LLM.set_page_count p self) = Some OverflowError
      /\ LLM.page_count (fst (LLM.set_page_count p self)) = Some p
      /\ LLM.token_limit (fst (LLM.set_page_count p self))
         = LLM.token_limit self
      /\ LLM.thinking_budget (fst (LLM.set_page_count p self))
         = LLM.thinking_budget self).
Proof.
  split.
  - apply set_page_count_invalid.
  - intros Hp. rewrite (set_page_count_past_range p self Hp). repeat split.
Qed.

Lemma set_page_count_failure_states_witness :
  LLM.set_page_count 0 (LLM.__init__ "claude" None LLM.DEFAULT)
  = (LLM.__init__ "claude" None LLM.DEFAULT,
     Some (ValueError "Page count must be a positive integer")).
Proof.
  apply (proj1 (set_page_count_failure_states 0
                  (LLM.__init__ "claude" None LLM.DEFAULT))).
  lia.
Defined.

(** * Further properties of the request gateway *)

Section GatewayEdges.

Variable router_completion : LLM.Router -> LLM.completion_kwargs -> result pyval.
Variable client_create : LLM.completion_kwargs -> result pyval.
Variable litellm_completion : LLM.completion_kwargs -> result pyval.
Variable agent_run : string -> option response_model -> result pyval.
Variable add_classification_structure : response_model -> string.
Variable extract_thinking_json : pyval -> option response_model -> result pyval.

(** X18: the budget reaches the transport: after [set_page_count p] and
    [set_thinking True], in either order, a direct request carries the
    thinking parameter with the budget of [p] pages, [max_tokens] equal to
    the content token limit, temperature 1 and one retry. *)
Theorem budget_reaches_direct_request (p : Z) (self : LLM.t)
  (messages : list message) (rm : option response_model) :
  0 < p -> p * 1500 < 2 ^ 1024 - 2 ^ 970 ->
  LLM.backend self = LLM.DEFAULT -> LLM.router self = None ->
  let ready := LLM.set_thinking true (fst (LLM.set_page_count p self)) in
  let kwargs := LLM.request_kwargs add_classification_structure
                  ready messages rm in
  fst (LLM.set_page_count p (LLM.set_thinking true self)) = ready
  /\ LLM.kw_thinking kwargs
     = Some (Some (LLM.Thinking "enabled" (Z.min (Z.max (p * 500) 1200) 64000)))
  /\ LLM.kw_max_tokens kwargs = Some (Some (Z.min (p * 1500) 120000))
  /\ LLM.kw_temperature kwargs = Some 1%Q
  /\ LLM.kw_max_retries kwargs = Some 1.
Proof.
  intros Hp Hmax Hb Hr. cbv zeta.
  rewrite !set_page_count_valid by lia.
  unfold LLM.request_kwargs, LLM.request_thinking. simpl.
  rewrite Hb, Hr. repeat split.
Qed.

(** X19: on the routed path the token limit is computed but never sent:
    after [load_router] and [set_page_count], the object holds the content
    token limit, yet the request goes to the router without [max_tokens]. *)
Theorem routed_request_ignores_token_limit (p : Z) (r : LLM.Router)
  (self : LLM.t) (messages : list message) (rm : option response_model) :
  0 < p -> p * 1500 < 2 ^ 1024 - 2 ^ 970 ->
  LLM.backend self = LLM.DEFAULT ->
  let routed := fst (LLM.set_page_count p (fst (LLM.load_router r self))) in
  let kwargs := LLM.request_kwargs add_classification_structure
                  routed messages rm in
  LLM.token_limit routed = Some (Z.min (p * 1500) 120000)
  /\ LLM.kw_max_tokens kwargs = None
  /\ LLM.send router_completion client_create routed kwargs
     = router_completion r kwargs.
Proof.
  intros Hp Hmax Hb. cbv zeta.
  rewrite set_page_count_valid by lia.
  unfold LLM.load_router. rewrite Hb. repeat split.
Qed.

(** X20: the agent backend cannot be routed and never reaches a transport:
    [load_router] is refused and leaves the object as it is, and the
    result of [request] is the same whatever the transports, the structure
    renderer and the extractor are, and whatever the dynamic and thinking
    flags say. *)
Theorem agent_backend_bypasses_transport (self : LLM.t)
  (messages : list message) (rm : option response_model) :
  LLM.backend self = LLM.PYDANTIC_AI ->
  (forall r,
      LLM.load_router r self
      = (self, Some (ValueError "Router is only supported with LITELLM backend")))
  /\ (forall rc cc acs etj dynamic thinking,
         LLM.request rc cc agent_run acs etj
           (LLM.set_dynamic dynamic (LLM.set_thinking thinking self))
           messages rm
         = LLM.request router_completion client_create agent_run
             add_classification_structure extract_thinking_json
             self messages rm).
Proof.
  intros Hb. split.
  - intros r. unfold LLM.load_router. now rewrite Hb.
  - intros rc cc acs etj dynamic thinking. unfold LLM.request. simpl.
    now rewrite Hb.
Qed.

Lemma join_contents_concat (messages : list message) (texts : list string) :
  map content messages = map VStr texts ->
  LLM.join_contents messages = Ok (String.concat " " texts).
Proof.
  revert texts. induction messages as [|msg messages IH]; intros texts Hmap.
  - destruct texts; [reflexivity|discriminate].
  - destruct texts as [|t texts]; [discriminate|].
    simpl in Hmap. inversion Hmap as [[Hc Hrest]].
    simpl. rewrite Hc.
    destruct messages as [|msg' messages'].
    + destruct texts; [reflexivity|discriminate].
    + rewrite (IH texts Hrest). simpl.
      destruct texts; [discriminate|reflexivity].
Qed.

Lemma join_contents_not_string (messages : list message) :
  (exists msg, In msg messages /\ forall c, content msg <> VStr c) ->
  LLM.join_contents messages = Raise TypeError.
Proof.
  induction messages as [|msg messages IH]; intros [bad [Hin Hbad]].
  - destruct Hin.
  - simpl. destruct (content msg) eqn:Hc; try reflexivity.
    destruct Hin as [->|Hin]; [exfalso; eapply Hbad; eauto|].
    destruct messages as [|msg' messages']; [destruct Hin|].
    rewrite IH by eauto. reflexivity.
Qed.

(** X21: on the agent backend the prompt is the message contents joined by
    single spaces when they are all strings, and the request raises
    [TypeError], outside the wrapping of agent failures, as soon as one
    content is not a string. *)
Theorem agent_prompt_is_joined_contents (self : LLM.t)
  (messages : list message) (rm : option response_model) :
  LLM.backend self = LLM.PYDANTIC_AI ->
  (forall texts data,
      map content messages = map VStr texts ->
      agent_run (String.concat " " texts) rm = Ok data ->
      LLM.request router_completion client_create agent_run
        add_classification_structure extract_thinking_json self messages rm
      = Ok data)
  /\ ((exists msg, In msg messages /\ forall c, content msg <> VStr c) ->
      LLM.request router_completion client_create agent_run
        add_classification_structure extract_thinking_json self messages rm
      = Raise TypeError).
Proof.
  intros Hb. unfold LLM.request. rewrite Hb. split.
  - intros texts data Hmap Hrun.
    rewrite (join_contents_concat messages texts Hmap). simpl. now rewrite Hrun.
  - intros Hbad. now rewrite (join_contents_not_string messages Hbad).
Qed.

(** X22: outside dynamic mode the direct backend forwards the messages
    unchanged with the schema as [response_model] and returns the
    transport's response as it is; in dynamic mode without a schema no
    message is appended, yet the reply text still goes through the
    extractor. *)
Theorem request_without_dynamic_prompt (self : LLM.t)
  (messages : list message) (rm : option response_model) :
  LLM.backend self = LLM.DEFAULT ->
  (LLM.is_dynamic self = false ->
   let kwargs := LLM.request_kwargs add_classification_structure
                   self messages rm in
   LLM.kw_messages kwargs = messages
   /\ LLM.kw_response_model kwargs = Some rm
   /\ LLM.request router_completion client_create agent_run
        add_classification_structure extract_thinking_json self messages rm
      = LLM.send router_completion client_create self kwargs)
  /\ (LLM.is_dynamic self = true ->
      let kwargs := LLM.request_kwargs add_classification_structure
                      self messages None in
      LLM.kw_messages kwargs = messages
      /\ LLM.kw_response_model kwargs = Some None
      /\ LLM.request router_completion client_create agent_run
           add_classification_structure extract_thinking_json
           self messages None
         = (response <- LLM.send router_completion client_create self kwargs ;;
            text <- LLM.completion_content response ;;
            extract_thinking_json text None)).
Proof.
  intros Hb. unfold LLM.request, LLM.request_kwargs, LLM.request_model,
    LLM.working_messages. rewrite Hb.
  split; intros Hd; rewrite Hd; cbv zeta.
  - destruct (LLM.router self), rm; simpl; repeat split;
      match goal with
      | |- context [bind ?r _] => destruct r; reflexivity
      end.
  - destruct (LLM.router self); simpl; repeat split.
Qed.

(** X23: [raw_completion] reads only the model, the token limit, the
    router, the thinking flag and the thinking budget: the backend, the
    dynamic flag, the temperature and the timeout have no effect on it. *)
Theorem raw_completion_frame (self other : LLM.t) (messages : list message) :
  LLM.model self = LLM.model other ->
  LLM.token_limit self = LLM.token_limit other ->
  LLM.router self = LLM.router other ->
  LLM.is_thinking self = LLM.is_thinking other ->
  LLM.thinking_budget self = LLM.thinking_budget other ->
  LLM.raw_completion_kwargs self messages
  = LLM.raw_completion_kwargs other messages
  /\ LLM.raw_completion router_completion litellm_completion self messages
     = LLM.raw_completion router_completion litellm_completion other messages.
Proof.
  intros Hm Ht Hr Hi Hb.
  unfold LLM.raw_completion, LLM.raw_completion_kwargs, LLM.raw_thinking.
  now rewrite Hm, Ht, Hr, Hi, Hb.
Qed.

End GatewayEdges.

Lemma budget_reaches_direct_request_witness :
  LLM.kw_thinking
    (LLM.request_kwargs stub_structure
       (LLM.set_thinking true
          (fst (LLM.set_page_count 100 (LLM.__init__ "claude" None LLM.DEFAULT))))
       [] None)
  = Some (Some (LLM.Thinking "enabled" 50000)).
Proof.
  destruct (budget_reaches_direct_request stub_structure 100
              (LLM.__init__ "claude" None LLM.DEFAULT) [] None)
    as [_ [H _]]; [lia|lia|reflexivity|reflexivity|].
  exact H.
Defined.

Lemma routed_request_ignores_token_limit_witness :
  LLM.kw_max_tokens
    (LLM.request_kwargs stub_structure
       (fst (LLM.set_page_count 100
               (fst (LLM.load_router 7%nat
                       (LLM.__init__ "claude" None LLM.DEFAULT)))))
       [] None)
  = None.
Proof.
  destruct (routed_request_ignores_token_limit (fun _ => stub_transport)
              stub_transport stub_structure 100 7%nat
              (LLM.__init__ "claude" None LLM.DEFAULT) [] None)
    as [_ [H _]]; [lia|lia|reflexivity|].
  exact H.
Defined.

Lemma agent_backend_bypasses_transport_witness :
  LLM.load_router 7%nat (LLM.__init__ "openai:gpt-4o" None LLM.PYDANTIC_AI)
  = (LLM.__init__ "openai:gpt-4o" None LLM.PYDANTIC_AI,
     Some (ValueError "Router is only supported with LITELLM backend")).
Proof.
  apply (proj1 (agent_backend_bypasses_transport (fun _ => stub_transport)
                  stub_transport stub_agent stub_structure stub_extract
                  (LLM.__init__ "openai:gpt-4o" None LLM.PYDANTIC_AI)
                  [] None eq_refl)).
Defined.

Lemma agent_prompt_is_joined_contents_witness :
  LLM.request (fun _ => stub_transport) stub_transport stub_agent
    stub_structure stub_extract
    (LLM.__init__ "openai:gpt-4o" None LLM.PYDANTIC_AI)
    [Message "system" (VStr "extract"); Message "user" (VStr "page one")] None
  = Ok (VStr "extract page one").
Proof.
  apply (proj1 (agent_prompt_is_joined_contents (fun _ => stub_transport)
                  stub_transport stub_agent stub_structure stub_extract
                  (LLM.__init__ "openai:gpt-4o" None LLM.PYDANTIC_AI)
                  [Message "system" (VStr "extract");
                   Message "user" (VStr "page one")] None eq_refl)
           ["extract"; "page one"]%string);
    reflexivity.
Defined.

Lemma request_without_dynamic_prompt_witness :
  LLM.request (fun _ => stub_transport) stub_transport stub_agent
    stub_structure stub_extract (LLM.__init__ "gpt-4" None LLM.DEFAULT)
    [Message "user" (VStr "page")] (Some (RModel [("total", AInt)]))
  = stub_transport
      (LLM.request_kwargs stub_structure (LLM.__init__ "gpt-4" None LLM.DEFAULT)
         [Message "user" (VStr "page")] (Some (RModel [("total", AInt)]))).
Proof.
  destruct (proj1 (request_without_dynamic_prompt (fun _ => stub_transport)
                     stub_transport stub_agent stub_structure stub_extract
                     (LLM.__init__ "gpt-4" None LLM.DEFAULT)
                     [Message "user" (VStr "page")]
                     (Some (RModel [("total", AInt)])) eq_refl) eq_refl)
    as [_ [_ H]].
  exact H.
Defined.

Lemma raw_completion_frame_witness :
  LLM.raw_completion_kwargs
    (LLM.set_timeout 10 (LLM.set_dynamic true
                           (LLM.__init__ "claude" None LLM.DEFAULT))) []
  = LLM.raw_completion_kwargs (LLM.__init__ "claude" None LLM.PYDANTIC_AI) [].
Proof.
  apply (proj1 (raw_completion_frame (fun _ => stub_transport) stub_transport
                  (LLM.set_timeout 10 (LLM.set_dynamic true
                                         (LLM.__init__ "claude" None LLM.DEFAULT)))
                  (LLM.__init__ "claude" None LLM.PYDANTIC_AI) []
                  eq_refl eq_refl eq_refl eq_refl eq_refl)).
Defined.

(** * The pagination handler over the gateway *)

Section HandlerOverGateway.

Variable router_completion : LLM.Router -> LLM.completion_kwargs -> result pyval.
Variable client_create : LLM.completion_kwargs -> result pyval.
Variable agent_run : string -> option response_model -> result pyval.
Variable add_classification_structure : response_model -> string.
Variable extract_thinking_json : pyval -> option response_model -> result pyval.
Variable py_str : pyval -> string.
Variable order : list pyval -> list pyval.
Variable instantiate : schema -> dict -> result pyval.
Variable make_all_fields_optional : schema -> schema.
Variable yaml_dump : pyval -> string.
Variable encode_image : pyval -> result string.
Variable as_completed : list (result pyval) -> list (result pyval).

Lemma vision_futures_fail_on_agent (self : LLM.t) (m : schema)
  (extra : option string) :
  LLM.backend self = LLM.PYDANTIC_AI ->
  forall pages futures,
    submit_pages
      (LLM.request router_completion client_create agent_run
         add_classification_structure extract_thinking_json self)
      py_str instantiate yaml_dump encode_image pages m true extra = Ok futures ->
    Forall (fun fu => exists e, fu = Raise e) futures.
Proof.
  intros Hb. induction pages as [|page pages IH]; intros futures Hsub;
    simpl in Hsub.
  - inversion Hsub. constructor.
  - destruct (_build_vision_content py_str encode_image page) as [c|e];
      simpl in Hsub; [|discriminate].
    destruct (submit_pages _ py_str instantiate yaml_dump encode_image
                pages m true extra) as [fs|e]; simpl in Hsub; [|discriminate].
    inversion Hsub; subst. constructor; [|now apply IH].
    exists TypeError. unfold _process_page, LLM.request. rewrite Hb.
    destruct extra as [e|]; [destruct (String.eqb e "")|]; reflexivity.
Qed.

Lemma submit_pages_built
  (req : list message -> option response_model -> result pyval) (m : schema)
  (vision : bool) (extra : option string) :
  forall pages,
    Forall (fun page =>
              exists msgs,
                _build_messages py_str yaml_dump encode_image page vision
                = Ok msgs) pages ->
    exists futures,
      submit_pages req py_str instantiate yaml_dump encode_image
        pages m vision extra = Ok futures.
Proof.
  induction 1 as [|page pages [msgs Hb] _ [fs IH]]; simpl.
  - eauto.
  - rewrite Hb, IH. simpl. eauto.
Qed.

(** X24: with a gateway on the agent backend, vision mode never gives a
    result: [handle] raises on every input.  The user message of a page
    has a list as content, so the task of every page raises [TypeError],
    with or without extra content; when the messages of every page can be
    built, [handle] ends in the no-valid-results error. *)
Theorem vision_on_agent_backend_fails (self : LLM.t) (pages : list pyval)
  (m : schema) (extra : option string) :
  (forall l, Permutation (as_completed l) l) ->
  LLM.backend self = LLM.PYDANTIC_AI ->
  let gateway :=
    LLM.request router_completion client_create agent_run
      add_classification_structure extract_thinking_json self in
  (forall r,
      handle gateway py_str order instantiate make_all_fields_optional
        yaml_dump encode_image as_completed pages m true extra
      <> Ok r)
  /\ (Forall (fun page =>
                exists msgs,
                  _build_messages py_str yaml_dump encode_image page true
                  = Ok msgs) pages ->
      handle gateway py_str order instantiate make_all_fields_optional
        yaml_dump encode_image as_completed pages m true extra
      = Raise (ValueError "No valid results obtained from any page"))
  /\ (forall page msgs m',
         _build_messages py_str yaml_dump encode_image page true = Ok msgs ->
         _process_page gateway py_str instantiate msgs m' = Raise TypeError
         /\ forall e,
             _process_page gateway py_str instantiate
               (_add_extra_content msgs e) m'
             = Raise TypeError).
Proof.
  intros Hperm Hb gateway.
  assert (Hall : forall futures,
             submit_pages gateway py_str instantiate yaml_dump encode_image
               pages (make_all_fields_optional m) true extra = Ok futures ->
             handle gateway py_str order instantiate make_all_fields_optional
               yaml_dump encode_image as_completed pages m true extra
             = Raise (ValueError "No valid results obtained from any page")).
  { intros futures Hsub. unfold handle. rewrite Hsub. cbn [bind].
    pose proof (vision_futures_fail_on_agent self _ extra Hb pages futures Hsub)
      as Hfail.
    pose proof (collect_completed_perm _ _ (Hperm futures)) as Hp.
    rewrite (collect_completed_all_raise _ Hfail) in Hp.
    apply Permutation_sym, Permutation_nil in Hp. now rewrite Hp. }
  split; [|split].
  - intros r Hr.
    destruct (submit_pages gateway py_str instantiate yaml_dump encode_image
                pages (make_all_fields_optional m) true extra)
      as [futures|e] eqn:Hsub.
    + rewrite (Hall futures eq_refl) in Hr. discriminate.
    + unfold handle in Hr. rewrite Hsub in Hr. discriminate.
  - intros Hbuilt.
    destruct (submit_pages_built gateway (make_all_fields_optional m) true
                extra pages Hbuilt) as [futures Hsub].
    exact (Hall futures Hsub).
  - intros page msgs m' Hmsgs. unfold _build_messages in Hmsgs.
    destruct (_build_vision_content py_str encode_image page) as [c|e0];
      simpl in Hmsgs; [|discriminate].
    inversion Hmsgs; subst. unfold _process_page, gateway, LLM.request.
    rewrite Hb. split; [reflexivity|intros e; reflexivity].
Qed.

End HandlerOverGateway.

Lemma vision_on_agent_backend_fails_witness :
  handle
    (LLM.request (fun _ => stub_transport) stub_transport stub_agent
       stub_structure stub_extract
       (LLM.__init__ "openai:gpt-4o" None LLM.PYDANTIC_AI))
    stub_str cpython_set_order strict_construct (fun m => m) stub_str
    (fun _ => Ok "QUJD"%string) (@rev (result pyval))
    [VDict [("content", VStr "text"); ("image", VStr "a.png")]]
    [("total", AInt)] true None
  = Raise (ValueError "No valid results obtained from any page").
Proof.
  apply (proj1 (proj2 (vision_on_agent_backend_fails
                         (fun _ => stub_transport) stub_transport stub_agent
                         stub_structure stub_extract stub_str cpython_set_order
                         strict_construct (fun m => m) stub_str
                         (fun _ => Ok "QUJD"%string) (@rev (result pyval))
                         (LLM.__init__ "openai:gpt-4o" None LLM.PYDANTIC_AI)
                         [VDict [("content", VStr "text"); ("image", VStr "a.png")]]
                         [("total", AInt)] None
                         (fun l => Permutation_sym (Permutation_rev l))
                         eq_refl))).
  repeat constructor. eexists. reflexivity.
Defined.

(** * Conflicts that the resolver leaves open *)

Lemma merge_field_dict_is_marker (order : list pyval -> list pyval)
  (m : schema) (f : string) (values : list pyval) (d : dict) :
  set_order_ok order ->
  merge_field order m f values = Ok (VDict d) ->
  exists cs, VDict d = conflict_marker cs.
Proof.
  intros Hok. unfold merge_field, merge_scalar, list_set.
  destruct (is_list_field m f); [discriminate|].
  destruct (length (filter is_not_none values) =? 0)%nat; [discriminate|].
  destruct (forallb hashable (filter is_not_none values)) eqn:Hh;
    simpl; [|discriminate].
  destruct (Hok (filter is_not_none values)) as [_ Hin].
  destruct (order (filter is_not_none values)) as [|a [|b l]];
    intros H; inversion H; subst.
  - exists []. reflexivity.
  - exfalso. rewrite forallb_forall in Hh.
    assert (Ha : hashable (VDict d) = true)
      by (apply Hh, Hin; now left).
    discriminate Ha.
  - exists (a :: b :: l). reflexivity.
Qed.

Lemma merged_dicts_are_markers (order : list pyval -> list pyval)
  (m : schema) (results : list dict) (merged : dict) (k : string) (d : dict) :
  set_order_ok order ->
  merge_fields order m results = Ok merged ->
  In (k, VDict d) merged ->
  exists cs, VDict d = conflict_marker cs.
Proof.
  intros Hok Hm Hin. unfold merge_fields in Hm.
  pose proof (collect_values_NoDup results) as Hnd.
  assert (Hkeys : map fst merged = map fst (collect_values results)).
  { apply merge_loop_keys in Hm; simpl in *; auto. }
  apply In_dict_get in Hin; [|now rewrite Hkeys].
  pose proof (merge_loop_get order m _ _ _ Hnd Hm k) as Hget.
  destruct (dict_get k (collect_values results)) as [values|].
  - destruct Hget as [v [Hv Hk]]. rewrite Hin in Hk. inversion Hk; subst v.
    eapply merge_field_dict_is_marker; eauto.
  - simpl in Hget. congruence.
Qed.

Lemma has_conflicts_marker (py_str : pyval -> string) (d : dict) (m : schema)
  (f : string) (a : annotation) (cs : list pyval) :
  In (f, conflict_marker cs) d -> dict_get f m = Some a ->
  _has_conflicts py_str d m = true.
Proof.
  intros Hin Hf. induction d as [|[k v] d IH]; simpl in *; [destruct Hin|].
  destruct Hin as [Heq|Hin].
  - inversion Heq; subst. now rewrite Hf.
  - destruct (dict_get k m); auto.
    destruct (is_conflict_marker v); auto.
    destruct (is_list_conflict py_str _ v); auto.
Qed.

(** X25: a conflict that the resolver's reply does not mention stays in the
    record: [_merge_results] hands the schema constructor a mapping in
    which the field still holds its conflict marker. *)
Theorem unresolved_conflict_reaches_constructor
  (llm_request : list message -> option response_model -> result pyval)
  (py_str : pyval -> string) (order : list pyval -> list pyval)
  (instantiate : schema -> dict -> result pyval)
  (results : list pyval) (dicts : list dict) (merged : dict) (m : schema)
  (resolved : dict) (f : string) (a : annotation) (cs : list pyval) :
  set_order_ok order ->
  dump_all results = Ok dicts ->
  merge_fields order m dicts = Ok merged ->
  dict_get f m = Some a ->
  dict_get f merged = Some (conflict_marker cs) ->
  (forall conflicts,
      _identify_conflicts py_str merged m = Ok conflicts ->
      _request_conflict_resolution llm_request py_str conflicts
      = Ok (VDict resolved)) ->
  NoDup (map fst resolved) ->
  (forall k r, In (k, r) resolved -> dict_has k merged = true ->
               exists d v, r = VDict d /\ dict_get "value" d = Some v) ->
  dict_get f resolved = None ->
  exists out,
    _merge_results llm_request py_str order instantiate results m
    = instantiate m out
    /\ dict_get f out = Some (conflict_marker cs).
Proof.
  intros Hok Hdump Hm Hf Hmark Hreply Hnd Hwf Homit.
  pose proof (dict_get_In _ _ _ Hmark) as Hin.
  assert (Hshape : forall k d, In (k, VDict d) merged ->
                               is_conflict_marker (VDict d) = true ->
                               dict_has "candidates" d = true).
  { intros k d Hk _.
    destruct (merged_dicts_are_markers order m dicts merged k d Hok Hm Hk)
      as [cs' Hd].
    inversion Hd; subst. reflexivity. }
  destruct (identify_loop_ok py_str m merged [] Hshape) as [conflicts [Hid Hne]].
  assert (Hnonempty : conflicts <> []) by (apply Hne; right; eauto).
  destruct (merge_resolved_loop_spec resolved merged Hnd Hwf)
    as [out [Hrun [_ Hget]]].
  exists out. split.
  - unfold _merge_results. rewrite Hdump. cbn [bind]. rewrite Hm. cbn [bind].
    rewrite (has_conflicts_marker py_str merged m f a cs Hin Hf).
    unfold _resolve_conflicts. fold (_identify_conflicts py_str merged m) in Hid.
    rewrite Hid. cbn [bind].
    destruct conflicts as [|c0 conflicts]; [congruence|].
    rewrite (Hreply _ Hid). cbn [bind]. simpl _merge_resolved_conflicts.
    now rewrite Hrun.
  - rewrite Hget. unfold resolved_value. now rewrite Homit.
Qed.

Lemma unresolved_conflict_reaches_constructor_witness :
  exists out,
    _merge_results
      (fun _ _ => Ok (VDict [("resolved_fields", VDict [])]))
      stub_str cpython_set_order strict_construct
      [VDict [("total", VInt 10)]; VDict [("total", VInt 12)]]
      [("total", AInt)]
    = strict_construct [("total", AInt)] out
    /\ dict_get "total" out = Some (conflict_marker [VInt 10; VInt 12]).
Proof.
  apply (unresolved_conflict_reaches_constructor
           (fun _ _ => Ok (VDict [("resolved_fields", VDict [])]))
           stub_str cpython_set_order strict_construct
           [VDict [("total", VInt 10)]; VDict [("total", VInt 12)]]
           [[("total", VInt 10)]; [("total", VInt 12)]]
           [("total", conflict_marker [VInt 10; VInt 12])]
           [("total", AInt)] [] "total" AInt [VInt 10; VInt 12]).
  - apply cpython_set_order_ok.
  - reflexivity.
  - reflexivity.
  - reflexivity.
  - reflexivity.
  - intros conflicts _. reflexivity.
  - constructor.
  - intros k r [].
  - reflexivity.
Defined.

(** * What the resolver is asked *)

Lemma identify_loop_spec (py_str : pyval -> string) (m : schema) :
  forall d acc out,
    NoDup (map fst d) ->
    identify_loop py_str d m acc = Ok out ->
    forall f,
      dict_get f out =
      match dict_get f d with
      | Some v => match conflict_entry py_str m f v with
                  | Some c => Some c
                  | None => dict_get f acc
                  end
      | None => dict_get f acc
      end.
Proof.
  induction d as [|[k v] d IH]; intros acc out Hnd Hrun f; simpl in Hrun.
  - now inversion Hrun.
  - inversion Hnd as [|? ? Hnotin Hnd']; subst.
    apply dict_get_None_keys in Hnotin. simpl.
    unfold conflict_entry at 1.
    destruct (String.eqb_spec f k) as [->|Hne].
    + destruct (dict_get k m) as [a|].
      * destruct (is_conflict_marker v) eqn:Hmark.
        -- destruct v; try discriminate.
           unfold dict_index in Hrun.
           destruct (dict_get "candidates" l) as [c|]; simpl in Hrun;
             [|discriminate].
           rewrite (IH _ _ Hnd' Hrun k), Hnotin. apply dict_get_set_eq.
        -- destruct (is_list_conflict py_str a v).
           ++ rewrite (IH _ _ Hnd' Hrun k), Hnotin. apply dict_get_set_eq.
           ++ now rewrite (IH _ _ Hnd' Hrun k), Hnotin.
      * now rewrite (IH _ _ Hnd' Hrun k), Hnotin.
    + destruct (dict_get k m) as [a|].
      * destruct (is_conflict_marker v) eqn:Hmark.
        -- destruct v; try discriminate.
           unfold dict_index in Hrun.
           destruct (dict_get "candidates" l) as [c|]; simpl in Hrun;
             [|discriminate].
           rewrite (IH _ _ Hnd' Hrun f).
           now rewrite (dict_get_set_neq _ _ _ _ Hne).
        -- destruct (is_list_conflict py_str a v).
           ++ rewrite (IH _ _ Hnd' Hrun f).
              now rewrite (dict_get_set_neq _ _ _ _ Hne).
           ++ now rewrite (IH _ _ Hnd' Hrun f).
      * now rewrite (IH _ _ Hnd' Hrun f).
Qed.

(** X26: the conflicts sent to the resolver are exactly the flagged fields
    of the schema: a field with a conflict marker is listed with its
    candidates, a list field with repeated entries with the whole list,
    and every other field is left out. *)
Theorem identified_conflicts (py_str : pyval -> string) (d : dict)
  (m : schema) (conflicts : dict) :
  NoDup (map fst d) ->
  _identify_conflicts py_str d m = Ok conflicts ->
  forall f,
    dict_get f conflicts =
    match dict_get f d with
    | Some v => conflict_entry py_str m f v
    | None => None
    end.
Proof.
  intros Hnd Hrun f. unfold _identify_conflicts in Hrun.
  rewrite (identify_loop_spec py_str m d [] conflicts Hnd Hrun f). simpl.
  destruct (dict_get f d) as [v|]; auto.
  now destruct (conflict_entry py_str m f v).
Qed.

Lemma identified_conflicts_witness :
  dict_get "total"
    [("total", VList [VInt 10; VInt 12]);
     ("items", VList [VStr "pen"; VStr "pen"])]
  = match dict_get "total"
            [("total", conflict_marker [VInt 10; VInt 12]);
             ("vendor", VStr "ACME");
             ("items", VList [VStr "pen"; VStr "pen"])] with
    | Some v => conflict_entry stub_str
                  [("total", AInt); ("vendor", AStr); ("items", AList AStr)]
                  "total" v
    | None => None
    end.
Proof.
  apply (identified_conflicts stub_str
           [("total", conflict_marker [VInt 10; VInt 12]);
            ("vendor", VStr "ACME");
            ("items", VList [VStr "pen"; VStr "pen"])]
           [("total", AInt); ("vendor", AStr); ("items", AList AStr)]).
  - repeat constructor; simpl; intuition discriminate.
  - reflexivity.
Defined.
